(** * Hooks: a shallow embedding of the hook scripts and of the deployer

    The repository holds single-shot scripts: two command rewriters
    ([npm-to-pnpm.py], [grep-to-rg.py]), three loggers ([command-tracker.py],
    [session-tracker.py], [subagent-tracker.py]), a test runner
    ([test-runner.py]) and the deployer ([deploy_hooks.py]).

    Each script is embedded as a function from what it reads (standard input,
    environment variables, the stores on disk) to what it leaves behind
    (standard output, the stores, how the process ends).  The first half of
    the file holds the definitions, module by module and in the order of the
    source; the second half holds the lemmas and theorems.

    Python [str] values are Rocq [string]s: sequences of characters with code
    points below 256.  The character classes of [re] and [str] are written
    out for that whole range. *)

From Stdlib Require Import String Ascii List ZArith NArith Lia Bool.
From Stdlib Require Import Floats Uint63.
From stdpp Require Import gmap strings list pretty.

Open Scope string_scope.
Open Scope list_scope.

(* ===================================================================== *)
(** ** Python strings *)
(* ===================================================================== *)

Module PyStr.

Definition code (c : ascii) : N := N_of_ascii c.

Definition between (lo hi : N) (c : ascii) : bool :=
  ((lo <=? code c) && (code c <=? hi))%N.

(** [\w] of a [str] pattern: alphanumeric characters and the underscore. *)
Definition is_word (c : ascii) : bool :=
  between 48 57 c || between 65 90 c || between 95 95 c || between 97 122 c
  || between 170 170 c || between 178 179 c || between 181 181 c
  || between 185 186 c || between 188 190 c || between 192 214 c
  || between 216 246 c || between 248 255 c.

(** [\s] of a [str] pattern, and the characters [str.strip()] removes. *)
Definition is_space (c : ascii) : bool :=
  between 9 13 c || between 28 32 c || between 133 133 c || between 160 160 c.

(** [str.lower()], one character at a time. *)
Definition lower_char (c : ascii) : ascii :=
  if between 65 90 c || between 192 214 c || between 216 222 c
  then ascii_of_N (code c + 32)
  else c.

Fixpoint lower (s : string) : string :=
  match s with
  | EmptyString => EmptyString
  | String c s' => String (lower_char c) (lower s')
  end.

(** [s.startswith(p)]. *)
Fixpoint startswith (p s : string) : bool :=
  match p, s with
  | EmptyString, _ => true
  | String a p', String b s' => Ascii.eqb a b && startswith p' s'
  | String _ _, EmptyString => false
  end.

(** [s[n:]]. *)
Fixpoint drop (n : nat) (s : string) : string :=
  match n, s with
  | O, _ => s
  | S n', String _ s' => drop n' s'
  | S _, EmptyString => EmptyString
  end.

(** [sub in s]. *)
Fixpoint contains (sub s : string) : bool :=
  startswith sub s
  || match s with
     | EmptyString => false
     | String _ s' => contains sub s'
     end.

(** [s.replace(old, new)] for a non-empty [old]: the occurrences of [old]
    are found from left to right and do not overlap.  [skip] counts the
    characters of the occurrence at hand that are still to be dropped. *)
Fixpoint replace_from (old new s : string) (skip : nat) : string :=
  match s with
  | EmptyString => EmptyString
  | String c s' =>
      match skip with
      | S n => replace_from old new s' n
      | O =>
          if startswith old s
          then new +:+ replace_from old new s' (String.length old - 1)
          else String c (replace_from old new s' 0)
      end
  end.

(** With an empty [old], Python puts [new] before every character and at
    the end. *)
Fixpoint intersperse (new s : string) : string :=
  match s with
  | EmptyString => new
  | String c s' => new +:+ String c (intersperse new s')
  end.

Definition replace (old new s : string) : string :=
  match old with
  | EmptyString => intersperse new s
  | String _ _ => replace_from old new s 0
  end.

(** [sep.join(parts)]. *)
Fixpoint join (sep : string) (parts : list string) : string :=
  match parts with
  | [] => EmptyString
  | [p] => p
  | p :: ps => p +:+ sep +:+ join sep ps
  end.

(** [s.split(sep)] for a one-character separator; [cur] is the piece being
    read, in reverse. *)
Fixpoint split_from (sep : ascii) (s : string) (cur : string) : list string :=
  match s with
  | EmptyString => [String.rev cur]
  | String c s' =>
      if Ascii.eqb c sep
      then String.rev cur :: split_from sep s' EmptyString
      else split_from sep s' (String c cur)
  end.

Definition split (sep : ascii) (s : string) : list string :=
  split_from sep s EmptyString.

Fixpoint lstrip (s : string) : string :=
  match s with
  | EmptyString => EmptyString
  | String c s' => if is_space c then lstrip s' else s
  end.

Definition rstrip (s : string) : string :=
  String.rev (lstrip (String.rev s)).

(** [s.strip()]. *)
Definition strip (s : string) : string := rstrip (lstrip s).

(** Truth value of a string: [if s]. *)
Definition truthy (s : string) : bool :=
  match s with
  | EmptyString => false
  | String _ _ => true
  end.

End PyStr.

(* ===================================================================== *)
(** ** The fragment of [re] the hooks use *)
(* ===================================================================== *)

Module Re.

(** One-character atoms. *)
Inductive cls :=
| Chr (c : ascii)   (* a literal character *)
| Dot               (* [.]: any character but a newline *)
| Space.            (* [\s] *)

Inductive regex :=
| Eps
| One (k : cls)
| Many (k : cls)            (* [k*], greedy *)
| Seq (r1 r2 : regex)
| Alt (r1 r2 : regex)       (* [r1|r2], left first *)
| WordB                     (* [\b] *)
| Eol                       (* [$] without MULTILINE *)
| NotAhead (r : regex).     (* [(?!r)] *)

Definition newline : ascii := ascii_of_N 10.

Definition cls_ok (k : cls) (c : ascii) : bool :=
  match k with
  | Chr a => Ascii.eqb a c
  | Dot => negb (Ascii.eqb c newline)
  | Space => PyStr.is_space c
  end.

(** A position in the subject is the character before it, if any, and the
    text from it on. *)
Definition word_before (prev : option ascii) : bool :=
  match prev with
  | Some c => PyStr.is_word c
  | None => false
  end.

Definition word_after (s : string) : bool :=
  match s with
  | String c _ => PyStr.is_word c
  | EmptyString => false
  end.

Definition at_boundary (prev : option ascii) (s : string) : bool :=
  negb (Bool.eqb (word_before prev) (word_after s)).

(** [$]: the end of the subject, or just before a newline that ends it. *)
Definition at_eol (s : string) : bool :=
  match s with
  | EmptyString => true
  | String c EmptyString => Ascii.eqb c newline
  | String _ (String _ _) => false
  end.

Definition cont := option ascii -> string -> option string.

(** [k*] followed by [next]: as many characters as possible first, one
    fewer on each failure of what follows. *)
Fixpoint many (k : cls) (prev : option ascii) (s : string) (next : cont)
  : option string :=
  match s with
  | String c s' =>
      if cls_ok k c
      then match many k (Some c) s' next with
           | Some rest => Some rest
           | None => next prev s
           end
      else next prev s
  | EmptyString => next prev s
  end.

(** The backtracking matcher: [run r prev s next] matches [r] at the
    position [(prev, s)] and hands the position it stopped at to [next];
    the answer is what is left of the subject after the whole match. *)
Fixpoint run (r : regex) (prev : option ascii) (s : string) (next : cont)
  : option string :=
  match r with
  | Eps => next prev s
  | One k =>
      match s with
      | String c s' => if cls_ok k c then next (Some c) s' else None
      | EmptyString => None
      end
  | Many k => many k prev s next
  | Seq r1 r2 => run r1 prev s (fun p t => run r2 p t next)
  | Alt r1 r2 =>
      match run r1 prev s next with
      | Some rest => Some rest
      | None => run r2 prev s next
      end
  | WordB => if at_boundary prev s then next prev s else None
  | Eol => if at_eol s then next prev s else None
  | NotAhead r' =>
      match run r' prev s (fun _ t => Some t) with
      | Some _ => None
      | None => next prev s
      end
  end.

(** The match of [r] that starts at this position: what follows it. *)
Definition match_here (r : regex) (prev : option ascii) (s : string)
  : option string :=
  run r prev s (fun _ t => Some t).

(** Its length. *)
Definition match_len (r : regex) (prev : option ascii) (s : string)
  : option nat :=
  match match_here r prev s with
  | Some rest => Some (String.length s - String.length rest)
  | None => None
  end.

(** [re.search(r, s)] as a truth value, from the position [(prev, s)]. *)
Fixpoint search_from (r : regex) (prev : option ascii) (s : string) : bool :=
  match match_here r prev s with
  | Some _ => true
  | None =>
      match s with
      | EmptyString => false
      | String c s' => search_from r (Some c) s'
      end
  end.

Definition search (r : regex) (s : string) : bool := search_from r None s.

(** [re.sub(r, repl, s)] for a replacement without group references:
    the matches are found from left to right and do not overlap; [skip]
    counts the characters of the match at hand still to be dropped.  A
    match of length zero puts [repl] before the character it stands at. *)
Fixpoint sub_from (r : regex) (repl : string) (prev : option ascii)
    (s : string) (skip : nat) : string :=
  match s with
  | EmptyString =>
      match skip, match_len r prev s with
      | O, Some _ => repl
      | _, _ => EmptyString
      end
  | String c s' =>
      match skip with
      | S n => sub_from r repl (Some c) s' n
      | O =>
          match match_len r prev s with
          | Some (S n) => repl +:+ sub_from r repl (Some c) s' n
          | Some O => repl +:+ String c (sub_from r repl (Some c) s' 0)
          | None => String c (sub_from r repl (Some c) s' 0)
          end
      end
  end.

Definition sub (r : regex) (repl s : string) : string :=
  sub_from r repl None s 0.

(** A literal text. *)
Fixpoint lit (s : string) : regex :=
  match s with
  | EmptyString => Eps
  | String c s' => Seq (One (Chr c)) (lit s')
  end.

(** [k+]. *)
Definition some (k : cls) : regex := Seq (One k) (Many k).

(** [r1 r2 ... rn]. *)
Fixpoint seq (rs : list regex) : regex :=
  match rs with
  | [] => Eps
  | r :: rs' => Seq r (seq rs')
  end.

(** [r1|r2|...|rn]. *)
Fixpoint alt (rs : list regex) : regex :=
  match rs with
  | [] => NotAhead Eps
  | [r] => r
  | r :: rs' => Alt r (alt rs')
  end.

(** *** Positions *)

(** The character before the position reached by reading [x]. *)
Fixpoint after (prev : option ascii) (x : string) : option ascii :=
  match x with
  | EmptyString => prev
  | String c x' => after (Some c) x'
  end.

End Re.

(* ===================================================================== *)
(** ** How a hook process ends *)
(* ===================================================================== *)

(** A script ends by [sys.exit(code)], by reaching its last line, or by an
    exception nobody caught; the interpreter turns the latter into a
    traceback on the error stream and exit status 1. *)
Inductive ending :=
| SysExit (status : Z)
| Finished                       (* the script ran to its last line *)
| Uncaught (exception : string).


(** What [json.load(sys.stdin)] found.  [Json d]: a JSON object typed as the
    hook contract types it; [d] holds the fields the script looks up, each
    of them absent or of the type the contract gives it.  [NotJson]: text
    that is not JSON.  A JSON document of another shape (not an object, or
    with a field of another type, [null] among them) is neither of the two;
    what the rewriters and the test runner do with one is the subject of
    the section on JSON documents of any shape. *)
Inductive stdin (doc : Type) :=
| Json (d : doc)
| NotJson.
Arguments Json {doc} d.
Arguments NotJson {doc}.

(** The response of a command rewriter, written to standard output. *)
Record hook_output := {
  hookEventName : string;
  permissionDecision : string;
  updatedInput_command : string;
}.

(** The request both command rewriters read: [tool_name], and [command]
    inside [tool_input]; [None] stands for a key that is absent. *)
Record rewrite_request := {
  rq_tool_name : option string;
  rq_command : option string;
}.

Record rewrite_run := {
  rw_stdout : option hook_output;
  rw_ending : ending;
}.

(** A Bash request for a command, and the run of a rewriter that writes
    nothing. *)
Definition bash (command : string) : rewrite_request :=
  {| rq_tool_name := Some "Bash"; rq_command := Some command |}.

Definition no_output : rewrite_run :=
  {| rw_stdout := None; rw_ending := SysExit 0 |}.

(* ===================================================================== *)
(** ** npm-to-pnpm.py *)
(* ===================================================================== *)

Module NpmToPnpm.
Import Re.

(** [\bnpm\b] *)
Definition re_npm : regex := seq [WordB; lit "npm"; WordB].

(** [\bnpm\s+<sub>\s+(?!$)(?!-)] *)
Definition re_install_arg (subcommand : string) : regex :=
  seq [WordB; lit "npm"; some Space; lit subcommand; some Space;
       NotAhead Eol; NotAhead (lit "-")].

(** [\bnpm\s+<sub>\s+-g\b] *)
Definition re_install_global (subcommand : string) : regex :=
  seq [WordB; lit "npm"; some Space; lit subcommand; some Space;
       lit "-g"; WordB].

(** [\bnpm\s+<sub>\b] *)
Definition re_uninstall (subcommand : string) : regex :=
  seq [WordB; lit "npm"; some Space; lit subcommand; WordB].

(** [\bnpm\s+<sub>\s*$] *)
Definition re_install_bare (subcommand : string) : regex :=
  seq [WordB; lit "npm"; some Space; lit subcommand; Many Space; Eol].

(** The special cases, in the order of the script. *)
Definition special_rules : list (regex * string) :=
  [ (re_install_arg "install", "pnpm add ");
    (re_install_arg "i", "pnpm add ");
    (re_install_global "install", "pnpm add -g");
    (re_install_global "i", "pnpm add -g");
    (re_uninstall "uninstall", "pnpm remove");
    (re_uninstall "un", "pnpm remove");
    (re_install_bare "install", "pnpm install");
    (re_install_bare "i", "pnpm install") ].

Definition apply_rule (command : string) (rule : regex * string) : string :=
  Re.sub (fst rule) (snd rule) command.

Definition apply_special (command : string) : string :=
  fold_left apply_rule special_rules command.

(** "All other npm commands -> pnpm". *)
Definition apply_generic (command : string) : string :=
  Re.sub re_npm "pnpm" command.

Definition convert (command : string) : string :=
  apply_generic (apply_special command).

Definition respond (new_command : string) : hook_output :=
  {| hookEventName := "PreToolUse";
     permissionDecision := "allow";
     updatedInput_command := new_command |}.

Definition hook (input_data : rewrite_request) : rewrite_run :=
  if negb (bool_decide (rq_tool_name input_data = Some "Bash"))
  then {| rw_stdout := None; rw_ending := SysExit 0 |}
  else
    let command := default "" (rq_command input_data) in
    if negb (Re.search re_npm command)
    then {| rw_stdout := None; rw_ending := SysExit 0 |}
    else {| rw_stdout := Some (respond (convert command));
            rw_ending := SysExit 0 |}.

Definition main (input : stdin rewrite_request) : rewrite_run :=
  match input with
  | NotJson => {| rw_stdout := None; rw_ending := Uncaught "JSONDecodeError" |}
  | Json input_data => hook input_data
  end.

(** *** Notions for its properties *)

(** A whole word [npm] starts at the position [(prev, s)]. *)
Definition npm_here (prev : option ascii) (s : string) : bool :=
  negb (word_before prev)
  && PyStr.startswith "npm" s
  && negb (word_after (PyStr.drop 3 s)).

End NpmToPnpm.

(* ===================================================================== *)
(** ** grep-to-rg.py *)
(* ===================================================================== *)

Module GrepToRg.

Definition respond (new_command : string) : hook_output :=
  {| hookEventName := "PreToolUse";
     permissionDecision := "allow";
     updatedInput_command := new_command |}.

Definition hook (input_data : rewrite_request) : rewrite_run :=
  if negb (bool_decide (rq_tool_name input_data = Some "Bash"))
  then {| rw_stdout := None; rw_ending := SysExit 0 |}
  else
    let command := default "" (rq_command input_data) in
    if PyStr.contains "grep" command
    then {| rw_stdout := Some (respond (PyStr.replace "grep" "rg" command));
            rw_ending := SysExit 0 |}
    else {| rw_stdout := None; rw_ending := SysExit 0 |}.

Definition main (input : stdin rewrite_request) : rewrite_run :=
  match input with
  | NotJson => {| rw_stdout := None; rw_ending := Uncaught "JSONDecodeError" |}
  | Json input_data => hook input_data
  end.

End GrepToRg.

(* ===================================================================== *)
(** ** test-runner.py *)
(* ===================================================================== *)

Module TestRunner.
Import Re.

(** [(js|ts|jsx|tsx)] *)
Definition js_ext : regex := alt [lit "js"; lit "ts"; lit "jsx"; lit "tsx"].

(** The dictionary [TEST_PATTERNS], in the order it is written. *)
Definition TEST_PATTERNS : list (string * list regex) :=
  [ ("python",
      [ seq [lit "test_"; Many Dot; lit ".py"; Eol];
        seq [Many Dot; lit "_test.py"; Eol] ]);
    ("javascript",
      [ seq [Many Dot; lit ".test."; js_ext; Eol];
        seq [Many Dot; lit ".spec."; js_ext; Eol] ]);
    ("go", [ seq [Many Dot; lit "_test.go"; Eol] ]);
    ("rust", [ seq [lit "tests/"; Many Dot; lit ".rs"; Eol] ]) ].

(** The inner loop of [is_test_file]: the patterns of one language. *)
Fixpoint any_pattern (patterns : list regex) (file_path : string) : bool :=
  match patterns with
  | [] => false
  | pattern :: rest =>
      if Re.search pattern file_path then true else any_pattern rest file_path
  end.

(** The outer loop: it returns at the first language with a pattern that
    matches.  [Some language] is [(True, language)], [None] is
    [(False, None)]. *)
Fixpoint first_language (table : list (string * list regex))
    (file_path : string) : option string :=
  match table with
  | [] => None
  | (language, patterns) :: rest =>
      if any_pattern patterns file_path
      then Some language
      else first_language rest file_path
  end.

Definition is_test_file (file_path : string) : option string :=
  first_language TEST_PATTERNS file_path.

(** What the script sees of the machine it runs on. *)
Inductive manifest :=
| Unreadable                          (* [open] or [json.load] raises *)
| Manifest (has_test_script : bool).

Inductive completed :=
| Completed (returncode : Z) (output : string)
| TimeoutExpired
| Raised (exception : string).

Record world := {
  CLAUDE_FILE_PATHS : option string;
  CLAUDE_PROJECT_DIR : option string;
  getcwd : string;
  isfile : string -> bool;
  path_exists : string -> bool;
  package_json : manifest;
  subprocess_run : string -> completed;
}.

(** [os.path.join(a, b)] for a relative [b]. *)
Definition path_join (a b : string) : string :=
  match a with
  | EmptyString => b
  | String _ _ =>
      if Ascii.eqb (default "/"%char (String.get (String.length a - 1) a))
                   "/"%char
      then a +:+ b
      else a +:+ "/" +:+ b
  end.

Definition detect_test_framework (w : world) (language : option string)
    (project_dir : string) : option string :=
  if bool_decide (language = Some "python") then
    if path_exists w (path_join project_dir "pytest.ini")
       || path_exists w (path_join project_dir "pyproject.toml")
    then Some "pytest"
    else Some "python -m unittest"
  else if bool_decide (language = Some "javascript") then
    if path_exists w (path_join project_dir "package.json")
    then match package_json w with
         | Manifest true => Some "npm test"
         | Manifest false => Some "npm test"
         | Unreadable => Some "npm test"
         end
    else Some "npm test"
  else if bool_decide (language = Some "go") then Some "go test"
  else if bool_decide (language = Some "rust") then Some "cargo test"
  else None.

(** The lines of the error stream, by kind.  The summary line and the
    tail of the child's output, both text cut out of that output, are not
    kept. *)
Inductive diagnostic :=
| Running (test_command : string)
| AllPassed
| SomeFailed
| TimedOut
| ErrorRunning (exception : string)
| NoFramework (language : option string).

(** The double quote character, as a text. *)
Definition dquote : string := String (ascii_of_N 34) EmptyString.

(** The scope decision of [run_tests]: the shell command it runs.
    [test_files[0]] raises on an empty list. *)
Definition scoped_command (test_command : string) (test_files : list string)
    (project_dir : string) : option string :=
  if (length test_files <=? 3)%nat then
    if PyStr.contains "pytest" test_command then
      Some ("cd " +:+ project_dir +:+ " && pytest "
            +:+ PyStr.join " " test_files +:+ " -v")
    else if PyStr.contains "npm test" test_command then
      match test_files with
      | first :: _ =>
          Some ("cd " +:+ project_dir +:+ " && npm test -- --testPathPattern="
                +:+ dquote +:+ first +:+ dquote)
      | [] => None
      end
    else if PyStr.contains "go test" test_command then
      Some ("cd " +:+ project_dir +:+ " && go test -v "
            +:+ PyStr.join " " test_files)
    else if PyStr.contains "cargo test" test_command then
      Some ("cd " +:+ project_dir +:+ " && cargo test")
    else
      Some ("cd " +:+ project_dir +:+ " && " +:+ test_command)
  else
    Some ("cd " +:+ project_dir +:+ " && " +:+ test_command).

Record run := {
  executed : option string;       (* the command handed to the shell *)
  stderr : list diagnostic;
  ending_of : ending;
}.

Definition run_tests (w : world) (test_command : string)
    (test_files : list string) (project_dir : string) : run :=
  match scoped_command test_command test_files project_dir with
  | None =>
      {| executed := None; stderr := [Running test_command];
         ending_of := Uncaught "IndexError" |}
  | Some cmd =>
      {| executed := Some cmd;
         stderr :=
           Running test_command ::
           match subprocess_run w cmd with
           | Completed returncode _ =>
               if (returncode =? 0)%Z then [AllPassed] else [SomeFailed]
           | TimeoutExpired => [TimedOut]
           | Raised e => [ErrorRunning e]
           end;
         ending_of := SysExit 0 |}
  end.

(** The loop over the touched files: the test files in touched order, and
    the language of the first of them. *)
Fixpoint scan (w : world) (file_paths : list string)
    (test_files : list string) (language : option string)
  : list string * option string :=
  match file_paths with
  | [] => (test_files, language)
  | file_path :: rest =>
      if PyStr.truthy file_path && isfile w file_path then
        match is_test_file file_path with
        | Some detected_lang =>
            scan w rest (test_files ++ [file_path])
                 (match language with
                  | None => Some detected_lang
                  | Some l => Some l
                  end)
        | None => scan w rest test_files language
        end
      else scan w rest test_files language
  end.

(** [[p.strip() for p in s.split(",") if p.strip()]] *)
Definition parse_paths (file_paths_str : string) : list string :=
  List.filter PyStr.truthy (map PyStr.strip (PyStr.split "," file_paths_str)).

Definition silent : run :=
  {| executed := None; stderr := []; ending_of := SysExit 0 |}.

Record request := { tool_name : option string }.

Definition hook (w : world) (input_data : request) : run :=
  let tool_name := default "" (tool_name input_data) in
  if negb (bool_decide (tool_name = "Edit") || bool_decide (tool_name = "Write"))
  then silent
  else
    let file_paths_str := default "" (CLAUDE_FILE_PATHS w) in
    if negb (PyStr.truthy file_paths_str) then silent
    else
      let file_paths := parse_paths file_paths_str in
      let '(test_files, language) := scan w file_paths [] None in
      match test_files with
      | [] => silent
      | _ :: _ =>
          let project_dir := default (getcwd w) (CLAUDE_PROJECT_DIR w) in
          match detect_test_framework w language project_dir with
          | None =>
              {| executed := None; stderr := [NoFramework language];
                 ending_of := SysExit 0 |}
          | Some test_command =>
              run_tests w test_command test_files project_dir
          end
      end.

Definition main (w : world) (input : stdin request) : run :=
  match input with
  | NotJson =>
      {| executed := None; stderr := []; ending_of := Uncaught "JSONDecodeError" |}
  | Json input_data => hook w input_data
  end.

(** *** Notions for its properties *)

(** A pattern of this language matches the path. *)
Definition matches_language (file_path : string)
    (entry : string * list Re.regex) : bool :=
  existsb (fun pattern => Re.search pattern file_path) (snd entry).

(** The touched file exists and is a test file. *)
Definition existing_test (w : world) (file_path : string) : bool :=
  PyStr.truthy file_path && isfile w file_path
  && match is_test_file file_path with Some _ => true | None => false end.

(** The touched files the hook reads from its environment. *)
Definition touched (w : world) : list string :=
  parse_paths (default "" (CLAUDE_FILE_PATHS w)).

Definition project_dir_of (w : world) : string :=
  default (getcwd w) (CLAUDE_PROJECT_DIR w).

End TestRunner.

(* ===================================================================== *)
(** ** The part of SQLite the loggers rely on *)
(* ===================================================================== *)

Module Sqlite.

(** A store file.  [Broken]: it cannot be opened or read, or another
    process holds its lock; every statement raises.  [Usable None]: the
    file is new or empty, the table does not exist yet.  [Usable (Some t)]:
    the file holds the table [t] of the logger that owns the store. *)
Inductive store (T : Type) :=
| Broken
| Usable (table : option T).
Arguments Broken {T}.
Arguments Usable {T} table.

(** A value of [CURRENT_TIMESTAMP]: the text [YYYY-MM-DD HH:MM:SS]. *)
Record datetime := {
  year : Z; month : Z; day : Z;
  hour : Z; minute : Z; second : Z;
}.

Definition fields (t : datetime) : list Z :=
  [year t; month t; day t; hour t; minute t; second t].

(** Two such texts compare as their fields do, from the left. *)
Fixpoint lex_ltb (a b : list Z) : bool :=
  match a, b with
  | x :: a', y :: b' => (x <? y)%Z || ((x =? y)%Z && lex_ltb a' b')
  | _, _ => false
  end.

Definition before (a b : datetime) : bool := lex_ltb (fields a) (fields b).

(** [MAX(timestamp)] and [MIN(timestamp)]; [None] is NULL, the answer over
    no row. *)
Definition sql_max (ts : list datetime) : option datetime :=
  match ts with
  | [] => None
  | t :: rest => Some (fold_left (fun m x => if before m x then x else m) rest t)
  end.

Definition sql_min (ts : list datetime) : option datetime :=
  match ts with
  | [] => None
  | t :: rest => Some (fold_left (fun m x => if before x m then x else m) rest t)
  end.

(** The Julian day number in milliseconds, as [computeJD] of SQLite's
    [date.c] finds it from the fields. *)
Definition iJD (t : datetime) : Z :=
  let Y := if (month t <=? 2)%Z then (year t - 1)%Z else year t in
  let M := if (month t <=? 2)%Z then (month t + 12)%Z else month t in
  let A := (Y ÷ 100)%Z in
  let B := (2 - A + A ÷ 4)%Z in
  let X1 := (36525 * (Y + 4716) ÷ 100)%Z in
  let X2 := (306001 * (M + 1) ÷ 10000)%Z in
  ((2 * (X1 + X2 + day t + B) - 3049) * 43200000
   + hour t * 3600000 + minute t * 60000 + second t * 1000)%Z.

(** [julianday(t)]: a double, [iJD / 86400000.0]. *)
Definition julianday (t : datetime) : float :=
  (PrimFloat.of_uint63 (Uint63.of_Z (iJD t)) / 86400000)%float.

(** [CAST(x AS INTEGER)] of a double: the fraction is dropped. *)
Definition cast_integer (x : float) : Z :=
  match Prim2SF x with
  | S754_finite negative m e =>
      let magnitude :=
        if (0 <=? e)%Z then Z.shiftl (Z.pos m) e else Z.shiftr (Z.pos m) (- e) in
      if negative then (- magnitude)%Z else magnitude
  | _ => 0%Z
  end.

(** [CAST((julianday(b) - julianday(a)) * 24 * 60 * 60 AS INTEGER)] *)
Definition seconds_between (a b : datetime) : Z :=
  cast_integer ((julianday b - julianday a) * 24 * 60 * 60)%float.

(** The whole seconds that really lie between two timestamps. *)
Definition elapsed (a b : datetime) : Z := ((iJD b - iJD a) / 1000)%Z.

Definition has_columns (needed columns : list string) : bool :=
  forallb (fun c => existsb (String.eqb c) columns) needed.

End Sqlite.

(* ===================================================================== *)
(** ** command-tracker.py *)
(* ===================================================================== *)

Module CommandTracker.
Import Sqlite.

(** [tool_input]: the four fields the script looks up, and the rest. *)
Record tool_input := {
  file_path : option string;
  command : option string;
  pattern : option string;
  description : option string;
  other_params : list (string * string);
}.

Record request := {
  tool_name : option string;
  tool_input_of : option tool_input;
}.

(** A row of [tool_calls].  [params_json] holds the text
    [json.dumps(tool_input)], kept here as the value it encodes. *)
Record tool_call := {
  id : Z;
  session_id : string;
  timestamp : datetime;
  tool_type : string;
  row_file_path : option string;
  row_command : option string;
  row_pattern : option string;
  row_description : option string;
  params_json : tool_input;
  success : bool;
}.

(** The table: its columns, its rows in insertion order, and the last
    identifier AUTOINCREMENT gave out.  The columns are those of [schema],
    with the constraints the logger's [CREATE TABLE] gives them, or fewer
    of them (a table that an older layout of the logger left behind); a
    table with constraints of somebody else's making is not described. *)
Record table := {
  columns : list string;
  rows : list tool_call;
  sequence : Z;
}.

Definition schema : list string :=
  ["id"; "session_id"; "timestamp"; "tool_type"; "file_path"; "command";
   "pattern"; "description"; "params_json"; "success"].

(** [CREATE TABLE IF NOT EXISTS tool_calls (...)] *)
Definition create_table (t : option table) : table :=
  match t with
  | Some t => t
  | None => {| columns := schema; rows := []; sequence := 0 |}
  end.

Definition indexed_columns : list string :=
  ["session_id"; "timestamp"; "tool_type"; "file_path"].

Definition inserted_columns : list string :=
  ["session_id"; "tool_type"; "file_path"; "command"; "pattern";
   "description"; "params_json"].

Definition empty_input : tool_input :=
  {| file_path := None; command := None; pattern := None;
     description := None; other_params := [] |}.

Record world := {
  CLAUDE_SESSION_ID : option string;
  now : datetime;                     (* CURRENT_TIMESTAMP at the insert *)
}.

Record run := {
  store_after : store table;
  ending_of : ending;
}.

Definition hook (w : world) (db : store table) (input_data : request) : run :=
  let tool_name := default "unknown" (tool_name input_data) in
  let tool_input := default empty_input (tool_input_of input_data) in
  let session_id := default "unknown" (CLAUDE_SESSION_ID w) in
  match db with
  | Broken =>
      {| store_after := db; ending_of := Uncaught "sqlite3.OperationalError" |}
  | Usable t =>
      let t := create_table t in
      if negb (has_columns indexed_columns (columns t))
      then {| store_after := Usable (Some t);
              ending_of := Uncaught "sqlite3.OperationalError" |}
      else if negb (has_columns inserted_columns (columns t))
      then {| store_after := Usable (Some t);
              ending_of := Uncaught "sqlite3.OperationalError" |}
      else
        let row :=
          {| id := (sequence t + 1)%Z;
             session_id := session_id;
             timestamp := now w;
             tool_type := tool_name;
             row_file_path := file_path tool_input;
             row_command := command tool_input;
             row_pattern := pattern tool_input;
             row_description := description tool_input;
             params_json := tool_input;
             success := true |} in
        {| store_after :=
             Usable (Some {| columns := columns t;
                             rows := rows t ++ [row];
                             sequence := (sequence t + 1)%Z |});
           ending_of := SysExit 0 |}
  end.

Definition main (w : world) (db : store table) (input : stdin request) : run :=
  match input with
  | NotJson => {| store_after := db; ending_of := Uncaught "JSONDecodeError" |}
  | Json input_data => hook w db input_data
  end.

(** [n] invocations in a row, each with its own clock and request. *)
Fixpoint invocations (db : store table) (calls : list (world * request))
  : store table :=
  match calls with
  | [] => db
  | (w, input_data) :: rest => invocations (store_after (hook w db input_data)) rest
  end.

(** The rows of a session, whatever state the store is in. *)
Definition rows_of (db : store table) (sid : string) : list tool_call :=
  match db with
  | Usable (Some t) =>
      List.filter (fun r => String.eqb (session_id r) sid) (rows t)
  | _ => []
  end.

(** *** Notions for its properties *)

(** The statements of the logger find every column they name: the store is
    new, or its table has these columns. *)
Definition ready (db : store table) : bool :=
  match db with
  | Broken => false
  | Usable None => true
  | Usable (Some t) =>
      has_columns indexed_columns (columns t)
      && has_columns inserted_columns (columns t)
  end.

Definition all_rows (db : store table) : list tool_call :=
  match db with
  | Usable (Some t) => rows t
  | _ => []
  end.

Definition session_of (w : world) : string :=
  default "unknown" (CLAUDE_SESSION_ID w).

Definition last_id (db : store table) : Z :=
  match db with
  | Usable (Some t) => sequence t
  | _ => 0%Z
  end.

(** The row the logger writes for a request. *)
Definition logged (w : world) (db : store table) (input_data : request)
  : tool_call :=
  let tool_input := default empty_input (tool_input_of input_data) in
  {| id := (last_id db + 1)%Z;
     session_id := session_of w;
     timestamp := now w;
     tool_type := default "unknown" (tool_name input_data);
     row_file_path := file_path tool_input;
     row_command := command tool_input;
     row_pattern := pattern tool_input;
     row_description := description tool_input;
     params_json := tool_input;
     success := true |}.

End CommandTracker.

(* ===================================================================== *)
(** ** session-tracker.py *)
(* ===================================================================== *)

Module SessionTracker.
Import Sqlite.

(** A row of [sessions] without its key [id]. *)
Record session := {
  timestamp : datetime;
  duration_seconds : Z;
  model : string;
  summary : string;
  tool_count : Z;
  file_count : Z;
  command_count : Z;
}.

(** The table: [id] is its primary key. *)
Abbreviation table := (gmap string session).

Record world := {
  CLAUDE_SESSION_ID : option string;
  CLAUDE_MODEL : option string;
  now : datetime;
}.

(** The four variables the [try] block assigns. *)
Record stats := {
  st_tool_count : Z;
  st_file_count : Z;
  st_command_count : Z;
  st_duration_seconds : Z;
}.

Definition zero_stats : stats :=
  {| st_tool_count := 0; st_file_count := 0;
     st_command_count := 0; st_duration_seconds := 0 |}.

Definition of_session (sid : string) (t : CommandTracker.table)
  : list CommandTracker.tool_call :=
  List.filter (fun r => String.eqb (CommandTracker.session_id r) sid)
              (CommandTracker.rows t).

(** [SELECT COUNT( * ) FROM tool_calls WHERE session_id = ?] *)
Definition count_tools (t : CommandTracker.table) (sid : string) : option Z :=
  if has_columns ["session_id"] (CommandTracker.columns t)
  then Some (Z.of_nat (length (of_session sid t)))
  else None.

(** [SELECT COUNT(DISTINCT file_path) FROM tool_calls
     WHERE session_id = ? AND file_path IS NOT NULL] *)
Definition count_files (t : CommandTracker.table) (sid : string) : option Z :=
  if has_columns ["file_path"; "session_id"] (CommandTracker.columns t)
  then Some (Z.of_nat (length (remove_dups
               (omap CommandTracker.row_file_path (of_session sid t)))))
  else None.

(** [SELECT COUNT( * ) FROM tool_calls
     WHERE session_id = ? AND tool_type = 'Bash'] *)
Definition count_commands (t : CommandTracker.table) (sid : string) : option Z :=
  if has_columns ["session_id"; "tool_type"] (CommandTracker.columns t)
  then Some (Z.of_nat (length (List.filter
               (fun r => String.eqb (CommandTracker.tool_type r) "Bash")
               (of_session sid t))))
  else None.

(** [SELECT CAST((julianday(MAX(timestamp)) - julianday(MIN(timestamp)))
     * 24 * 60 * 60 AS INTEGER) FROM tool_calls WHERE session_id = ?];
    the inner [None] is NULL. *)
Definition query_duration (t : CommandTracker.table) (sid : string)
  : option (option Z) :=
  if has_columns ["timestamp"; "session_id"] (CommandTracker.columns t)
  then
    let ts := map CommandTracker.timestamp (of_session sid t) in
    Some (match sql_min ts, sql_max ts with
          | Some lo, Some hi => Some (seconds_between lo hi)
          | _, _ => None
          end)
  else None.

(** [result[0] if result[0] else 0] *)
Definition or_zero (v : option Z) : Z :=
  match v with
  | Some n => if (n =? 0)%Z then 0%Z else n
  | None => 0%Z
  end.

(** The [try] block.  Each query assigns its variable as soon as it
    answers; an exception leaves the block with what was assigned so far.
    The flag says whether the warning was printed. *)
Definition read_stats (db : store CommandTracker.table) (sid : string)
  : stats * bool :=
  let s0 := zero_stats in
  match db with
  | Broken => (s0, true)
  | Usable None => (s0, true)
  | Usable (Some t) =>
      match count_tools t sid with
      | None => (s0, true)
      | Some n1 =>
          let s1 := {| st_tool_count := n1;
                       st_file_count := st_file_count s0;
                       st_command_count := st_command_count s0;
                       st_duration_seconds := st_duration_seconds s0 |} in
          match count_files t sid with
          | None => (s1, true)
          | Some n2 =>
              let s2 := {| st_tool_count := st_tool_count s1;
                           st_file_count := n2;
                           st_command_count := st_command_count s1;
                           st_duration_seconds := st_duration_seconds s1 |} in
              match count_commands t sid with
              | None => (s2, true)
              | Some n3 =>
                  let s3 := {| st_tool_count := st_tool_count s2;
                               st_file_count := st_file_count s2;
                               st_command_count := n3;
                               st_duration_seconds := st_duration_seconds s2 |} in
                  match query_duration t sid with
                  | None => (s3, true)
                  | Some result =>
                      ({| st_tool_count := st_tool_count s3;
                          st_file_count := st_file_count s3;
                          st_command_count := st_command_count s3;
                          st_duration_seconds := or_zero result |}, false)
                  end
              end
          end
      end
  end.

Definition make_summary (s : stats) : string :=
  "Session completed: " +:+ pretty (st_tool_count s) +:+ " tools, "
  +:+ pretty (st_file_count s) +:+ " files, "
  +:+ pretty (st_command_count s) +:+ " commands".

Record run := {
  sessions_after : store table;
  warned : bool;
  ending_of : ending;
}.

Definition hook (w : world) (tool_calls : store CommandTracker.table)
    (sessions : store table) : run :=
  let session_id := default "unknown" (CLAUDE_SESSION_ID w) in
  let model := default "unknown" (CLAUDE_MODEL w) in
  match sessions with
  | Broken =>
      {| sessions_after := sessions; warned := false;
         ending_of := Uncaught "sqlite3.OperationalError" |}
  | Usable t =>
      let t : table := default ∅ t in
      let '(s, warning) := read_stats tool_calls session_id in
      let row :=
        {| timestamp := now w;
           duration_seconds := st_duration_seconds s;
           model := model;
           summary := make_summary s;
           tool_count := st_tool_count s;
           file_count := st_file_count s;
           command_count := st_command_count s |} in
      {| sessions_after := Usable (Some (<[session_id := row]> t));
         warned := warning;
         ending_of := SysExit 0 |}
  end.

Definition main (w : world) (tool_calls : store CommandTracker.table)
    (sessions : store table) (input : stdin unit) : run :=
  match input with
  | NotJson =>
      {| sessions_after := sessions; warned := false;
         ending_of := Uncaught "JSONDecodeError" |}
  | Json _ => hook w tool_calls sessions
  end.

(** *** Notions for its properties *)

(** The answer of a query on the store; [None] when the store cannot be
    read, has no table, or the table lacks a column of the query. *)
Definition answer {A} (query : CommandTracker.table -> string -> option A)
    (db : store CommandTracker.table) (sid : string) : option A :=
  match db with
  | Usable (Some t) => query t sid
  | _ => None
  end.

Definition session_of (w : world) : string :=
  default "unknown" (CLAUDE_SESSION_ID w).

(** The row the hook writes from the statistics it gathered. *)
Definition row_of (w : world) (s : stats) : session :=
  {| timestamp := now w;
     duration_seconds := st_duration_seconds s;
     model := default "unknown" (CLAUDE_MODEL w);
     summary := make_summary s;
     tool_count := st_tool_count s;
     file_count := st_file_count s;
     command_count := st_command_count s |}.

(** The statistics stored for a session: tool, file and command count, and
    the duration. *)
Definition stored (sessions : store (gmap string session))
    (sid : string) : option (Z * Z * Z * Z) :=
  match sessions with
  | Usable (Some rows) =>
      (fun r => (tool_count r, file_count r, command_count r,
                 duration_seconds r)) <$> rows !! sid
  | _ => None
  end.

End SessionTracker.

(* ===================================================================== *)
(** ** subagent-tracker.py *)
(* ===================================================================== *)

Module SubagentTracker.
Import Sqlite.

Record request := {
  subagent_type : option string;
  summary : option string;
  files_modified : option (list string);
}.

(** A row of [subagent_sessions]; [files_modified_json] is kept as the
    list it encodes. *)
Record subagent_session := {
  id : Z;
  parent_session_id : string;
  row_subagent_type : string;
  timestamp : datetime;
  row_summary : string;
  files_modified_json : list string;
  file_count : Z;
}.

Record table := {
  rows : list subagent_session;
  sequence : Z;
}.

Record world := {
  CLAUDE_SESSION_ID : option string;
  now : datetime;
}.

Record run := {
  store_after : store table;
  ending_of : ending;
}.

Definition hook (w : world) (db : store table) (input_data : request) : run :=
  let session_id := default "unknown" (CLAUDE_SESSION_ID w) in
  let subagent_type := default "unknown" (subagent_type input_data) in
  let summary := default "" (summary input_data) in
  let files_modified := default [] (files_modified input_data) in
  match db with
  | Broken =>
      {| store_after := db; ending_of := Uncaught "sqlite3.OperationalError" |}
  | Usable t =>
      let t := default {| rows := []; sequence := 0 |} t in
      let row :=
        {| id := (sequence t + 1)%Z;
           parent_session_id := session_id;
           row_subagent_type := subagent_type;
           timestamp := now w;
           row_summary := summary;
           files_modified_json := files_modified;
           file_count := Z.of_nat (length files_modified) |} in
      {| store_after :=
           Usable (Some {| rows := rows t ++ [row];
                           sequence := (sequence t + 1)%Z |});
         ending_of := SysExit 0 |}
  end.

Definition main (w : world) (db : store table) (input : stdin request) : run :=
  match input with
  | NotJson => {| store_after := db; ending_of := Uncaught "JSONDecodeError" |}
  | Json input_data => hook w db input_data
  end.

End SubagentTracker.

(* ===================================================================== *)
(** ** deploy_hooks.py *)
(* ===================================================================== *)

Module Deploy.

(** A [pathlib.Path]: the directory and the final component. *)
Record path := {
  parent : string;
  name : string;
}.

(** [str(p)] *)
Definition str (p : path) : string := parent p +:+ "/" +:+ name p.

(** [s.rfind(".")], scanning from index [i]. *)
Fixpoint rfind_dot (s : string) (i : nat) (found : option nat) : option nat :=
  match s with
  | EmptyString => found
  | String c s' =>
      rfind_dot s' (S i) (if Ascii.eqb c "."%char then Some i else found)
  end.

(** [p.stem]: the name without its last suffix; a dot that starts or ends
    the name opens no suffix. *)
Definition stem (p : path) : string :=
  match rfind_dot (name p) 0 None with
  | Some i =>
      if (0 <? i)%nat && (i <? String.length (name p) - 1)%nat
      then String.substring 0 i (name p)
      else name p
  | None => name p
  end.

(** A [{name, type, command}] object of the settings document; [None] is
    a key the object does not have.  The settings document is described in
    the shape the deployer writes and walks: an object whose ["hooks"], when
    present, maps event types to lists of objects, each with a list of such
    registrations under ["hooks"] when it has the key. *)
Record registration := {
  reg_name : option string;
  reg_type : option string;
  reg_command : option string;
}.

(** One object of an event type's list: its ["hooks"] array and its other
    keys. *)
Record group := {
  group_hooks : option (list registration);
  group_other : list (string * string);
}.

(** The settings document: its ["hooks"] object and its other keys. *)
Record settings := {
  hooks : option (gmap string (list group));
  other_settings : list (string * string);
}.

(** "Determine hook type from filename or content" *)
Definition event_type_of (hook_name : string) : string :=
  let lowered := PyStr.lower hook_name in
  if PyStr.contains "pre-tool" lowered || PyStr.contains "grep-to-rg" lowered
  then "PreToolUse"
  else if PyStr.contains "post-tool" lowered then "PostToolUse"
  else if PyStr.contains "prompt" lowered then "UserPromptSubmit"
  else "PreToolUse".

Definition register (hook_path : path) : registration :=
  {| reg_name := Some (stem hook_path);
     reg_type := Some "command";
     reg_command := Some (str hook_path) |}.

(** [hook_configs[event_type].append(...)], the list being created at the
    first use of its key; the keys keep the order they came in. *)
Fixpoint add_config (event_type : string) (r : registration)
    (hook_configs : list (string * list registration))
  : list (string * list registration) :=
  match hook_configs with
  | [] => [(event_type, [r])]
  | (e, rs) :: rest =>
      if String.eqb e event_type
      then (e, rs ++ [r]) :: rest
      else (e, rs) :: add_config event_type r rest
  end.

Definition build_configs (deployed_hooks : list path)
  : list (string * list registration) :=
  fold_left
    (fun hook_configs hook_path =>
       add_config (event_type_of (stem hook_path)) (register hook_path)
                  hook_configs)
    deployed_hooks [].

Definition empty_group : group :=
  {| group_hooks := Some []; group_other := [] |}.

(** [h.get("command") not in existing_commands] *)
Definition not_redeployed (existing_commands : gset string)
    (h : registration) : bool :=
  match reg_command h with
  | Some c => bool_decide (c ∉ existing_commands)
  | None => true
  end.

(** The body of the loop over [hook_configs.items()]. *)
Definition merge_event (all : gmap string (list group))
    (config : string * list registration) : gmap string (list group) :=
  let '(event_type, new_hooks) := config in
  let all :=
    match all !! event_type with
    | None => <[event_type := [empty_group]]> all
    | Some _ => all
    end in
  let all :=
    match all !! event_type with
    | Some [] => <[event_type := [empty_group]]> all
    | _ => all
    end in
  match all !! event_type with
  | Some (first :: others) =>
      let hooks_array := default [] (group_hooks first) in
      let existing_commands : gset string :=
        list_to_set (omap reg_command new_hooks) in
      let hooks_array :=
        List.filter (not_redeployed existing_commands) hooks_array in
      let hooks_array := hooks_array ++ new_hooks in
      <[event_type := {| group_hooks := Some hooks_array;
                         group_other := group_other first |} :: others]> all
  | _ => all
  end.

(** [update_settings], from the document that was loaded to the one that
    is saved. *)
Definition update_settings (loaded : settings) (deployed_hooks : list path)
  : settings :=
  let all := default ∅ (hooks loaded) in
  {| hooks := Some (fold_left merge_event (build_configs deployed_hooks) all);
     other_settings := other_settings loaded |}.

Definition no_settings : settings :=
  {| hooks := None; other_settings := [] |}.

Record dir_entry := {
  entry_name : string;
  is_file : bool;
}.

(** What is found at [CLAUDE_SETTINGS]: no file, a JSON document of the
    shape of [settings], or text that is not JSON. *)
Inductive settings_file :=
| NoFile
| Document (saved : settings)
| Unparsable.

Record world := {
  HOOKS_SOURCE : option (list dir_entry);   (* [None]: no such directory *)
  CLAUDE_HOOKS_DIR : string;
  CLAUDE_SETTINGS : settings_file;
}.

Definition get_hook_files (w : world) : list string :=
  match HOOKS_SOURCE w with
  | None => []
  | Some entries =>
      map entry_name
          (List.filter
             (fun f => is_file f && negb (String.eqb (entry_name f) "__init__.py"))
             entries)
  end.

Definition copy_hooks (w : world) (hooks : list string) : list path :=
  map (fun hook_file => {| parent := CLAUDE_HOOKS_DIR w; name := hook_file |})
      hooks.

(** [load_settings]; [None] when [json.load] raises, which nothing
    catches. *)
Definition load_settings (w : world) : option settings :=
  match CLAUDE_SETTINGS w with
  | NoFile => Some no_settings
  | Document saved => Some saved
  | Unparsable => None
  end.

(** What a run leaves behind: the settings file, the copies made, and how
    the process ended. *)
Record run := {
  settings_after : settings_file;
  deployed : list path;
  ending_of : ending;
}.

(** [main]: the hook files are copied before the settings are loaded, and
    the settings are written only at the end of [update_settings]. *)
Definition main (w : world) : run :=
  let hooks := get_hook_files w in
  match hooks with
  | [] =>
      {| settings_after := CLAUDE_SETTINGS w; deployed := [];
         ending_of := SysExit 1 |}
  | _ :: _ =>
      let deployed := copy_hooks w hooks in
      match load_settings w with
      | Some loaded =>
          {| settings_after := Document (update_settings loaded deployed);
             deployed := deployed;
             ending_of := Finished |}
      | None =>
          {| settings_after := CLAUDE_SETTINGS w;
             deployed := deployed;
             ending_of := Uncaught "JSONDecodeError" |}
      end
  end.

(** The registrations of the first group of an event type: the only array
    the merge reads and writes. *)
Definition first_group (s : settings) (event_type : string)
  : list registration :=
  match default ∅ (hooks s) !! event_type with
  | Some (first :: _) => default [] (group_hooks first)
  | _ => []
  end.

(** The groups after the first. *)
Definition later_groups (s : settings) (event_type : string) : list group :=
  match default ∅ (hooks s) !! event_type with
  | Some (_ :: others) => others
  | _ => []
  end.

(** Every registration of an event type, over all its groups. *)
Definition registrations (s : settings) (event_type : string)
  : list registration :=
  match default ∅ (hooks s) !! event_type with
  | Some groups => concat (map (fun g => default [] (group_hooks g)) groups)
  | None => []
  end.

(** How many of them run the command [c]. *)
Definition count_command (c : string) (rs : list registration) : nat :=
  length (List.filter (fun h => bool_decide (reg_command h = Some c)) rs).

(** *** Notions for its properties *)

Definition first_of (all : gmap string (list group)) (event_type : string)
  : list registration :=
  match all !! event_type with
  | Some (first :: _) => default [] (group_hooks first)
  | _ => []
  end.

Definition later_of (all : gmap string (list group)) (event_type : string)
  : list group :=
  match all !! event_type with
  | Some (_ :: others) => others
  | _ => []
  end.

Definition commands_of (rs : list registration) : gset string :=
  list_to_set (omap reg_command rs).

(** The deployed hooks of an event type, and their registrations. *)
Definition hooks_for (event_type : string) (deployed_hooks : list path)
  : list path :=
  List.filter (fun p => String.eqb (event_type_of (stem p)) event_type)
              deployed_hooks.

Definition regs_for (event_type : string) (deployed_hooks : list path)
  : list registration :=
  map register (hooks_for event_type deployed_hooks).

(** [hook_configs.get(event_type)] *)
Fixpoint assoc (event_type : string)
    (hook_configs : list (string * list registration))
  : option (list registration) :=
  match hook_configs with
  | [] => None
  | (e, rs) :: rest =>
      if String.eqb e event_type then Some rs else assoc event_type rest
  end.

Definition add_hook (hook_configs : list (string * list registration))
    (hook_path : path) : list (string * list registration) :=
  add_config (event_type_of (stem hook_path)) (register hook_path) hook_configs.

End Deploy.

(* ===================================================================== *)
(** ** Sample inputs *)
(* ===================================================================== *)

(** A project in Rust and Python where every touched path is a file and no
    marker file exists. *)
Definition sample_world (file_paths : string) : TestRunner.world :=
  {| TestRunner.CLAUDE_FILE_PATHS := Some file_paths;
     TestRunner.CLAUDE_PROJECT_DIR := Some "/proj";
     TestRunner.getcwd := "/";
     TestRunner.isfile := fun _ => true;
     TestRunner.path_exists := fun _ => false;
     TestRunner.package_json := TestRunner.Unreadable;
     TestRunner.subprocess_run := fun _ => TestRunner.Completed 0 "" |}.

(** The same project with a pytest configuration file. *)
Definition pytest_world (file_paths : string) : TestRunner.world :=
  {| TestRunner.CLAUDE_FILE_PATHS := Some file_paths;
     TestRunner.CLAUDE_PROJECT_DIR := Some "/proj";
     TestRunner.getcwd := "/";
     TestRunner.isfile := fun _ => true;
     TestRunner.path_exists := fun path => String.eqb path "/proj/pytest.ini";
     TestRunner.package_json := TestRunner.Unreadable;
     TestRunner.subprocess_run := fun _ => TestRunner.Completed 1 "" |}.

Definition edit : TestRunner.request :=
  {| TestRunner.tool_name := Some "Edit" |}.


Definition noon : Sqlite.datetime :=
  {| Sqlite.year := 2025; Sqlite.month := 1; Sqlite.day := 1;
     Sqlite.hour := 12; Sqlite.minute := 0; Sqlite.second := 0 |}.

Definition read_call : CommandTracker.world * CommandTracker.request :=
  ({| CommandTracker.CLAUDE_SESSION_ID := None; CommandTracker.now := noon |},
   {| CommandTracker.tool_name := Some "Read";
      CommandTracker.tool_input_of := None |}).

Definition nine_oclock (seconds : Z) : Sqlite.datetime :=
  {| Sqlite.year := 2025; Sqlite.month := 1; Sqlite.day := 1;
     Sqlite.hour := 9; Sqlite.minute := 0; Sqlite.second := seconds |}.

Definition call (id : Z) (seconds : Z) (tool : string) (file : option string)
  : CommandTracker.tool_call :=
  {| CommandTracker.id := id;
     CommandTracker.session_id := "S";
     CommandTracker.timestamp := nine_oclock seconds;
     CommandTracker.tool_type := tool;
     CommandTracker.row_file_path := file;
     CommandTracker.row_command := None;
     CommandTracker.row_pattern := None;
     CommandTracker.row_description := None;
     CommandTracker.params_json := CommandTracker.empty_input;
     CommandTracker.success := true |}.

(** Five calls of session S, three of them Bash, two distinct file paths,
    the first [start] seconds after nine and the last 42 seconds later. *)
Definition five_calls (start : Z) : CommandTracker.table :=
  {| CommandTracker.columns := CommandTracker.schema;
     CommandTracker.rows :=
       [ call 1 start "Bash" None;
         call 2 (start + 6) "Edit" (Some "/proj/a.py");
         call 3 (start + 16) "Bash" None;
         call 4 (start + 26) "Write" (Some "/proj/b.py");
         call 5 (start + 42) "Bash" None ];
     CommandTracker.sequence := 5 |}.

(** A table from before the column [file_path] existed. *)
Definition old_table : CommandTracker.table :=
  {| CommandTracker.columns := ["id"; "session_id"; "timestamp"; "tool_type"];
     CommandTracker.rows := [ call 1 0 "Bash" None; call 2 5 "Read" None ];
     CommandTracker.sequence := 2 |}.

Definition session_S : SessionTracker.world :=
  {| SessionTracker.CLAUDE_SESSION_ID := Some "S";
     SessionTracker.CLAUDE_MODEL := None;
     SessionTracker.now := nine_oclock 59 |}.

Definition dest (file_name : string) : Deploy.path :=
  {| Deploy.parent := "/home/u/.claude/hooks"; Deploy.name := file_name |}.

(** A settings document whose second PreToolUse group already runs the
    deployed copy of grep-to-rg.py. *)
Definition registered_in_second_group : Deploy.settings :=
  {| Deploy.hooks :=
       Some {[ "PreToolUse" :=
                 [ {| Deploy.group_hooks := Some [];
                      Deploy.group_other := [("matcher", "Edit")] |};
                   {| Deploy.group_hooks :=
                        Some [Deploy.register (dest "grep-to-rg.py")];
                      Deploy.group_other := [("matcher", "Bash")] |} ] ]};
     Deploy.other_settings := [] |}.

(* ===================================================================== *)
(** ** test-runner.py: the tail of a failed run *)
(* ===================================================================== *)

(** [lines[-n:]] *)
Definition last_lines (n : nat) (lines : list string) : list string :=
  skipn (length lines - n) lines.

(** The lines [run_tests] prints under "Failed test output": of the last
    twenty lines of the child's output, those that are not blank, each
    behind two spaces. *)
Definition failed_output (output : string) : list string :=
  map (fun line => "  " +:+ line)
      (List.filter (fun line => PyStr.truthy (PyStr.strip line))
                   (last_lines 20 (PyStr.split Re.newline output))).

(** They are printed when the return code is not zero. *)
Definition failure_report (result : TestRunner.completed) : list string :=
  match result with
  | TestRunner.Completed returncode output =>
      if (returncode =? 0)%Z then [] else failed_output output
  | _ => []
  end.

(* ===================================================================== *)
(** ** test-runner.py: the summary line *)
(* ===================================================================== *)

(** The branch [run_tests] takes its summary line from, by the text of the
    test command. *)
Inductive summary_rule :=
| PytestSummary      (* the counts before [in <seconds>s] *)
| JestSummary        (* what follows [Tests:] *)
| GoSummary          (* PASS or FAIL in the output *)
| CargoSummary       (* the line [test result: ...] *)
| NoSummary.

Definition summary_rule_of (test_command : string) : summary_rule :=
  if PyStr.contains "pytest" test_command then PytestSummary
  else if PyStr.contains "jest" test_command
          || PyStr.contains "npm test" test_command then JestSummary
  else if PyStr.contains "go test" test_command then GoSummary
  else if PyStr.contains "cargo test" test_command then CargoSummary
  else NoSummary.

(** The summary of the Go branch. *)
Definition go_summary (output : string) : option string :=
  if PyStr.contains "PASS" output then Some "Summary: All tests passed"
  else if PyStr.contains "FAIL" output then Some "Summary: Some tests failed"
  else None.

(* ===================================================================== *)
(** ** deploy_hooks.py: file modes and the summary *)
(* ===================================================================== *)

(** [p.suffix]: the last suffix of the name, with its dot; a dot that
    starts or ends the name opens no suffix. *)
Definition path_suffix (p : Deploy.path) : string :=
  match Deploy.rfind_dot (Deploy.name p) 0 None with
  | Some i =>
      if (0 <? i)%nat && (i <? String.length (Deploy.name p) - 1)%nat
      then PyStr.drop i (Deploy.name p)
      else ""
  | None => ""
  end.

(** [hook_file.suffix in [".py", ".sh"]]: [copy_hooks] then makes the copy
    executable. *)
Definition made_executable (hook_file : Deploy.path) : bool :=
  String.eqb (path_suffix hook_file) ".py" || String.eqb (path_suffix hook_file) ".sh".

(** What [display_summary] prints under an event type: the name and the
    command of every registration, in any group, whose command holds
    [/.claude/hooks/]. *)
Definition shown (s : Deploy.settings) (event_type : string)
  : list (string * string) :=
  omap (fun hook =>
          let name := default "unnamed" (Deploy.reg_name hook) in
          let command := default "" (Deploy.reg_command hook) in
          if PyStr.contains "/.claude/hooks/" command
          then Some (name, command)
          else None)
       (Deploy.registrations s event_type).

(* ===================================================================== *)
(** ** Further notions *)
(* ===================================================================== *)

(** *** Texts *)

(** A text of whitespace characters only. *)
Fixpoint all_space (s : string) : bool :=
  match s with
  | EmptyString => true
  | String c s' => PyStr.is_space c && all_space s'
  end.

(** [s.endswith(x)] *)
Fixpoint endswith (x s : string) : bool :=
  String.eqb x s
  || match s with
     | EmptyString => false
     | String _ s' => endswith x s'
     end.

(** The path ends with [x], or with [x] and a newline: where [x$] can
    match. *)
Definition ends_line (x file_path : string) : bool :=
  endswith x file_path || endswith (x +:+ String Re.newline "") file_path.

(** No newline in the text: [.*] can run over all of it. *)
Fixpoint one_line (s : string) : bool :=
  match s with
  | EmptyString => true
  | String c s' => negb (Ascii.eqb c Re.newline) && one_line s'
  end.

(** The endings of JavaScript and TypeScript test files. *)
Definition javascript_endings : list string :=
  [".test.js"; ".test.ts"; ".test.jsx"; ".test.tsx";
   ".spec.js"; ".spec.ts"; ".spec.jsx"; ".spec.tsx"].

(** The character [c] stands in the text. *)
Fixpoint has_char (c : ascii) (s : string) : bool :=
  match s with
  | EmptyString => false
  | String a s' => Ascii.eqb a c || has_char c s'
  end.

(** *** The test runner *)

(** [x$] matched at a tail of the subject. *)
Definition stops_with (x s : string) : Prop :=
  exists q rest, s = q +:+ x +:+ rest /\ Re.at_eol rest = true.

(** The entries of [TEST_PATTERNS], language by language. *)
Definition python_entry := nth 0 TestRunner.TEST_PATTERNS ("", []).
Definition javascript_entry := nth 1 TestRunner.TEST_PATTERNS ("", []).
Definition go_entry := nth 2 TestRunner.TEST_PATTERNS ("", []).
Definition rust_entry := nth 3 TestRunner.TEST_PATTERNS ("", []).

(** A path as [parse_paths] hands it on: not empty, without a comma, and
    without whitespace at either end. *)
Definition clean_path (p : string) : Prop :=
  p <> "" /\ PyStr.contains "," p = false /\ PyStr.strip p = p.

(** *** The loggers *)

(** The identifiers of a store are in order: pairwise different, and none
    above the last one AUTOINCREMENT gave out. *)
Definition ids_in_order (db : Sqlite.store CommandTracker.table) : Prop :=
  NoDup (map CommandTracker.id (CommandTracker.all_rows db))
  /\ Forall (fun r => (CommandTracker.id r <= CommandTracker.last_id db)%Z)
            (CommandTracker.all_rows db).







(** The row of a session in the sessions store. *)
Definition session_row (sessions : Sqlite.store (gmap string SessionTracker.session))
    (sid : string) : option SessionTracker.session :=
  match sessions with
  | Sqlite.Usable (Some rows) => rows !! sid
  | _ => None
  end.

(** *** The deployer *)

(** The other keys of the first group of an event type, such as its
    matcher. *)
Definition first_other (s : Deploy.settings) (event_type : string)
  : list (string * string) :=
  match default ∅ (Deploy.hooks s) !! event_type with
  | Some (first :: _) => Deploy.group_other first
  | _ => []
  end.

(** The list of groups stored for an event type. *)
Definition groups_of (s : Deploy.settings) (event_type : string)
  : option (list Deploy.group) :=
  default ∅ (Deploy.hooks s) !! event_type.

(** What one turn of the merge loop leaves under its own event type. *)
Definition merged (old : option (list Deploy.group))
    (new_hooks : list Deploy.registration)
  : list Deploy.group :=
  match old with
  | Some (first :: others) =>
      {| Deploy.group_hooks :=
           Some (List.filter (Deploy.not_redeployed (Deploy.commands_of new_hooks))
                             (default [] (Deploy.group_hooks first)) ++ new_hooks);
         Deploy.group_other := Deploy.group_other first |} :: others
  | _ => [ {| Deploy.group_hooks := Some new_hooks; Deploy.group_other := [] |} ]
  end.

(** *** A sample input *)

(** The output of a failed run: two lines that say something, a blank line
    between them, and a newline at the end. *)
Definition failing_output : string :=
  "FAILED test_a" +:+ String Re.newline (String Re.newline "")
  +:+ "  assert 1 == 2" +:+ String Re.newline "".

(* ===================================================================== *)
(** ** JSON documents of any shape *)
(* ===================================================================== *)










(** *** Typed requests as documents *)




(** *** Sample inputs *)



(* ===================================================================== *)
(** * Lemmas and theorems *)
(* ===================================================================== *)

(** Closed statements are settled by evaluation, one conjunct at a time. *)
Ltac by_computation :=
  repeat match goal with |- _ /\ _ => split end; vm_compute; reflexivity.

(** ** Strings *)

Lemma app_cons_string c (a b : string) : String c a +:+ b = String c (a +:+ b).
Proof. reflexivity. Qed.

Lemma app_nil_string (b : string) : "" +:+ b = b.
Proof. reflexivity. Qed.

Lemma length_app_string (a b : string) :
  String.length (a +:+ b) = String.length a + String.length b.
Proof.
  induction a as [|c a IH]; [reflexivity|].
  rewrite app_cons_string. simpl. rewrite IH. reflexivity.
Qed.

Lemma startswith_split p :
  forall s, PyStr.startswith p s = true ->
  s = p +:+ PyStr.drop (String.length p) s.
Proof.
  induction p as [|a p IH]; intros s H; [reflexivity|].
  destruct s as [|b s]; [discriminate|]. simpl in H.
  apply andb_prop in H as [Hab H]. apply Ascii.eqb_eq in Hab as ->.
  rewrite app_cons_string. f_equal. apply IH, H.
Qed.

Lemma space_not_word c : PyStr.is_space c = true -> PyStr.is_word c = false.
Proof.
  destruct c as [b0 b1 b2 b3 b4 b5 b6 b7].
  destruct b0, b1, b2, b3, b4, b5, b6, b7; vm_compute; intros H;
    first [reflexivity | discriminate H].
Qed.

(** ** Substitution where nothing matches *)

Lemma match_len_none r prev s :
  Re.match_here r prev s = None -> Re.match_len r prev s = None.
Proof. unfold Re.match_len. intros ->. reflexivity. Qed.

Lemma sub_from_no_match r repl s :
  forall prev, Re.search_from r prev s = false ->
  Re.sub_from r repl prev s 0 = s.
Proof.
  induction s as [|c s IH]; intros prev H; simpl in *.
  - destruct (Re.match_here r prev "") eqn:E; [discriminate|].
    rewrite (match_len_none _ _ _ E). reflexivity.
  - destruct (Re.match_here r prev (String c s)) eqn:E; [discriminate|].
    rewrite (match_len_none _ _ _ E). f_equal. apply IH, H.
Qed.

Lemma sub_from_cons r repl prev c s :
  Re.sub_from r repl prev (String c s) 0 =
  match Re.match_len r prev (String c s) with
  | Some (S n) => repl +:+ Re.sub_from r repl (Some c) s n
  | Some O => repl +:+ String c (Re.sub_from r repl (Some c) s 0)
  | None => String c (Re.sub_from r repl (Some c) s 0)
  end.
Proof. reflexivity. Qed.

Lemma sub_from_skip r repl prev c s n :
  Re.sub_from r repl prev (String c s) (S n) = Re.sub_from r repl (Some c) s n.
Proof. reflexivity. Qed.

(** ** The whole word [npm] *)

Module NpmFacts.
Import Re NpmToPnpm.

#[local] Arguments Ascii.eqb : simpl never.
#[local] Arguments PyStr.is_word : simpl never.
#[local] Arguments PyStr.is_space : simpl never.

Lemma is_word_n : PyStr.is_word "n" = true. Proof. reflexivity. Qed.
Lemma is_word_p : PyStr.is_word "p" = true. Proof. reflexivity. Qed.
Lemma is_word_m : PyStr.is_word "m" = true. Proof. reflexivity. Qed.

Lemma match_here_npm prev s :
  match_here re_npm prev s =
  if npm_here prev s then Some (PyStr.drop 3 s) else None.
Proof.
  unfold match_here, npm_here, re_npm.
  destruct s as [|c1 [|c2 [|c3 s]]]; cbn.
  - destruct (at_boundary prev ""); rewrite ?andb_false_r; reflexivity.
  - destruct (at_boundary _ _), (Ascii.eqb "n" c1);
      rewrite ?andb_false_r; reflexivity.
  - destruct (at_boundary _ _), (Ascii.eqb "n" c1), (Ascii.eqb "p" c2);
      rewrite ?andb_false_r; reflexivity.
  - unfold at_boundary at 1. cbn.
    destruct (Ascii.eqb_spec "n" c1) as [<-|]; [rewrite is_word_n|]; cbn.
    2:{ destruct (negb _); rewrite ?andb_false_r; reflexivity. }
    destruct (Ascii.eqb_spec "p" c2) as [<-|]; cbn.
    2:{ destruct (negb _); rewrite ?andb_false_r; reflexivity. }
    destruct (Ascii.eqb_spec "m" c3) as [<-|]; cbn.
    2:{ destruct (negb _); rewrite ?andb_false_r; reflexivity. }
    unfold at_boundary. cbn. rewrite is_word_m.
    destruct (word_before prev), (word_after s); reflexivity.
Qed.

Lemma npm_here_shape prev s :
  npm_here prev s = true ->
  exists rest, s = "npm" +:+ rest /\ word_before prev = false
               /\ word_after rest = false.
Proof.
  unfold npm_here. intros H.
  apply andb_prop in H as [H H3]. apply andb_prop in H as [H1 H2].
  exists (PyStr.drop 3 s). split; [|split].
  - apply (startswith_split "npm"), H2.
  - now destruct (word_before prev).
  - now destruct (word_after _).
Qed.

Lemma npm_here_word prev s :
  word_before prev = true -> npm_here prev s = false.
Proof. unfold npm_here. intros ->. reflexivity. Qed.

Lemma search_npm_unfold prev s :
  search_from re_npm prev s =
  npm_here prev s
  || match s with
     | EmptyString => false
     | String c s' => search_from re_npm (Some c) s'
     end.
Proof.
  destruct s; simpl; rewrite match_here_npm; destruct (npm_here _ _); reflexivity.
Qed.

Lemma sub_npm_nil prev : sub_from re_npm "pnpm" prev "" 0 = "".
Proof.
  simpl. unfold match_len. rewrite match_here_npm. unfold npm_here. simpl.
  rewrite andb_false_r. reflexivity.
Qed.

Lemma sub_npm_skip prev c s :
  npm_here prev (String c s) = false ->
  sub_from re_npm "pnpm" prev (String c s) 0 =
  String c (sub_from re_npm "pnpm" (Some c) s 0).
Proof.
  intros H. simpl. unfold match_len. rewrite match_here_npm, H. reflexivity.
Qed.

Lemma sub_npm_hit prev rest :
  npm_here prev ("npm" +:+ rest) = true ->
  sub_from re_npm "pnpm" prev ("npm" +:+ rest) 0 =
  "pnpm" +:+ sub_from re_npm "pnpm" (Some "m"%char) rest 0.
Proof.
  intros H. rewrite !app_cons_string, app_nil_string in *.
  rewrite sub_from_cons. unfold match_len.
  rewrite match_here_npm, H.
  cbn [PyStr.drop String.length].
  replace (S (S (S (String.length rest))) - String.length rest) with 3 by lia.
  rewrite !sub_from_skip. reflexivity.
Qed.

(** After a word character the substitution copies the next character. *)
Lemma sub_npm_after_word prev s :
  word_before prev = true ->
  sub_from re_npm "pnpm" prev s 0 =
  match s with
  | EmptyString => EmptyString
  | String c s' => String c (sub_from re_npm "pnpm" (Some c) s' 0)
  end.
Proof.
  intros H. destruct s; [apply sub_npm_nil|].
  apply sub_npm_skip, npm_here_word, H.
Qed.

(** A whole word [npm] at the head of the output was one in the input. *)
Lemma npm_here_sub prev prev' s :
  word_before prev = word_before prev' ->
  npm_here prev s = false ->
  npm_here prev' (sub_from re_npm "pnpm" prev s 0) = false.
Proof.
  intros Hw Hs.
  destruct (npm_here prev' _) eqn:E; [|reflexivity].
  apply npm_here_shape in E as (rest & E & Hp & Hr).
  rewrite !app_cons_string, app_nil_string in E.
  destruct s as [|c1 s]; [rewrite sub_npm_nil in E; discriminate|].
  rewrite (sub_npm_skip _ _ _ Hs) in E. injection E as -> E.
  rewrite sub_npm_after_word in E by apply is_word_n.
  destruct s as [|c2 s]; [discriminate|]. injection E as -> E.
  rewrite sub_npm_after_word in E by apply is_word_p.
  destruct s as [|c3 s]; [discriminate|]. injection E as -> E.
  rewrite sub_npm_after_word in E by apply is_word_m.
  assert (word_after s = false) as Hs'.
  { destruct s; [reflexivity|]. subst rest. exact Hr. }
  unfold npm_here in Hs. cbn in Hs. rewrite Hw, Hp, Hs' in Hs. discriminate.
Qed.

Lemma generic_clean_bounded n :
  forall s prev prev',
    String.length s < n ->
    word_before prev = word_before prev' ->
    search_from re_npm prev' (sub_from re_npm "pnpm" prev s 0) = false.
Proof.
  induction n as [|n IH]; intros s prev prev' Hn Hw; [lia|].
  destruct (npm_here prev s) eqn:E.
  - destruct (npm_here_shape _ _ E) as (rest & -> & Hp & Hr).
    rewrite (sub_npm_hit _ _ E).
    rewrite length_app_string in Hn. simpl in Hn.
    rewrite !app_cons_string, app_nil_string.
    rewrite search_npm_unfold. unfold npm_here at 1. cbn [PyStr.startswith].
    replace (Ascii.eqb "n" "p") with false by reflexivity.
    rewrite andb_false_l, andb_false_r. cbn [orb andb].
    rewrite search_npm_unfold, npm_here_word by apply is_word_p. cbn [orb].
    rewrite search_npm_unfold, npm_here_word by apply is_word_n. cbn [orb].
    rewrite search_npm_unfold, npm_here_word by apply is_word_p. cbn [orb].
    apply IH; [lia|reflexivity].
  - rewrite search_npm_unfold, (npm_here_sub _ _ _ Hw E). cbn [orb].
    destruct s as [|c s]; [rewrite sub_npm_nil; reflexivity|].
    rewrite (sub_npm_skip _ _ _ E).
    apply IH; [simpl in Hn; lia|reflexivity].
Qed.

(** The generic replacement leaves no whole word [npm]. *)
Lemma generic_clean command :
  Re.search re_npm (apply_generic command) = false.
Proof.
  apply (generic_clean_bounded (S (String.length command))); [lia|reflexivity].
Qed.

Lemma convert_clean command : Re.search re_npm (convert command) = false.
Proof. apply generic_clean. Qed.

(** *** The special rules need a whole word [npm] *)

Lemma special_needs_npm tail prev s next x :
  run (seq (WordB :: lit "npm" :: some Space :: tail)) prev s next = Some x ->
  npm_here prev s = true.
Proof.
  cbn [seq run lit some].
  destruct (at_boundary prev s) eqn:B; [|discriminate].
  destruct s as [|c1 [|c2 [|c3 [|c4 s]]]]; cbn [run]; try discriminate.
  - destruct (cls_ok _ c1); discriminate.
  - destruct (cls_ok _ c1); [|discriminate]. destruct (cls_ok _ c2); discriminate.
  - destruct (cls_ok _ c1); [|discriminate]. destruct (cls_ok _ c2); [|discriminate].
    destruct (cls_ok _ c3); discriminate.
  - unfold cls_ok at 1.
    destruct (Ascii.eqb_spec "n" c1) as [<-|]; [|discriminate].
    unfold cls_ok at 1.
    destruct (Ascii.eqb_spec "p" c2) as [<-|]; [|discriminate].
    unfold cls_ok at 1.
    destruct (Ascii.eqb_spec "m" c3) as [<-|]; [|discriminate].
    unfold cls_ok at 1.
    destruct (PyStr.is_space c4) eqn:S4; [|discriminate].
    intros _. unfold npm_here. cbn.
    unfold at_boundary in B. cbn in B. rewrite is_word_n in B.
    rewrite (space_not_word _ S4).
    destruct (word_before prev); [discriminate|reflexivity].
Qed.

Lemma special_shape rule :
  In rule special_rules ->
  exists tail, fst rule = seq (WordB :: lit "npm" :: some Space :: tail).
Proof.
  unfold special_rules. simpl.
  intros [<-|[<-|[<-|[<-|[<-|[<-|[<-|[<-|[]]]]]]]]]; eexists; reflexivity.
Qed.

Lemma special_match_needs_npm rule prev s :
  In rule special_rules ->
  npm_here prev s = false -> match_here (fst rule) prev s = None.
Proof.
  intros Hin Hn. destruct (special_shape _ Hin) as [tail ->].
  destruct (match_here _ prev s) eqn:E; [|reflexivity].
  apply special_needs_npm in E. congruence.
Qed.

(** Where no whole word [npm] stands, no special rule finds a match. *)
Lemma special_search_needs_npm rule s :
  In rule special_rules ->
  forall prev, search_from re_npm prev s = false ->
  search_from (fst rule) prev s = false.
Proof.
  intros Hin. induction s as [|c s IH]; intros prev H;
    rewrite search_npm_unfold in H; apply orb_false_elim in H as [H1 H2];
    simpl; rewrite (special_match_needs_npm _ _ _ Hin H1); auto.
Qed.

Lemma fold_rules_inert rules command :
  (forall rule, In rule rules -> In rule special_rules) ->
  Re.search re_npm command = false ->
  fold_left apply_rule rules command = command.
Proof.
  intros Hsub Hc. induction rules as [|rule rules IH]; [reflexivity|].
  simpl. unfold apply_rule at 2, Re.sub.
  rewrite sub_from_no_match.
  - apply IH. intros r Hr. apply Hsub. now right.
  - apply special_search_needs_npm; [apply Hsub; now left|exact Hc].
Qed.

Lemma apply_special_inert command :
  Re.search re_npm command = false -> apply_special command = command.
Proof. apply fold_rules_inert. auto. Qed.

Lemma apply_generic_inert command :
  Re.search re_npm command = false -> apply_generic command = command.
Proof. intros H. apply sub_from_no_match, H. Qed.

Lemma convert_inert command :
  Re.search re_npm command = false -> convert command = command.
Proof.
  intros H. unfold convert. rewrite (apply_special_inert _ H).
  apply apply_generic_inert, H.
Qed.

End NpmFacts.

(** ** The mappings of the npm rewriter *)

Module NpmMappings.
Import Re NpmToPnpm NpmFacts.

Lemma sub_from_skip_app r repl x :
  forall prev rest,
    sub_from r repl prev (x +:+ rest) (String.length x) =
    sub_from r repl (after prev x) rest 0.
Proof.
  induction x as [|c x IH]; intros prev rest.
  - rewrite app_nil_string. reflexivity.
  - rewrite app_cons_string. cbn [String.length after].
    rewrite sub_from_skip. apply IH.
Qed.

Lemma search_from_unfold r prev s :
  search_from r prev s =
  match match_here r prev s with
  | Some _ => true
  | None =>
      match s with
      | EmptyString => false
      | String c s' => search_from r (Some c) s'
      end
  end.
Proof. destruct s; reflexivity. Qed.

Lemma search_from_cons r prev c s :
  search_from r prev (String c s) = false ->
  match_here r prev (String c s) = None /\ search_from r (Some c) s = false.
Proof.
  cbn [search_from]. destruct (match_here r prev (String c s)); [discriminate|].
  auto.
Qed.

Lemma search_from_app r x :
  forall prev rest,
    search_from r prev (x +:+ rest) = false ->
    search_from r (after prev x) rest = false.
Proof.
  induction x as [|c x IH]; intros prev rest H.
  - exact H.
  - rewrite app_cons_string in H. apply search_from_cons in H as [_ H].
    apply IH, H.
Qed.

Lemma fold_left_app_rule before rule after' command :
  fold_left apply_rule (before ++ rule :: after') command =
  fold_left apply_rule after' (apply_rule (fold_left apply_rule before command) rule).
Proof. rewrite fold_left_app. reflexivity. Qed.

Lemma fold_rules_no_match rules command :
  (forall rule, In rule rules -> Re.search (fst rule) command = false) ->
  fold_left apply_rule rules command = command.
Proof.
  intros H. induction rules as [|rule rules IH]; [reflexivity|].
  cbn [fold_left]. unfold apply_rule at 2, Re.sub.
  rewrite sub_from_no_match by (apply H; now left).
  apply IH. intros r Hr. apply H. now right.
Qed.

(** One special rule matches at the head of the command, the rules before
    it do not, and no other whole word [npm] stands in the command or in
    what the rule makes of it: the conversion is that one replacement. *)
Lemma special_fires before r repl after' c head rest :
  special_rules = before ++ (r, repl) :: after' ->
  (forall rule, In rule before ->
     match_here (fst rule) None (String c head +:+ rest) = None) ->
  match_here r None (String c head +:+ rest) = Some rest ->
  search_from re_npm (Some c) (head +:+ rest) = false ->
  Re.search re_npm (repl +:+ rest) = false ->
  convert (String c head +:+ rest) = repl +:+ rest.
Proof.
  intros Hrules Hbefore Hmatch Hrest Hclean.
  assert (forall rule, In rule (before ++ (r, repl) :: after') ->
                       In rule special_rules) as Hin
    by (intros rule; rewrite Hrules; auto).
  unfold convert, apply_special. rewrite Hrules, fold_left_app_rule.
  rewrite (fold_rules_no_match before).
  2:{ intros rule Hr. unfold Re.search.
      rewrite search_from_unfold, (Hbefore rule Hr), app_cons_string.
      apply special_search_needs_npm; [|exact Hrest].
      apply Hin, in_or_app. now left. }
  assert (apply_rule (String c head +:+ rest) (r, repl) = repl +:+ rest) as ->.
  { unfold apply_rule, Re.sub. cbn [fst snd].
    rewrite app_cons_string, sub_from_cons. unfold match_len.
    rewrite <- app_cons_string, Hmatch, length_app_string.
    cbn [String.length].
    replace (S (String.length head) + String.length rest - String.length rest)
      with (S (String.length head)) by lia.
    rewrite sub_from_skip_app, sub_from_no_match; [reflexivity|].
    apply (special_search_needs_npm (r, repl));
      [apply Hin, in_or_app; right; now left|].
    apply search_from_app, Hrest. }
  rewrite fold_rules_inert; [apply apply_generic_inert, Hclean| |exact Hclean].
  intros rule Hr. apply Hin, in_or_app. right. now right.
Qed.

#[local] Arguments Ascii.eqb : simpl never.
#[local] Arguments PyStr.is_word : simpl never.
#[local] Arguments PyStr.is_space : simpl never.

(** Tests on characters that are written out are settled by evaluation. *)
Ltac written_out c :=
  lazymatch c with Ascii _ _ _ _ _ _ _ _ => idtac end.

Ltac known_chars :=
  repeat match goal with
  | |- context [PyStr.is_space ?c] =>
      written_out c;
      let v := eval vm_compute in (PyStr.is_space c) in
      change (PyStr.is_space c) with v
  | |- context [PyStr.is_word ?c] =>
      written_out c;
      let v := eval vm_compute in (PyStr.is_word c) in
      change (PyStr.is_word c) with v
  | |- context [Ascii.eqb ?a ?b] =>
      written_out a; written_out b;
      let v := eval vm_compute in (Ascii.eqb a b) in
      change (Ascii.eqb a b) with v
  end.

Lemma npm_here_other prev c s : c <> "n"%char -> npm_here prev (String c s) = false.
Proof.
  intros Hc. unfold npm_here. cbn [PyStr.startswith].
  destruct (Ascii.eqb_spec "n" c); [congruence|].
  now rewrite andb_false_r.
Qed.

Ltac skip_known :=
  repeat rewrite ?app_cons_string, ?app_nil_string;
  repeat (rewrite search_npm_unfold;
          first [rewrite npm_here_word by reflexivity
                |rewrite npm_here_other by (intro; discriminate)];
          cbn [orb]).


Ltac run_known :=
  unfold match_here, re_install_arg, re_install_global, re_uninstall,
    re_install_bare;
  repeat rewrite ?app_cons_string, ?app_nil_string;
  cbn; known_chars; cbn; unfold at_boundary; cbn; known_chars; cbn.



End NpmMappings.

(** ** Claims about the npm rewriter *)

Lemma npm_hook_bash input command :
  rq_tool_name input = Some "Bash" ->
  rq_command input = Some command ->
  NpmToPnpm.hook input =
  if Re.search NpmToPnpm.re_npm command
  then {| rw_stdout := Some (NpmToPnpm.respond (NpmToPnpm.convert command));
          rw_ending := SysExit 0 |}
  else no_output.
Proof.
  intros Ht Hc. unfold NpmToPnpm.hook. rewrite Ht, Hc.
  rewrite bool_decide_eq_true_2 by reflexivity. simpl.
  destruct (Re.search _ command); reflexivity.
Qed.



(** C10. Whatever command the npm rewriter puts out holds no whole word
    npm; handed back to the rewriter as a Bash request it draws no output,
    and converting it again would leave it as it is. *)
Theorem npm_rewriter_fixpoint input out :
  rw_stdout (NpmToPnpm.hook input) = Some out ->
  Re.search NpmToPnpm.re_npm (updatedInput_command out) = false
  /\ NpmToPnpm.hook (bash (updatedInput_command out)) = no_output
  /\ NpmToPnpm.convert (updatedInput_command out) = updatedInput_command out.
Proof.
  intros H.
  assert (exists command, out = NpmToPnpm.respond (NpmToPnpm.convert command))
    as [command ->].
  { unfold NpmToPnpm.hook in H.
    destruct (negb (bool_decide _)); [discriminate|].
    destruct (negb (Re.search _ _)); [discriminate|].
    injection H as <-. eauto. }
  simpl. pose proof (NpmFacts.convert_clean command) as Hclean.
  split; [exact Hclean|]. split.
  - rewrite (npm_hook_bash (bash _) _ eq_refl eq_refl), Hclean. reflexivity.
  - apply NpmFacts.convert_inert, Hclean.
Qed.

Lemma npm_rewriter_fixpoint_witness :
  Re.search NpmToPnpm.re_npm "pnpm add pkg" = false
  /\ NpmToPnpm.hook (bash "pnpm add pkg") = no_output
  /\ NpmToPnpm.convert "pnpm add pkg" = "pnpm add pkg".
Proof.
  exact (npm_rewriter_fixpoint (bash "npm install pkg")
           (NpmToPnpm.respond "pnpm add pkg") eq_refl).
Defined.

(** ** Claims about the grep rewriter *)

Module GrepFacts.

#[local] Arguments Ascii.eqb : simpl never.

Lemma replace_from_cons old new c s :
  PyStr.replace_from old new (String c s) 0 =
  if PyStr.startswith old (String c s)
  then new +:+ PyStr.replace_from old new s (String.length old - 1)
  else String c (PyStr.replace_from old new s 0).
Proof. reflexivity. Qed.

Lemma contains_cons sub c s :
  PyStr.contains sub (String c s) =
  PyStr.startswith sub (String c s) || PyStr.contains sub s.
Proof. reflexivity. Qed.

(** Dropping the rest of an occurrence. *)
Lemma replace_from_skip old new x :
  forall b, PyStr.replace_from old new (x +:+ b) (String.length x) =
            PyStr.replace_from old new b 0.
Proof.
  induction x as [|c x IH]; intros b.
  - rewrite app_nil_string. destruct b; reflexivity.
  - rewrite app_cons_string. simpl. apply IH.
Qed.

Lemma startswith_app p b : PyStr.startswith p (p +:+ b) = true.
Proof.
  induction p as [|c p IH]; [reflexivity|].
  rewrite app_cons_string. simpl. rewrite Ascii.eqb_refl. exact IH.
Qed.

Lemma replace_from_hit old new c b :
  PyStr.replace_from (String c old) new (String c old +:+ b) 0 =
  new +:+ PyStr.replace_from (String c old) new b 0.
Proof.
  rewrite app_cons_string, replace_from_cons, <- app_cons_string.
  rewrite startswith_app.
  replace (String.length (String c old) - 1) with (String.length old)
    by (simpl; lia).
  rewrite replace_from_skip. reflexivity.
Qed.

Lemma replace_from_absent old new s :
  PyStr.contains old s = false -> PyStr.replace_from old new s 0 = s.
Proof.
  induction s as [|c s IH]; intros H; [reflexivity|].
  rewrite contains_cons in H. apply orb_false_elim in H as [H1 H2].
  rewrite replace_from_cons, H1. f_equal. apply IH, H2.
Qed.

(** No occurrence of [grep] starts in front of one and runs into it. *)
Lemma grep_no_straddle a b :
  a <> "" -> PyStr.contains "grep" a = false ->
  PyStr.startswith "grep" (a +:+ "grep" +:+ b) = false.
Proof.
  intros Ha H.
  destruct a as [|c1 [|c2 [|c3 [|c4 a]]]]; [congruence| | | |];
    rewrite !app_cons_string, ?app_nil_string; cbn [PyStr.startswith].
  - change (Ascii.eqb "r" "g") with false. now rewrite andb_false_r.
  - change (Ascii.eqb "e" "g") with false. now rewrite !andb_false_r.
  - change (Ascii.eqb "p" "g") with false. now rewrite !andb_false_r.
  - rewrite contains_cons in H. apply orb_false_elim in H as [H _].
    cbn [PyStr.startswith] in H. rewrite andb_true_r in *. exact H.
Qed.

(** The first occurrence is replaced and the scan goes on behind it. *)
Lemma replace_grep_first a :
  forall b, PyStr.contains "grep" a = false ->
  PyStr.replace "grep" "rg" (a +:+ "grep" +:+ b) =
  a +:+ "rg" +:+ PyStr.replace "grep" "rg" b.
Proof.
  unfold PyStr.replace.
  induction a as [|c a IH]; intros b H.
  - rewrite !app_nil_string. apply replace_from_hit.
  - pose proof (grep_no_straddle (String c a) b ltac:(discriminate) H) as Hs.
    rewrite !app_cons_string in *. rewrite replace_from_cons, Hs.
    f_equal. apply IH.
    rewrite contains_cons in H. now apply orb_false_elim in H as [_ H].
Qed.

Lemma grep_hook_bash input command :
  rq_tool_name input = Some "Bash" ->
  rq_command input = Some command ->
  GrepToRg.hook input =
  if PyStr.contains "grep" command
  then {| rw_stdout := Some (GrepToRg.respond (PyStr.replace "grep" "rg" command));
          rw_ending := SysExit 0 |}
  else no_output.
Proof.
  intros Ht Hc. unfold GrepToRg.hook. rewrite Ht, Hc.
  rewrite bool_decide_eq_true_2 by reflexivity. reflexivity.
Qed.

End GrepFacts.

(** C4. For a Bash request whose command holds the text grep, the hook
    writes one response and ends with status 0: the response is for the
    event PreToolUse, allows the call, and its updated command is the
    command in which every occurrence of grep, found from the left, is
    replaced by rg, also inside longer words.  For any other tool, and for
    a command without grep, the hook writes nothing. *)
Theorem grep_rewriter_replaces_every_occurrence :
  (forall input command,
      rq_tool_name input = Some "Bash" ->
      rq_command input = Some command ->
      PyStr.contains "grep" command = true ->
      GrepToRg.hook input =
        {| rw_stdout :=
             Some {| hookEventName := "PreToolUse";
                     permissionDecision := "allow";
                     updatedInput_command :=
                       PyStr.replace "grep" "rg" command |};
           rw_ending := SysExit 0 |})
  /\ (forall a b,
        PyStr.contains "grep" a = false ->
        PyStr.replace "grep" "rg" (a +:+ "grep" +:+ b) =
        a +:+ "rg" +:+ PyStr.replace "grep" "rg" b)
  /\ (forall s, PyStr.contains "grep" s = false -> PyStr.replace "grep" "rg" s = s)
  /\ PyStr.replace "grep" "rg" "grepfoo" = "rgfoo"
  /\ (forall input, rq_tool_name input <> Some "Bash" -> GrepToRg.hook input = no_output)
  /\ (forall input,
        PyStr.contains "grep" (default "" (rq_command input)) = false ->
        GrepToRg.hook input = no_output).
Proof.
  split; [|split; [|split; [|split; [|split]]]].
  - intros input command Ht Hc Hg.
    rewrite (GrepFacts.grep_hook_bash _ _ Ht Hc), Hg. reflexivity.
  - intros a b. apply GrepFacts.replace_grep_first.
  - intros s. apply GrepFacts.replace_from_absent.
  - vm_compute. reflexivity.
  - intros input Ht. unfold GrepToRg.hook.
    rewrite bool_decide_eq_false_2 by exact Ht. reflexivity.
  - intros input Hg. unfold GrepToRg.hook.
    destruct (negb (bool_decide _)); [reflexivity|].
    cbv zeta. rewrite Hg. reflexivity.
Qed.

Lemma grep_rewriter_replaces_every_occurrence_witness :
  GrepToRg.hook (bash "grepfoo | egrep x") =
    {| rw_stdout :=
         Some {| hookEventName := "PreToolUse";
                 permissionDecision := "allow";
                 updatedInput_command := "rgfoo | erg x" |};
       rw_ending := SysExit 0 |}
  /\ GrepToRg.hook (bash "ls -la") = no_output.
Proof.
  split.
  - exact (proj1 grep_rewriter_replaces_every_occurrence
             (bash "grepfoo | egrep x") "grepfoo | egrep x"
             eq_refl eq_refl eq_refl).
  - exact (proj2 (proj2 (proj2 (proj2 (proj2
             grep_rewriter_replaces_every_occurrence))))
             (bash "ls -la") eq_refl).
Defined.

(** ** Claims about the test runner *)

Module RunnerFacts.
Import TestRunner.

Lemma any_pattern_existsb patterns file_path :
  any_pattern patterns file_path =
  existsb (fun pattern => Re.search pattern file_path) patterns.
Proof.
  induction patterns as [|p ps IH]; simpl; [reflexivity|].
  rewrite IH. destruct (Re.search p file_path); reflexivity.
Qed.

Lemma first_language_find table file_path :
  first_language table file_path =
  fst <$> List.find (matches_language file_path) table.
Proof.
  induction table as [|[language patterns] rest IH]; simpl; [reflexivity|].
  unfold matches_language at 1. simpl. rewrite any_pattern_existsb.
  destruct (existsb _ patterns); [reflexivity|exact IH].
Qed.

Lemma scan_filter w file_paths :
  forall test_files language,
    scan w file_paths test_files language =
    (test_files ++ List.filter (existing_test w) file_paths,
     match language with
     | Some l => Some l
     | None => head (List.filter (existing_test w) file_paths) ≫= is_test_file
     end).
Proof.
  induction file_paths as [|f rest IH]; intros test_files language.
  - cbn [scan List.filter head]. rewrite app_nil_r.
    destruct language; reflexivity.
  - cbn [scan List.filter].
    remember (List.filter (existing_test w) rest) as tests.
    unfold existing_test.
    destruct (PyStr.truthy f && isfile w f); cbn [andb]; [|apply IH].
    destruct (is_test_file f) as [detected|] eqn:E; [|apply IH].
    rewrite IH, <- app_assoc. cbn [app head mbind option_bind]. rewrite E.
    destruct language; reflexivity.
Qed.

Lemma detect_cases w language project_dir test_command :
  detect_test_framework w language project_dir = Some test_command ->
  test_command = "pytest" \/ test_command = "python -m unittest"
  \/ test_command = "npm test" \/ test_command = "go test"
  \/ test_command = "cargo test".
Proof.
  unfold detect_test_framework.
  repeat case_bool_decide;
    repeat match goal with
    | |- context [if ?b then _ else _] => destruct b
    | |- context [match ?m with Manifest _ => _ | Unreadable => _ end] => destruct m
    end; intros Hsome; inversion Hsome; auto 10.
Qed.

Lemma executed_run_tests w test_command test_files project_dir :
  executed (run_tests w test_command test_files project_dir) =
  scoped_command test_command test_files project_dir.
Proof.
  unfold run_tests. destruct (scoped_command _ _ _); reflexivity.
Qed.

Lemma hook_no_tests w input_data :
  List.filter (existing_test w) (touched w) = [] ->
  hook w input_data = silent.
Proof.
  intros H. unfold hook.
  destruct (negb _); [reflexivity|].
  destruct (negb _); [reflexivity|].
  fold (touched w). rewrite scan_filter, H. reflexivity.
Qed.

Lemma hook_with_tests w input_data first rest :
  tool_name input_data = Some "Edit" \/ tool_name input_data = Some "Write" ->
  PyStr.truthy (default "" (CLAUDE_FILE_PATHS w)) = true ->
  List.filter (existing_test w) (touched w) = first :: rest ->
  hook w input_data =
  match detect_test_framework w (is_test_file first) (project_dir_of w) with
  | Some test_command =>
      run_tests w test_command (first :: rest) (project_dir_of w)
  | None =>
      {| executed := None; stderr := [NoFramework (is_test_file first)];
         ending_of := SysExit 0 |}
  end.
Proof.
  intros Ht Hp H. unfold hook.
  replace (negb _) with false by (destruct Ht as [-> | ->]; reflexivity).
  rewrite Hp. cbn [negb]. fold (touched w). rewrite scan_filter, H.
  reflexivity.
Qed.

End RunnerFacts.

(** C9. The languages are tried in the order Python, JavaScript, Go, Rust
    and a file gets the first whose patterns match it; the loop keeps the
    touched files that exist and are test files, in touched order, and the
    run uses the language of the first of them; when there is none the hook
    stops without any effect. *)
Theorem classification_first_match_wins (w : TestRunner.world) :
  map fst TestRunner.TEST_PATTERNS = ["python"; "javascript"; "go"; "rust"]
  /\ (forall file_path,
        TestRunner.is_test_file file_path =
        fst <$> List.find (TestRunner.matches_language file_path)
                          TestRunner.TEST_PATTERNS)
  /\ (forall file_paths,
        TestRunner.scan w file_paths [] None =
        (List.filter (TestRunner.existing_test w) file_paths,
         head (List.filter (TestRunner.existing_test w) file_paths)
           ≫= TestRunner.is_test_file))
  /\ (forall input_data first rest,
        TestRunner.tool_name input_data = Some "Edit"
        \/ TestRunner.tool_name input_data = Some "Write" ->
        PyStr.truthy (default "" (TestRunner.CLAUDE_FILE_PATHS w)) = true ->
        List.filter (TestRunner.existing_test w) (TestRunner.touched w)
          = first :: rest ->
        TestRunner.hook w input_data =
        match TestRunner.detect_test_framework w
                (TestRunner.is_test_file first) (TestRunner.project_dir_of w)
        with
        | Some test_command =>
            TestRunner.run_tests w test_command (first :: rest)
                                 (TestRunner.project_dir_of w)
        | None =>
            {| TestRunner.executed := None;
               TestRunner.stderr :=
                 [TestRunner.NoFramework (TestRunner.is_test_file first)];
               TestRunner.ending_of := SysExit 0 |}
        end)
  /\ (forall input_data,
        List.filter (TestRunner.existing_test w) (TestRunner.touched w) = [] ->
        TestRunner.hook w input_data = TestRunner.silent).
Proof.
  split; [reflexivity|]. split; [|split; [|split]].
  - intros file_path. apply RunnerFacts.first_language_find.
  - intros file_paths. apply (RunnerFacts.scan_filter w file_paths [] None).
  - intros input_data first rest. apply RunnerFacts.hook_with_tests.
  - intros input_data. apply RunnerFacts.hook_no_tests.
Qed.

Lemma classification_first_match_wins_witness :
  TestRunner.hook (sample_world "README.md, tests/api.rs ,src/test_b.py") edit =
  TestRunner.run_tests (sample_world "README.md, tests/api.rs ,src/test_b.py")
    "cargo test" ["tests/api.rs"; "src/test_b.py"] "/proj".
Proof.
  exact (proj1 (proj2 (proj2 (proj2 (classification_first_match_wins
           (sample_world "README.md, tests/api.rs ,src/test_b.py")))))
           edit "tests/api.rs" ["src/test_b.py"]
           (or_introl eq_refl) eq_refl eq_refl).
Defined.

(** X4.  What [run_tests] hands to the shell, framework by framework.  The
    text [go test] is part of the text [cargo test], so with at most three
    files the branch of go test also takes cargo test. *)
Lemma scope_rule (w : TestRunner.world) language project_dir
    test_command test_files :
  TestRunner.detect_test_framework w language project_dir = Some test_command ->
  let cmd := TestRunner.executed
               (TestRunner.run_tests w test_command test_files project_dir) in
  (length test_files <= 3 ->
     (test_command = "pytest"
      /\ cmd = Some ("cd " +:+ project_dir +:+ " && pytest "
                     +:+ PyStr.join " " test_files +:+ " -v"))
     \/ ((test_command = "go test" \/ test_command = "cargo test")
         /\ cmd = Some ("cd " +:+ project_dir +:+ " && go test -v "
                        +:+ PyStr.join " " test_files))
     \/ (test_command = "npm test"
         /\ cmd = match test_files with
                  | first :: _ =>
                      Some ("cd " +:+ project_dir
                            +:+ " && npm test -- --testPathPattern="
                            +:+ TestRunner.dquote +:+ first +:+ TestRunner.dquote)
                  | [] => None
                  end)
     \/ (test_command = "python -m unittest"
         /\ cmd = Some ("cd " +:+ project_dir +:+ " && " +:+ test_command)))
  /\ (3 < length test_files ->
      cmd = Some ("cd " +:+ project_dir +:+ " && " +:+ test_command)).
Proof.
  intros Hd cmd. subst cmd. rewrite RunnerFacts.executed_run_tests.
  unfold TestRunner.scoped_command. split.
  - intros Hle. replace (length test_files <=? 3)%nat with true
      by (symmetry; apply Nat.leb_le, Hle).
    destruct (RunnerFacts.detect_cases _ _ _ _ Hd) as [->|[->|[->|[->| ->]]]].
    + left. split; [|vm_compute]; reflexivity.
    + right; right; right. split; [|vm_compute]; reflexivity.
    + right; right; left. split; [reflexivity|].
      destruct test_files; vm_compute; reflexivity.
    + right; left. split; [left|vm_compute]; reflexivity.
    + right; left. split; [right|vm_compute]; reflexivity.
  - intros Hgt. replace (length test_files <=? 3)%nat with false
      by (symmetry; apply Nat.leb_gt, Hgt).
    reflexivity.
Qed.

(** C1, pytest: three touched test files are all named in the command, four
    give the plain command. *)
Lemma pytest_three_and_four :
  TestRunner.executed
    (TestRunner.hook (pytest_world "test_a.py,test_b.py,test_c.py") edit)
  = Some "cd /proj && pytest test_a.py test_b.py test_c.py -v"
  /\ TestRunner.executed
       (TestRunner.hook
          (pytest_world "test_a.py,test_b.py,test_c.py,test_d.py") edit)
     = Some "cd /proj && pytest".
Proof. by_computation. Qed.

(** C1, cargo test.  The script has a branch that gives cargo test its plain
    command, but the branch of go test stands before it and its test,
    [go test in test_command], holds for the text [cargo test]: a Rust
    project with one touched test file is run with go test.  Only with more
    than three files does cargo test run. *)
Theorem cargo_test_scoped_as_go_test :
  PyStr.contains "go test" "cargo test" = true
  /\ TestRunner.is_test_file "tests/api.rs" = Some "rust"
  /\ TestRunner.detect_test_framework (sample_world "tests/api.rs")
       (Some "rust") "/proj" = Some "cargo test"
  /\ TestRunner.executed (TestRunner.hook (sample_world "tests/api.rs") edit)
     = Some "cd /proj && go test -v tests/api.rs"
  /\ TestRunner.executed
       (TestRunner.hook
          (sample_world "tests/a.rs,tests/b.rs,tests/c.rs,tests/d.rs") edit)
     = Some "cd /proj && cargo test".
Proof. by_computation. Qed.

(** ** Claims about the tool-call logger *)

Module TrackerFacts.
Import Sqlite CommandTracker.






End TrackerFacts.




(** ** Claims about the session logger *)

Module SessionFacts.
Import Sqlite SessionTracker.

Lemma hook_upserts w tool_calls t :
  hook w tool_calls (Usable t) =
  {| sessions_after :=
       Usable (Some (<[session_of w :=
                        row_of w (fst (read_stats tool_calls (session_of w)))]>
                     (default ∅ t)));
     warned := snd (read_stats tool_calls (session_of w));
     ending_of := SysExit 0 |}.
Proof.
  unfold hook. fold (session_of w).
  destruct (read_stats tool_calls (session_of w)) as [s warning]. reflexivity.
Qed.

(** The statistics: each is the answer of its query when that query and the
    ones before it answered, and zero otherwise. *)
Lemma read_stats_answers db sid :
  let q1 := answer count_tools db sid in
  let q2 := answer count_files db sid in
  let q3 := answer count_commands db sid in
  let q4 := answer query_duration db sid in
  let s := fst (read_stats db sid) in
  st_tool_count s = default 0%Z q1
  /\ st_file_count s = default 0%Z (q1 ≫= fun _ => q2)
  /\ st_command_count s = default 0%Z (q1 ≫= fun _ => q2 ≫= fun _ => q3)
  /\ st_duration_seconds s =
     default 0%Z (q1 ≫= fun _ => q2 ≫= fun _ => q3 ≫= fun _ => or_zero <$> q4)
  /\ snd (read_stats db sid) =
     match q1 ≫= fun _ => q2 ≫= fun _ => q3 ≫= fun _ => q4 with
     | Some _ => false
     | None => true
     end.
Proof.
  destruct db as [|[t|]]; simpl; try (repeat split; reflexivity).
  destruct (count_tools t sid); simpl; try (repeat split; reflexivity).
  destruct (count_files t sid); simpl; try (repeat split; reflexivity).
  destruct (count_commands t sid); simpl; try (repeat split; reflexivity).
  destruct (query_duration t sid); simpl; repeat split; reflexivity.
Qed.

End SessionFacts.

(** X16.  On the logger's own table every query answers: the counts are the
    numbers of rows, of Bash rows and of distinct file paths of the
    session. *)
Lemma session_logger_counts w t sessions :
  CommandTracker.columns t = CommandTracker.schema ->
  let sid := SessionTracker.session_of w in
  let mine := SessionTracker.of_session sid t in
  exists row,
    SessionTracker.sessions_after
      (SessionTracker.hook w (Sqlite.Usable (Some t)) (Sqlite.Usable sessions))
    = Sqlite.Usable (Some (<[sid := row]> (default ∅ sessions)))
    /\ SessionTracker.tool_count row = Z.of_nat (length mine)
    /\ SessionTracker.command_count row =
       Z.of_nat (length (List.filter
         (fun r => String.eqb (CommandTracker.tool_type r) "Bash") mine))
    /\ SessionTracker.file_count row =
       Z.of_nat (length (remove_dups (omap CommandTracker.row_file_path mine))).
Proof.
  intros Hc sid mine. rewrite SessionFacts.hook_upserts. eexists.
  split; [reflexivity|].
  unfold SessionTracker.read_stats, SessionTracker.count_tools,
    SessionTracker.count_files, SessionTracker.count_commands,
    SessionTracker.query_duration.
  rewrite Hc. simpl. auto.
Qed.

(** X17.  A second run under the same session identifier replaces the row of the
    first: the table holds the second run's row and is otherwise as before
    the first run. *)
Lemma session_logger_twice w1 w2 calls1 calls2 sessions :
  SessionTracker.session_of w1 = SessionTracker.session_of w2 ->
  SessionTracker.sessions_after
    (SessionTracker.hook w2 calls2
       (SessionTracker.sessions_after
          (SessionTracker.hook w1 calls1 (Sqlite.Usable sessions))))
  = SessionTracker.sessions_after
      (SessionTracker.hook w2 calls2 (Sqlite.Usable sessions)).
Proof.
  intros Hsid. rewrite (SessionFacts.hook_upserts w1).
  cbn [SessionTracker.sessions_after].
  rewrite !SessionFacts.hook_upserts.
  cbn [SessionTracker.sessions_after default from_option].
  unfold id. rewrite Hsid, insert_insert_eq. reflexivity.
Qed.

(** C7 as the code has it.  Whatever state the tool-call store is in, the
    session logger ends with status 0 and upserts its row.  Each statistic
    is the answer of its query when that query and the ones before it
    answered, and zero otherwise: all four are zero when the store cannot
    be read or has no table, while a failure at a later query keeps the
    counts read before it. *)
Theorem session_logger_survives_unreadable_store
    (w : SessionTracker.world)
    (tool_calls : Sqlite.store CommandTracker.table)
    (sessions : option SessionTracker.table) :
  let sid := SessionTracker.session_of w in
  let q1 := SessionTracker.answer SessionTracker.count_tools tool_calls sid in
  let q2 := SessionTracker.answer SessionTracker.count_files tool_calls sid in
  let q3 := SessionTracker.answer SessionTracker.count_commands tool_calls sid in
  let q4 := SessionTracker.answer SessionTracker.query_duration tool_calls sid in
  let after :=
    SessionTracker.main w tool_calls (Sqlite.Usable sessions) (Json tt) in
  SessionTracker.ending_of after = SysExit 0
  /\ exists row,
       SessionTracker.sessions_after after =
       Sqlite.Usable (Some (<[sid := row]> (default ∅ sessions)))
       /\ SessionTracker.tool_count row = default 0%Z q1
       /\ SessionTracker.file_count row = default 0%Z (q1 ≫= fun _ => q2)
       /\ SessionTracker.command_count row =
          default 0%Z (q1 ≫= fun _ => q2 ≫= fun _ => q3)
       /\ SessionTracker.duration_seconds row =
          default 0%Z (q1 ≫= fun _ => q2 ≫= fun _ => q3 ≫= fun _ =>
                        SessionTracker.or_zero <$> q4)
       /\ (q1 = None ->
           SessionTracker.tool_count row = 0%Z
           /\ SessionTracker.file_count row = 0%Z
           /\ SessionTracker.command_count row = 0%Z
           /\ SessionTracker.duration_seconds row = 0%Z).
Proof.
  intros sid q1 q2 q3 q4 after. subst after. cbn [SessionTracker.main].
  rewrite SessionFacts.hook_upserts. split; [reflexivity|].
  eexists. split; [reflexivity|]. simpl.
  destruct (SessionFacts.read_stats_answers tool_calls sid)
    as (H1 & H2 & H3 & H4 & _).
  fold sid. rewrite H1, H2, H3, H4. fold q1 q2 q3 q4.
  split; [reflexivity|]. split; [reflexivity|]. split; [reflexivity|].
  split; [reflexivity|]. intros ->. repeat split; reflexivity.
Qed.

Lemma session_logger_survives_unreadable_store_witness :
  SessionTracker.stored
    (SessionTracker.sessions_after
       (SessionTracker.main session_S Sqlite.Broken (Sqlite.Usable None)
          (Json tt))) "S"
  = Some (0, 0, 0, 0)%Z.
Proof.
  destruct (session_logger_survives_unreadable_store session_S Sqlite.Broken None)
    as (_ & row & -> & _ & _ & _ & _ & Hzero).
  destruct (Hzero eq_refl) as (H1 & H2 & H3 & H4).
  unfold SessionTracker.stored. rewrite lookup_insert_eq. cbn.
  rewrite H1, H2, H3, H4. reflexivity.
Defined.

(** C7, the claim as stated fails: on a table that lacks the column
    [file_path] the first query answers and the second raises; the warning
    is printed and the row is written with the tool count already read, 2,
    not with zero statistics. *)
Lemma session_logger_keeps_counts_read_before_failure :
  SessionTracker.answer SessionTracker.count_tools
    (Sqlite.Usable (Some old_table)) "S" = Some 2%Z
  /\ SessionTracker.answer SessionTracker.count_files
       (Sqlite.Usable (Some old_table)) "S" = None
  /\ SessionTracker.warned
       (SessionTracker.main session_S (Sqlite.Usable (Some old_table))
          (Sqlite.Usable None) (Json tt)) = true
  /\ SessionTracker.stored (SessionTracker.sessions_after
               (SessionTracker.main session_S (Sqlite.Usable (Some old_table))
                  (Sqlite.Usable None) (Json tt))) "S"
     = Some (2, 0, 0, 0)%Z.
Proof. by_computation. Qed.

(** C2 at a store of five calls that span 42 seconds, from 09:00:04 to
    09:00:46.  The counts are 5, 2 and 3, and the row is the only one of the
    session, also after a second run; but the duration stored is 41: the
    difference of the two Julian day numbers, times 24 * 60 * 60, is a
    double just below 42 and the cast drops the fraction.  Two seconds
    earlier the same calls give 42. *)
Theorem session_duration_one_second_short :
  Sqlite.elapsed (nine_oclock 4) (nine_oclock 46) = 42%Z
  /\ Sqlite.seconds_between (nine_oclock 4) (nine_oclock 46) = 41%Z
  /\ SessionTracker.stored (SessionTracker.sessions_after
               (SessionTracker.main session_S
                  (Sqlite.Usable (Some (five_calls 4))) (Sqlite.Usable None)
                  (Json tt))) "S"
     = Some (5, 2, 3, 41)%Z
  /\ SessionTracker.stored (SessionTracker.sessions_after
               (SessionTracker.main session_S
                  (Sqlite.Usable (Some (five_calls 4)))
                  (SessionTracker.sessions_after
                     (SessionTracker.main session_S
                        (Sqlite.Usable (Some (five_calls 4)))
                        (Sqlite.Usable None) (Json tt)))
                  (Json tt))) "S"
     = Some (5, 2, 3, 41)%Z
  /\ SessionTracker.stored (SessionTracker.sessions_after
               (SessionTracker.main session_S
                  (Sqlite.Usable (Some (five_calls 2))) (Sqlite.Usable None)
                  (Json tt))) "S"
     = Some (5, 2, 3, 42)%Z.
Proof. by_computation. Qed.

(** ** Claims about exit statuses *)

Module ExitFacts.

Lemma scoped_command_some test_command first rest project_dir :
  TestRunner.scoped_command test_command (first :: rest) project_dir <> None.
Proof.
  unfold TestRunner.scoped_command.
  repeat match goal with
  | |- context [if ?b then _ else _] => destruct b
  end; discriminate.
Qed.











End ExitFacts.




(** ** Claims about the deployer *)

Module DeployFacts.
Import Deploy.

(** *** One turn of the merge loop *)

Lemma merge_event_first_same all event_type new_hooks :
  first_of (merge_event all (event_type, new_hooks)) event_type =
  List.filter (not_redeployed (commands_of new_hooks)) (first_of all event_type)
  ++ new_hooks.
Proof.
  unfold merge_event, first_of, commands_of.
  destruct (all !! event_type) as [[|first others]|] eqn:E;
    rewrite ?E, ?lookup_insert_eq; reflexivity.
Qed.

Lemma merge_event_lookup_other all event_type new_hooks other :
  event_type <> other ->
  merge_event all (event_type, new_hooks) !! other = all !! other.
Proof.
  intros Hne. unfold merge_event.
  destruct (all !! event_type) as [[|first others]|] eqn:E;
    rewrite ?E, ?lookup_insert_eq; rewrite ?E;
    rewrite ?lookup_insert_ne by exact Hne; try reflexivity.
Qed.

Lemma merge_event_first_other all event_type new_hooks other :
  event_type <> other ->
  first_of (merge_event all (event_type, new_hooks)) other = first_of all other.
Proof.
  intros Hne. unfold first_of.
  now rewrite merge_event_lookup_other.
Qed.

Lemma merge_event_later all event_type new_hooks other :
  later_of (merge_event all (event_type, new_hooks)) other = later_of all other.
Proof.
  destruct (decide (event_type = other)) as [<-|Hne].
  - unfold merge_event, later_of.
    destruct (all !! event_type) as [[|first others]|] eqn:E;
      rewrite ?E, ?lookup_insert_eq; reflexivity.
  - unfold later_of. now rewrite merge_event_lookup_other.
Qed.

(** *** The whole loop *)

Lemma assoc_none_not_key event_type hook_configs :
  event_type ∉ map fst hook_configs -> assoc event_type hook_configs = None.
Proof.
  induction hook_configs as [|[e rs] rest IH]; intros Hn; [reflexivity|].
  simpl in *. apply not_elem_of_cons in Hn as [Hne Hn].
  destruct (String.eqb_spec e event_type); [congruence|]. apply IH, Hn.
Qed.

Lemma fold_merge_first hook_configs :
  NoDup (map fst hook_configs) ->
  forall all event_type,
    first_of (fold_left merge_event hook_configs all) event_type =
    match assoc event_type hook_configs with
    | Some new_hooks =>
        List.filter (not_redeployed (commands_of new_hooks))
                    (first_of all event_type) ++ new_hooks
    | None => first_of all event_type
    end.
Proof.
  induction hook_configs as [|[e rs] rest IH]; intros Hnd all event_type;
    [reflexivity|].
  simpl in Hnd. apply NoDup_cons in Hnd as [Hfresh Hnd].
  cbn [fold_left assoc]. rewrite (IH Hnd).
  destruct (String.eqb_spec e event_type) as [->|Hne].
  - rewrite (assoc_none_not_key _ _ Hfresh). apply merge_event_first_same.
  - rewrite (merge_event_first_other _ _ _ _ Hne). reflexivity.
Qed.

Lemma fold_merge_later hook_configs :
  forall all event_type,
    later_of (fold_left merge_event hook_configs all) event_type =
    later_of all event_type.
Proof.
  induction hook_configs as [|[e rs] rest IH]; intros all event_type;
    [reflexivity|].
  cbn [fold_left]. rewrite IH. apply merge_event_later.
Qed.

(** *** The table of registrations by event type *)

Lemma assoc_add_config event_type r hook_configs other :
  assoc other (add_config event_type r hook_configs) =
  if String.eqb event_type other
  then Some (default [] (assoc other hook_configs) ++ [r])
  else assoc other hook_configs.
Proof.
  induction hook_configs as [|[e rs] rest IH]; simpl.
  - destruct (String.eqb event_type other); reflexivity.
  - destruct (String.eqb_spec e event_type) as [->|Hne]; simpl.
    + destruct (String.eqb event_type other); reflexivity.
    + rewrite IH.
      destruct (String.eqb_spec e other) as [->|];
        destruct (String.eqb_spec event_type other); congruence.
Qed.

Lemma keys_add_config event_type r hook_configs :
  map fst (add_config event_type r hook_configs) =
  if bool_decide (event_type ∈ map fst hook_configs)
  then map fst hook_configs
  else map fst hook_configs ++ [event_type].
Proof.
  induction hook_configs as [|[e rs] rest IH]; simpl; [reflexivity|].
  destruct (String.eqb_spec e event_type) as [->|Hne]; simpl.
  - rewrite bool_decide_eq_true_2 by left. reflexivity.
  - rewrite IH. repeat case_bool_decide; try reflexivity.
    + exfalso. apply H0. now right.
    + apply elem_of_cons in H0 as [->|]; congruence.
Qed.

Lemma NoDup_add_config event_type r hook_configs :
  NoDup (map fst hook_configs) ->
  NoDup (map fst (add_config event_type r hook_configs)).
Proof.
  intros Hnd. rewrite keys_add_config. case_bool_decide; [exact Hnd|].
  apply NoDup_app. split; [exact Hnd|]. split; [|apply NoDup_singleton].
  intros x Hx Hin. apply list_elem_of_singleton in Hin as ->. contradiction.
Qed.

Lemma fold_add_hook deployed_hooks :
  forall hook_configs,
    NoDup (map fst hook_configs) ->
    NoDup (map fst (fold_left add_hook deployed_hooks hook_configs))
    /\ forall event_type,
         assoc event_type (fold_left add_hook deployed_hooks hook_configs) =
         match regs_for event_type deployed_hooks with
         | [] => assoc event_type hook_configs
         | _ :: _ =>
             Some (default [] (assoc event_type hook_configs)
                   ++ regs_for event_type deployed_hooks)
         end.
Proof.
  induction deployed_hooks as [|p rest IH]; intros hook_configs Hnd.
  - split; [exact Hnd|reflexivity].
  - cbn [fold_left].
    destruct (IH (add_hook hook_configs p) (NoDup_add_config _ _ _ Hnd))
      as [Hnd' Hassoc].
    split; [exact Hnd'|]. intros event_type. rewrite Hassoc.
    unfold add_hook at 1 2. rewrite assoc_add_config.
    unfold regs_for, hooks_for. cbn [List.filter].
    destruct (String.eqb (event_type_of (stem p)) event_type); cbn [map].
    + destruct (map register _) as [|r rs]; [reflexivity|].
      f_equal. change (default [] (Some ?x)) with x.
      rewrite <- app_assoc. reflexivity.
    + reflexivity.
Qed.

Lemma build_configs_assoc deployed_hooks :
  NoDup (map fst (build_configs deployed_hooks))
  /\ forall event_type,
       assoc event_type (build_configs deployed_hooks) =
       match regs_for event_type deployed_hooks with
       | [] => None
       | _ :: _ => Some (regs_for event_type deployed_hooks)
       end.
Proof.
  destruct (fold_add_hook deployed_hooks [] (NoDup_nil_2 (A:=string)))
    as [Hnd Hassoc].
  split; [exact Hnd|]. intros event_type.
  unfold build_configs. fold add_hook. rewrite Hassoc.
  destruct (regs_for event_type deployed_hooks); reflexivity.
Qed.

Lemma filter_not_redeployed_empty rs :
  List.filter (not_redeployed (commands_of [])) rs = rs.
Proof.
  induction rs as [|h rs IH]; [reflexivity|]. simpl.
  unfold not_redeployed at 1.
  destruct (reg_command h); [rewrite bool_decide_eq_true_2|]; try now rewrite IH.
  apply not_elem_of_empty.
Qed.

Lemma first_group_of s event_type :
  first_group s event_type = first_of (default ∅ (hooks s)) event_type.
Proof. reflexivity. Qed.

(** What the merge leaves in the first group of an event type: what was
    there, without the registrations of the commands being deployed, then
    the new registrations. *)
Lemma first_group_update s deployed_hooks event_type :
  first_group (update_settings s deployed_hooks) event_type =
  List.filter (not_redeployed (commands_of (regs_for event_type deployed_hooks)))
              (first_group s event_type)
  ++ regs_for event_type deployed_hooks.
Proof.
  destruct (build_configs_assoc deployed_hooks) as [Hnd Hassoc].
  rewrite !first_group_of. cbn [update_settings hooks default from_option].
  unfold id. rewrite (fold_merge_first _ Hnd), Hassoc.
  destruct (regs_for event_type deployed_hooks) eqn:E; [|reflexivity].
  rewrite filter_not_redeployed_empty, app_nil_r. reflexivity.
Qed.

Lemma later_groups_update s deployed_hooks event_type :
  later_groups (update_settings s deployed_hooks) event_type =
  later_groups s event_type.
Proof.
  change (later_of (fold_left merge_event (build_configs deployed_hooks)
                      (default ∅ (hooks s))) event_type
          = later_of (default ∅ (hooks s)) event_type).
  apply fold_merge_later.
Qed.

(** *** Counting and duplicates *)

Lemma app_inv_head_string (a b c : string) : a +:+ b = a +:+ c -> b = c.
Proof.
  induction a as [|x a IH]; [auto|].
  rewrite !app_cons_string. intros [= H]. auto.
Qed.

Lemma commands_regs l : omap reg_command (map register l) = map str l.
Proof.
  induction l as [|p l IH]; [reflexivity|]. cbn [map].
  change (omap reg_command (register p :: map register l))
    with (str p :: omap reg_command (map register l)).
  now rewrite IH.
Qed.

Lemma in_hooks_for p event_type deployed_hooks :
  In p (hooks_for event_type deployed_hooks) <->
  In p deployed_hooks /\ event_type_of (stem p) = event_type.
Proof.
  unfold hooks_for. rewrite filter_In, String.eqb_eq. reflexivity.
Qed.

Lemma elem_of_map_str c (l : list path) :
  c ∈ map str l <-> exists p, In p l /\ str p = c.
Proof.
  rewrite list_elem_of_In, in_map_iff. split; intros (p & H1 & H2); eauto.
Qed.

Lemma NoDup_map_filter {A B} (f : A -> B) (P : A -> bool) l :
  NoDup (map f l) -> NoDup (map f (List.filter P l)).
Proof.
  induction l as [|a l IH]; simpl; [auto|].
  rewrite NoDup_cons. intros [Hn Hnd].
  destruct (P a); simpl; [|auto].
  apply NoDup_cons. split; [|auto].
  intros Hin. apply Hn.
  apply list_elem_of_In, in_map_iff in Hin as (x & <- & Hx).
  apply filter_In in Hx as [Hx _].
  apply list_elem_of_In, in_map_iff. eauto.
Qed.

Lemma elem_of_omap_filter {A B} (f : A -> option B) (P : A -> bool) l x :
  x ∈ omap f (List.filter P l) <->
  exists a, In a l /\ P a = true /\ f a = Some x.
Proof.
  rewrite list_elem_of_omap. split.
  - intros (a & Ha & Hf). apply list_elem_of_In, filter_In in Ha as [Ha HP]. eauto.
  - intros (a & Ha & HP & Hf). exists a. split; [|exact Hf].
    apply list_elem_of_In, filter_In. auto.
Qed.

Lemma NoDup_omap_filter {A B} (f : A -> option B) (P : A -> bool) l :
  NoDup (omap f l) -> NoDup (omap f (List.filter P l)).
Proof.
  induction l as [|a l IH]; simpl; [auto|].
  destruct (P a), (f a) as [b|] eqn:E; simpl; rewrite ?E;
    rewrite ?NoDup_cons; intros H; try (apply IH; tauto); try tauto.
  destruct H as [Hn Hnd]. split; [|auto].
  intros Hin. apply Hn.
  apply elem_of_omap_filter in Hin as (x & Hx & _ & Hf).
  apply list_elem_of_omap. exists x. split; [apply list_elem_of_In|]; auto.
Qed.

Lemma count_command_app c l1 l2 :
  count_command c (l1 ++ l2) = count_command c l1 + count_command c l2.
Proof. unfold count_command. now rewrite List.filter_app, length_app. Qed.

Lemma count_command_filtered c cmds old :
  c ∈ cmds -> count_command c (List.filter (not_redeployed cmds) old) = 0.
Proof.
  intros Hc. unfold count_command.
  induction old as [|h old IH]; [reflexivity|]. cbn [List.filter].
  destruct (not_redeployed cmds h) eqn:E; [|exact IH].
  cbn [List.filter]. case_bool_decide as Hh; [|exact IH].
  unfold not_redeployed in E. rewrite Hh in E.
  apply bool_decide_eq_true_1 in E. contradiction.
Qed.

Lemma count_command_absent c l :
  c ∉ map str l -> count_command c (map register l) = 0.
Proof.
  unfold count_command.
  induction l as [|q l IH]; [reflexivity|]. cbn [map List.filter].
  intros Hn. apply not_elem_of_cons in Hn as [Hne Hn].
  rewrite bool_decide_eq_false_2 by (cbn; congruence). auto.
Qed.

Lemma count_command_once p l :
  NoDup (map str l) -> In p l -> count_command (str p) (map register l) = 1.
Proof.
  induction l as [|q l IH]; [contradiction|]. cbn [map].
  rewrite NoDup_cons. intros [Hn Hnd] [->|Hin].
  - change (register p :: map register l) with ([register p] ++ map register l).
    rewrite count_command_app, (count_command_absent _ _ Hn).
    unfold count_command. cbn.
    rewrite bool_decide_eq_true_2 by reflexivity. reflexivity.
  - change (register q :: map register l) with ([register q] ++ map register l).
    rewrite count_command_app, (IH Hnd Hin).
    unfold count_command. cbn.
    rewrite bool_decide_eq_false_2; [reflexivity|].
    intros [= Heq]. apply Hn. rewrite Heq.
    apply list_elem_of_In, in_map, Hin.
Qed.

Lemma filter_idem {A} (P : A -> bool) l :
  List.filter P (List.filter P l) = List.filter P l.
Proof.
  induction l as [|a l IH]; [reflexivity|]. simpl.
  destruct (P a) eqn:E; simpl; rewrite ?E, IH; reflexivity.
Qed.

Lemma filter_regs_redeployed l :
  List.filter (not_redeployed (commands_of (map register l))) (map register l)
  = [].
Proof.
  assert (forall cmds : gset string, (forall p, In p l -> str p ∈ cmds) ->
          List.filter (not_redeployed cmds) (map register l) = []) as H.
  { intros cmds. induction l as [|p l IH]; intros Hall; [reflexivity|].
    cbn [map List.filter]. unfold not_redeployed at 1. cbn [register reg_command].
    rewrite bool_decide_eq_false_2; [apply IH; intros; apply Hall; now right|].
    intros Hn. apply Hn, Hall. now left. }
  apply H. intros p Hin. unfold commands_of.
  rewrite commands_regs. apply elem_of_list_to_set, list_elem_of_In, in_map, Hin.
Qed.

End DeployFacts.

(** The files of one directory have different names, so the paths they are
    copied to are different. *)
Lemma deployed_paths_distinct (w : Deploy.world) entries :
  Deploy.HOOKS_SOURCE w = Some entries ->
  NoDup (map Deploy.entry_name entries) ->
  NoDup (map Deploy.str (Deploy.copy_hooks w (Deploy.get_hook_files w))).
Proof.
  intros Hsrc Hnd. unfold Deploy.get_hook_files. rewrite Hsrc.
  pose proof (DeployFacts.NoDup_map_filter Deploy.entry_name
    (fun f => Deploy.is_file f
              && negb (String.eqb (Deploy.entry_name f) "__init__.py"))
    entries Hnd) as Hnames.
  induction (map Deploy.entry_name (List.filter _ entries)) as [|n names IH];
    [constructor|].
  apply NoDup_cons in Hnames as [Hn Hnames]. cbn [Deploy.copy_hooks map].
  apply NoDup_cons. split; [|apply IH, Hnames].
  intros Hin. apply Hn.
  apply list_elem_of_In, in_map_iff in Hin as (q & Hq & Hin).
  apply in_map_iff in Hin as (m & <- & Hm).
  unfold Deploy.str in Hq. cbn in Hq.
  do 2 apply DeployFacts.app_inv_head_string in Hq. subst m.
  apply list_elem_of_In, Hm.
Qed.

(** C5 as the code has it.  The merge reads and writes only the first group
    of an event type.  After it that group holds what it held, without the
    registrations of the commands being deployed, followed by the new
    registrations: every deployed command is registered there exactly once,
    so deploying a hook twice leaves one registration of it and two hooks of
    one event type leave one each; if the commands of the group were
    pairwise different before, they are after; registrations of other
    commands stay, and the later groups stay as they were. *)
Theorem deployer_first_group_dedup
    (s : Deploy.settings) (deployed_hooks : list Deploy.path)
    (event_type : string) :
  NoDup (map Deploy.str deployed_hooks) ->
  let s' := Deploy.update_settings s deployed_hooks in
  let mine := Deploy.hooks_for event_type deployed_hooks in
  Deploy.first_group s' event_type =
    List.filter
      (Deploy.not_redeployed (list_to_set (map Deploy.str mine)))
      (Deploy.first_group s event_type)
    ++ map Deploy.register mine
  /\ (forall p,
        In p deployed_hooks ->
        Deploy.event_type_of (Deploy.stem p) = event_type ->
        Deploy.count_command (Deploy.str p) (Deploy.first_group s' event_type)
        = 1)
  /\ (NoDup (omap Deploy.reg_command (Deploy.first_group s event_type)) ->
      NoDup (omap Deploy.reg_command (Deploy.first_group s' event_type)))
  /\ (forall h,
        In h (Deploy.first_group s event_type) ->
        (forall p, In p deployed_hooks ->
                   Deploy.reg_command h <> Some (Deploy.str p)) ->
        In h (Deploy.first_group s' event_type))
  /\ Deploy.first_group (Deploy.update_settings s' deployed_hooks) event_type
     = Deploy.first_group s' event_type
  /\ Deploy.later_groups s' event_type = Deploy.later_groups s event_type
  /\ Deploy.other_settings s' = Deploy.other_settings s.
Proof.
  intros Hnd s' mine.
  assert (Deploy.first_group s' event_type =
          List.filter
            (Deploy.not_redeployed (list_to_set (map Deploy.str mine)))
            (Deploy.first_group s event_type)
          ++ map Deploy.register mine) as Hfirst.
  { subst s' mine. rewrite DeployFacts.first_group_update.
    unfold Deploy.regs_for, Deploy.commands_of.
    rewrite DeployFacts.commands_regs. reflexivity. }
  assert (NoDup (map Deploy.str mine)) as Hmine
    by apply DeployFacts.NoDup_map_filter, Hnd.
  split; [exact Hfirst|]. split; [|split; [|split; [|split; [|split]]]].
  - intros p Hin Hev.
    assert (In p mine) as Hp by (apply DeployFacts.in_hooks_for; auto).
    rewrite Hfirst, DeployFacts.count_command_app.
    rewrite DeployFacts.count_command_filtered
      by (apply elem_of_list_to_set, list_elem_of_In, in_map, Hp).
    apply (DeployFacts.count_command_once _ _ Hmine Hp).
  - intros Hold. rewrite Hfirst, omap_app, DeployFacts.commands_regs.
    apply NoDup_app. split; [apply DeployFacts.NoDup_omap_filter, Hold|].
    split; [|exact Hmine].
    intros c Hc Hin.
    apply DeployFacts.elem_of_omap_filter in Hc as (h & _ & Hkept & Hcmd).
    unfold Deploy.not_redeployed in Hkept. rewrite Hcmd in Hkept.
    apply bool_decide_eq_true_1 in Hkept. apply Hkept.
    apply elem_of_list_to_set, Hin.
  - intros h Hh Hother. rewrite Hfirst. apply in_or_app. left.
    apply filter_In. split; [exact Hh|].
    unfold Deploy.not_redeployed.
    destruct (Deploy.reg_command h) as [c|] eqn:Hcmd; [|reflexivity].
    apply bool_decide_eq_true_2. intros Hc.
    apply elem_of_list_to_set, DeployFacts.elem_of_map_str in Hc
      as (p & Hp & <-).
    apply DeployFacts.in_hooks_for in Hp as [Hp _].
    now apply (Hother p Hp).
  - rewrite DeployFacts.first_group_update. fold s'. rewrite Hfirst.
    unfold Deploy.regs_for, Deploy.commands_of. fold mine.
    rewrite DeployFacts.commands_regs, List.filter_app, DeployFacts.filter_idem.
    rewrite <- (DeployFacts.commands_regs mine).
    fold (Deploy.commands_of (map Deploy.register mine)).
    rewrite DeployFacts.filter_regs_redeployed, app_nil_r. reflexivity.
  - apply DeployFacts.later_groups_update.
  - reflexivity.
Qed.

Lemma deployer_first_group_dedup_witness :
  Deploy.first_group
    (Deploy.update_settings
       (Deploy.update_settings Deploy.no_settings
          [dest "grep-to-rg.py"; dest "lint.sh"])
       [dest "grep-to-rg.py"]) "PreToolUse"
  = [Deploy.register (dest "lint.sh"); Deploy.register (dest "grep-to-rg.py")]
  /\ Deploy.count_command "/home/u/.claude/hooks/grep-to-rg.py"
       (Deploy.first_group
          (Deploy.update_settings
             (Deploy.update_settings Deploy.no_settings
                [dest "grep-to-rg.py"; dest "lint.sh"])
             [dest "grep-to-rg.py"]) "PreToolUse") = 1.
Proof.
  pose proof (deployer_first_group_dedup
    (Deploy.update_settings Deploy.no_settings
       [dest "grep-to-rg.py"; dest "lint.sh"])
    [dest "grep-to-rg.py"] "PreToolUse"
    ltac:(vm_compute; repeat constructor; set_solver)) as (H1 & H2 & _).
  split.
  - rewrite H1. vm_compute. reflexivity.
  - apply (H2 (dest "grep-to-rg.py")); [now left|vm_compute; reflexivity].
Defined.

(** C5, the claim as stated fails: before the deployment the event type
    PreToolUse holds one registration of the command, in its second group;
    the merge looks at the first group only, so afterwards two
    registrations under PreToolUse share the command. *)
Lemma deployer_misses_later_groups :
  Deploy.count_command "/home/u/.claude/hooks/grep-to-rg.py"
    (Deploy.registrations registered_in_second_group "PreToolUse") = 1
  /\ Deploy.event_type_of (Deploy.stem (dest "grep-to-rg.py")) = "PreToolUse"
  /\ Deploy.count_command "/home/u/.claude/hooks/grep-to-rg.py"
       (Deploy.registrations
          (Deploy.update_settings registered_in_second_group
             [dest "grep-to-rg.py"]) "PreToolUse") = 2.
Proof. by_computation. Qed.

(* ===================================================================== *)
(** * Further properties *)
(* ===================================================================== *)

(** ** Further properties of the command rewriters *)

Module RewriterFacts.

Lemma replace_grep_cons c s :
  PyStr.startswith "grep" (String c s) = false ->
  PyStr.replace "grep" "rg" (String c s) = String c (PyStr.replace "grep" "rg" s).
Proof.
  intros H. unfold PyStr.replace. rewrite GrepFacts.replace_from_cons, H.
  reflexivity.
Qed.

Lemma replace_grep_hit b :
  PyStr.replace "grep" "rg" ("grep" +:+ b) = "rg" +:+ PyStr.replace "grep" "rg" b.
Proof. apply (GrepFacts.replace_from_hit "rep" "rg" "g" b). Qed.

(** The replacement never makes the text longer, and makes it shorter when
    there is an occurrence. *)
Lemma replace_grep_length n :
  forall s, String.length s < n ->
  String.length (PyStr.replace "grep" "rg" s) <= String.length s
  /\ (PyStr.contains "grep" s = true ->
      String.length (PyStr.replace "grep" "rg" s) < String.length s).
Proof.
  induction n as [|n IH]; intros s Hn; [lia|].
  destruct s as [|c s]; [split; [reflexivity|discriminate]|].
  destruct (PyStr.startswith "grep" (String c s)) eqn:E.
  - rewrite (startswith_split _ _ E) in *.
    remember (PyStr.drop (String.length "grep") (String c s)) as b.
    rewrite replace_grep_hit, !length_app_string in *.
    cbn [String.length] in *.
    destruct (IH b ltac:(lia)) as [Hle _]. lia.
  - rewrite (replace_grep_cons _ _ E), GrepFacts.contains_cons, E.
    cbn [String.length orb] in *.
    destruct (IH s ltac:(lia)) as [Hle Hlt]. split; [lia|].
    intros Hc. specialize (Hlt Hc). lia.
Qed.

End RewriterFacts.

(** X3.  The grep rewriter answers only a Bash request whose command holds the
    text grep, always with the decision allow for PreToolUse, and the
    command it puts out is strictly shorter than the one it was given: it
    never repeats a command unchanged.  The command put out may hold grep
    again, so that the rewriter would answer it once more. *)
Theorem grep_rewriter_shortens :
  (forall input out,
      rw_stdout (GrepToRg.hook input) = Some out ->
      let command := default "" (rq_command input) in
      rq_tool_name input = Some "Bash"
      /\ PyStr.contains "grep" command = true
      /\ hookEventName out = "PreToolUse"
      /\ permissionDecision out = "allow"
      /\ updatedInput_command out = PyStr.replace "grep" "rg" command
      /\ String.length (updatedInput_command out) < String.length command)
  /\ (exists out,
        rw_stdout (GrepToRg.hook (bash "ggreprep")) = Some out
        /\ updatedInput_command out = "grgrep"
        /\ PyStr.contains "grep" (updatedInput_command out) = true).
Proof.
  split.
  - intros input out H command. subst command. unfold GrepToRg.hook in H.
    case_bool_decide as Ht; [|discriminate]. cbn [negb] in H. cbv zeta in H.
    destruct (PyStr.contains "grep" _) eqn:Hg; [|discriminate].
    injection H as <-. cbn.
    repeat match goal with |- _ /\ _ => split end; try reflexivity;
      try assumption.
    now apply (RewriterFacts.replace_grep_length _ _ (Nat.lt_succ_diag_r _)).
  - eexists. by_computation.
Qed.

Lemma grep_rewriter_shortens_witness :
  String.length "rg -rn TODO src | erg -v done"
  < String.length "grep -rn TODO src | egrep -v done".
Proof.
  exact (proj2 (proj2 (proj2 (proj2 (proj2
           (proj1 grep_rewriter_shortens
              (bash "grep -rn TODO src | egrep -v done")
              (GrepToRg.respond "rg -rn TODO src | erg -v done")
              eq_refl)))))).
Defined.

(** X1.  The npm rewriter answers exactly the Bash requests whose command holds
    the whole word npm, with the decision allow for PreToolUse and the
    converted command, which always differs from the command it was given;
    a request of another tool, or one without a command, gets no answer. *)
Theorem npm_rewriter_answers_exactly_npm (input : rewrite_request) :
  let command := default "" (rq_command input) in
  match rw_stdout (NpmToPnpm.hook input) with
  | Some out =>
      rq_tool_name input = Some "Bash"
      /\ Re.search NpmToPnpm.re_npm command = true
      /\ hookEventName out = "PreToolUse"
      /\ permissionDecision out = "allow"
      /\ updatedInput_command out = NpmToPnpm.convert command
      /\ updatedInput_command out <> command
  | None =>
      rq_tool_name input <> Some "Bash"
      \/ Re.search NpmToPnpm.re_npm command = false
  end.
Proof.
  intros command. subst command. unfold NpmToPnpm.hook.
  case_bool_decide as Ht; cbn [negb]; [|now left]. cbv zeta.
  destruct (Re.search _ (default "" (rq_command input))) eqn:Hs;
    cbn [negb rw_stdout]; [|now right].
  repeat match goal with |- _ /\ _ => split end; try reflexivity;
    try assumption.
  cbn [NpmToPnpm.respond updatedInput_command]. intros Heq.
  pose proof (NpmFacts.convert_clean (default "" (rq_command input))) as Hclean.
  rewrite Heq, Hs in Hclean. discriminate.
Qed.

Module NpmBlanks.
Import Re NpmToPnpm NpmFacts NpmMappings.

#[local] Arguments Ascii.eqb : simpl never.
#[local] Arguments PyStr.is_word : simpl never.
#[local] Arguments PyStr.is_space : simpl never.

Lemma app_assoc_string (a b c : string) : (a +:+ b) +:+ c = a +:+ (b +:+ c).
Proof.
  induction a as [|x a IH]; [reflexivity|].
  rewrite !app_cons_string, IH. reflexivity.
Qed.

Lemma app_nil_r_string (a : string) : a +:+ "" = a.
Proof.
  induction a as [|x a IH]; [reflexivity|].
  rewrite app_cons_string, IH. reflexivity.
Qed.

Lemma all_space_app a b :
  all_space (a +:+ b) = all_space a && all_space b.
Proof.
  induction a as [|x a IH]; [reflexivity|].
  rewrite app_cons_string. cbn [all_space]. rewrite IH, andb_assoc. reflexivity.
Qed.

Lemma space_not_n c : PyStr.is_space c = true -> c <> "n"%char.
Proof. intros H ->. discriminate H. Qed.

Lemma search_npm_blank s :
  forall prev, all_space s = true -> search_from re_npm prev s = false.
Proof.
  induction s as [|c s IH]; intros prev H.
  - rewrite search_npm_unfold. unfold npm_here. cbn. now rewrite andb_false_r.
  - cbn [all_space] in H. apply andb_prop in H as [Hc Hs].
    rewrite search_npm_unfold, (npm_here_other _ _ _ (space_not_n _ Hc)).
    apply IH, Hs.
Qed.

(** Greedy whitespace before a last whitespace character: when what
    follows fails at the end of the text and holds just before that last
    character, the match stops there. *)
Lemma many_space_last next x c ws :
  forall prev,
    all_space ws = true -> PyStr.is_space c = true ->
    (forall p, next p "" = None) ->
    (forall p, next p (String c "") = Some x) ->
    many Space prev (ws +:+ String c "") next = Some x.
Proof.
  induction ws as [|w ws IH]; intros prev Hws Hc Hend Hlast.
  - rewrite app_nil_string. cbn [many cls_ok]. rewrite Hc, Hend. apply Hlast.
  - cbn [all_space] in Hws. apply andb_prop in Hws as [Hw Hws].
    rewrite app_cons_string. cbn [many cls_ok]. rewrite Hw.
    rewrite (IH (Some w) Hws Hc Hend Hlast). reflexivity.
Qed.

Lemma install_one_blank c :
  PyStr.is_space c = true ->
  convert ("npm install" +:+ String c "") = "pnpm install".
Proof.
  intros Hc.
  assert (c <> "-"%char) as Hdash by (intros ->; discriminate Hc).
  assert (Ascii.eqb "-" c = false) as Hd by (apply Ascii.eqb_neq; congruence).
  rewrite <- (app_nil_r_string "pnpm install").
  rewrite <- (app_nil_r_string ("npm install" +:+ String c "")).
  apply (special_fires (firstn 6 special_rules) (re_install_bare "install")
           "pnpm install" (skipn 7 special_rules) "n"
           ("pm install" +:+ String c "") "").
  - reflexivity.
  - intros rule [<-|[<-|[<-|[<-|[<-|[<-|[]]]]]]]; run_known;
      rewrite ?Hc; cbn; rewrite ?Hd; reflexivity.
  - run_known. rewrite Hc. cbn. reflexivity.
  - rewrite app_nil_r_string. skip_known.
    apply search_npm_blank. reflexivity.
  - vm_compute. reflexivity.
Qed.

Lemma install_more_blanks w ws c :
  PyStr.is_space w = true -> all_space ws = true ->
  PyStr.is_space c = true -> c <> newline ->
  convert ("npm install" +:+ String w (ws +:+ String c ""))
  = "pnpm add " +:+ String c "".
Proof.
  intros Hw Hws Hc Hnl.
  assert (Ascii.eqb "-" c = false) as Hd
    by (apply Ascii.eqb_neq; intros <-; discriminate Hc).
  assert (Ascii.eqb c "010" = false) as Hn by (apply Ascii.eqb_neq, Hnl).
  replace ("npm install" +:+ String w (ws +:+ String c ""))
    with (String "n" ("pm install" +:+ String w ws) +:+ String c "").
  2:{ rewrite !app_cons_string, app_assoc_string, !app_cons_string,
        !app_nil_string. reflexivity. }
  apply (special_fires [] (re_install_arg "install") "pnpm add "
           (tl special_rules) "n" ("pm install" +:+ String w ws) (String c "")).
  - reflexivity.
  - intros rule [].
  - unfold match_here, re_install_arg.
    repeat rewrite ?app_cons_string, ?app_nil_string.
    cbn. known_chars. cbn. unfold at_boundary. cbn. known_chars. cbn.
    rewrite Hw.
    apply many_space_last; try assumption.
    + intros p. reflexivity.
    + intros p. cbn. rewrite Hn, Hd. reflexivity.
  - rewrite app_assoc_string. skip_known.
    apply search_npm_blank. rewrite all_space_app. cbn [all_space].
    rewrite Hws, Hc. reflexivity.
  - unfold Re.search. skip_known.
    apply search_npm_blank. cbn [all_space]. now rewrite Hc.
Qed.

End NpmBlanks.

(** X2.  Blanks behind a bare [npm install].  One whitespace character is taken
    up by the rule for the bare command, which gives [pnpm install].  With
    two or more, the last of them not a newline, the rule for install with
    an argument matches first, up to that last character: the command
    becomes [pnpm add] followed by it. *)
Theorem npm_install_trailing_blanks :
  (forall c,
      PyStr.is_space c = true ->
      NpmToPnpm.convert ("npm install" +:+ String c "") = "pnpm install")
  /\ (forall w ws c,
        PyStr.is_space w = true -> all_space ws = true ->
        PyStr.is_space c = true -> c <> Re.newline ->
        NpmToPnpm.convert ("npm install" +:+ String w (ws +:+ String c ""))
        = "pnpm add " +:+ String c "").
Proof.
  split; [apply NpmBlanks.install_one_blank|apply NpmBlanks.install_more_blanks].
Qed.

Lemma npm_install_trailing_blanks_witness :
  NpmToPnpm.convert "npm install " = "pnpm install"
  /\ NpmToPnpm.convert "npm install   " = "pnpm add  ".
Proof.
  split.
  - exact (proj1 npm_install_trailing_blanks " "%char eq_refl).
  - exact (proj2 npm_install_trailing_blanks " "%char " " " "%char
             eq_refl eq_refl eq_refl ltac:(discriminate)).
Defined.

(** ** Further properties of the test runner *)

Module RunnerMore.
Import TestRunner.

Lemma is_test_file_languages file_path language :
  is_test_file file_path = Some language ->
  language = "python" \/ language = "javascript" \/ language = "go"
  \/ language = "rust".
Proof.
  unfold is_test_file, TEST_PATTERNS. cbn [first_language].
  repeat match goal with
  | |- context [if ?b then _ else _] => destruct b
  end; intros [= <-]; auto.
Qed.

(** Every language [is_test_file] can name has a framework. *)
Lemma detect_total w file_path language project_dir :
  is_test_file file_path = Some language ->
  exists test_command,
    detect_test_framework w (Some language) project_dir = Some test_command.
Proof.
  intros H.
  destruct (is_test_file_languages _ _ H) as [->|[->|[->| ->]]];
    unfold detect_test_framework; cbn [bool_decide decide_rel];
    repeat match goal with
    | |- context [bool_decide ?P] =>
        first [rewrite (bool_decide_eq_true_2 P) by reflexivity
              |rewrite (bool_decide_eq_false_2 P) by discriminate]
    | |- context [if ?b then _ else _] => destruct b
    | |- context [match ?m with Manifest _ => _ | Unreadable => _ end] =>
        destruct m
    end; eauto.
Qed.

Lemma existing_test_language w file_path :
  existing_test w file_path = true ->
  exists language, is_test_file file_path = Some language.
Proof.
  unfold existing_test. destruct (is_test_file file_path); [eauto|].
  rewrite andb_false_r. discriminate.
Qed.

Lemma filter_head_true {A} (P : A -> bool) l first rest :
  List.filter P l = first :: rest -> P first = true.
Proof.
  intros H. assert (In first (List.filter P l)) as Hin by (rewrite H; now left).
  now apply filter_In in Hin.
Qed.

(** The hook when a test file was touched: it runs the tests. *)
Lemma hook_runs w input_data first rest :
  tool_name input_data = Some "Edit" \/ tool_name input_data = Some "Write" ->
  PyStr.truthy (default "" (CLAUDE_FILE_PATHS w)) = true ->
  List.filter (existing_test w) (touched w) = first :: rest ->
  exists test_command cmd,
    detect_test_framework w (is_test_file first) (project_dir_of w)
      = Some test_command
    /\ scoped_command test_command (first :: rest) (project_dir_of w) = Some cmd
    /\ hook w input_data =
       run_tests w test_command (first :: rest) (project_dir_of w).
Proof.
  intros Ht Hp Hf. rewrite (RunnerFacts.hook_with_tests _ _ _ _ Ht Hp Hf).
  destruct (existing_test_language w first (filter_head_true _ _ _ _ Hf))
    as [language Hl].
  rewrite Hl.
  destruct (detect_total w first language (project_dir_of w) Hl)
    as [test_command Hd].
  rewrite Hd.
  destruct (scoped_command test_command (first :: rest) (project_dir_of w))
    as [cmd|] eqn:Hs; [eauto|].
  now apply ExitFacts.scoped_command_some in Hs.
Qed.

(** The three ways the hook stays silent, and the one way it runs. *)
Lemma hook_cases w input_data :
  hook w input_data = silent
  \/ exists first rest test_command cmd,
       (tool_name input_data = Some "Edit" \/ tool_name input_data = Some "Write")
       /\ PyStr.truthy (default "" (CLAUDE_FILE_PATHS w)) = true
       /\ List.filter (existing_test w) (touched w) = first :: rest
       /\ detect_test_framework w (is_test_file first) (project_dir_of w)
          = Some test_command
       /\ scoped_command test_command (first :: rest) (project_dir_of w)
          = Some cmd
       /\ hook w input_data =
          run_tests w test_command (first :: rest) (project_dir_of w).
Proof.
  destruct (List.filter (existing_test w) (touched w)) as [|first rest] eqn:Hf;
    [left; apply RunnerFacts.hook_no_tests, Hf|].
  destruct (PyStr.truthy (default "" (CLAUDE_FILE_PATHS w))) eqn:Hp.
  2:{ left. unfold hook. destruct (negb _); [reflexivity|].
      rewrite Hp. reflexivity. }
  destruct (bool_decide (default "" (tool_name input_data) = "Edit")
            || bool_decide (default "" (tool_name input_data) = "Write"))
    eqn:Ht.
  2:{ left. unfold hook. rewrite Ht. reflexivity. }
  right.
  assert (tool_name input_data = Some "Edit"
          \/ tool_name input_data = Some "Write") as Ht'.
  { apply orb_prop in Ht as [Ht|Ht]; apply bool_decide_eq_true_1 in Ht;
      destruct (tool_name input_data) as [name|]; try discriminate;
      simpl in Ht; subst; auto. }
  destruct (hook_runs w input_data first rest Ht' Hp Hf)
    as (test_command & cmd & Hd & Hs & Hh).
  exists first, rest, test_command, cmd. auto 10.
Qed.

Lemma startswith_app_both a b c :
  PyStr.startswith (a +:+ b) (a +:+ c) = PyStr.startswith b c.
Proof.
  induction a as [|x a IH]; [reflexivity|].
  rewrite !app_cons_string. cbn [PyStr.startswith].
  rewrite Ascii.eqb_refl, IH. reflexivity.
Qed.

Lemma scoped_command_cd test_command test_files project_dir cmd :
  scoped_command test_command test_files project_dir = Some cmd ->
  PyStr.startswith ("cd " +:+ project_dir +:+ " && ") cmd = true.
Proof.
  unfold scoped_command.
  repeat match goal with
  | |- context [if ?b then _ else _] => destruct b
  | |- context [match ?l with [] => _ | _ :: _ => _ end] => destruct l
  end; intros [= <-];
    rewrite !startswith_app_both; reflexivity.
Qed.

End RunnerMore.

Lemma scope_rule_witness :
  TestRunner.executed
    (TestRunner.run_tests (sample_world "") "go test"
       ["a_test.go"; "b_test.go"] "/proj")
  = Some "cd /proj && go test -v a_test.go b_test.go".
Proof.
  destruct (proj1 (scope_rule (sample_world "") (Some "go") "/proj" "go test"
                     ["a_test.go"; "b_test.go"] eq_refl)
              ltac:(simpl; lia))
    as [[H _]|[[_ H]|[[H _]|[H _]]]]; try discriminate H.
  exact H.
Defined.

(** X5.  The hook runs a command exactly when the tool is Edit or Write, the
    variable CLAUDE_FILE_PATHS is set and not empty, and one of the paths
    it lists is an existing test file; otherwise it ends without running or
    printing anything. *)
Theorem test_runner_runs_iff_test_touched
    (w : TestRunner.world) (input_data : TestRunner.request) :
  ((exists cmd, TestRunner.executed (TestRunner.hook w input_data) = Some cmd)
   <-> (TestRunner.tool_name input_data = Some "Edit"
        \/ TestRunner.tool_name input_data = Some "Write")
       /\ PyStr.truthy (default "" (TestRunner.CLAUDE_FILE_PATHS w)) = true
       /\ List.filter (TestRunner.existing_test w) (TestRunner.touched w) <> [])
  /\ (TestRunner.executed (TestRunner.hook w input_data) = None ->
      TestRunner.hook w input_data = TestRunner.silent).
Proof.
  split; [split|].
  - intros [cmd He].
    destruct (RunnerMore.hook_cases w input_data)
      as [Hs|(first & rest & tc & cmd' & Ht & Hp & Hf & _)].
    + rewrite Hs in He. discriminate.
    + rewrite Hf. auto.
  - intros (Ht & Hp & Hf).
    destruct (List.filter _ (TestRunner.touched w)) as [|first rest] eqn:E;
      [congruence|].
    destruct (RunnerMore.hook_runs w input_data first rest Ht Hp E)
      as (tc & cmd & _ & Hs & ->).
    exists cmd. now rewrite RunnerFacts.executed_run_tests.
  - intros He.
    destruct (RunnerMore.hook_cases w input_data)
      as [Hs|(first & rest & tc & cmd & _ & _ & _ & _ & Hs & Hh)];
      [exact Hs|].
    rewrite Hh, RunnerFacts.executed_run_tests, Hs in He. discriminate.
Qed.

Lemma test_runner_runs_iff_test_touched_witness :
  exists cmd,
    TestRunner.executed
      (TestRunner.hook (sample_world "README.md,tests/api.rs") edit) = Some cmd.
Proof.
  apply (proj1 (test_runner_runs_iff_test_touched
                  (sample_world "README.md,tests/api.rs") edit)).
  split; [now left|]. split; [reflexivity|]. vm_compute. discriminate.
Defined.

(** X6.  What the hook prints, by the kinds of line the embedding keeps
    (the summary line and the tail are left out of it).  Either nothing, or
    the line that names the framework, one of the five the script knows,
    and one line on the outcome: passed or failed by the return code, timed
    out, or the exception of the child process.  The line "Could not detect
    test framework" is never printed, since every language a test file can
    have has a framework. *)
Theorem test_runner_error_stream
    (w : TestRunner.world) (input_data : TestRunner.request) :
  TestRunner.hook w input_data = TestRunner.silent
  \/ exists test_command cmd,
       In test_command
          ["pytest"; "python -m unittest"; "npm test"; "go test"; "cargo test"]
       /\ TestRunner.executed (TestRunner.hook w input_data) = Some cmd
       /\ TestRunner.stderr (TestRunner.hook w input_data) =
          [ TestRunner.Running test_command;
            match TestRunner.subprocess_run w cmd with
            | TestRunner.Completed returncode _ =>
                if (returncode =? 0)%Z then TestRunner.AllPassed
                else TestRunner.SomeFailed
            | TestRunner.TimeoutExpired => TestRunner.TimedOut
            | TestRunner.Raised e => TestRunner.ErrorRunning e
            end ].
Proof.
  destruct (RunnerMore.hook_cases w input_data)
    as [Hs|(first & rest & tc & cmd & _ & _ & _ & Hd & Hs & Hh)];
    [now left|right].
  exists tc, cmd. split; [|split].
  - destruct (RunnerFacts.detect_cases _ _ _ _ Hd) as [->|[->|[->|[->| ->]]]];
      simpl; auto 10.
  - now rewrite Hh, RunnerFacts.executed_run_tests.
  - rewrite Hh. unfold TestRunner.run_tests. rewrite Hs.
    cbn [TestRunner.stderr].
    destruct (TestRunner.subprocess_run w cmd) as [rc out| |e];
      [destruct (rc =? 0)%Z|..]; reflexivity.
Qed.

(** X7.  Whatever the framework and the number of files, the command handed to
    the shell first changes to the project directory: the value of
    CLAUDE_PROJECT_DIR, or the working directory when it is not set. *)
Theorem tests_run_in_project_directory
    (w : TestRunner.world) (input_data : TestRunner.request) (cmd : string) :
  TestRunner.executed (TestRunner.hook w input_data) = Some cmd ->
  PyStr.startswith
    ("cd " +:+ default (TestRunner.getcwd w) (TestRunner.CLAUDE_PROJECT_DIR w)
     +:+ " && ") cmd = true.
Proof.
  intros He.
  destruct (RunnerMore.hook_cases w input_data)
    as [Hs|(first & rest & tc & cmd' & _ & _ & _ & _ & Hs & Hh)].
  - rewrite Hs in He. discriminate.
  - rewrite Hh, RunnerFacts.executed_run_tests in He.
    apply (RunnerMore.scoped_command_cd _ _ _ _ He).
Qed.

Lemma tests_run_in_project_directory_witness :
  PyStr.startswith "cd /proj && " "cd /proj && go test -v tests/api.rs" = true.
Proof.
  exact (tests_run_in_project_directory (sample_world "tests/api.rs") edit
           "cd /proj && go test -v tests/api.rs" eq_refl).
Defined.

(** X8.  Only Python's framework depends on the project: for every other
    language the answer is the same in every project, so the test script of
    package.json that the JavaScript branch looks up changes nothing; for
    Python it is pytest exactly when pytest.ini or pyproject.toml exists in
    the project directory.  A language outside the four has no framework. *)
Theorem framework_depends_on_markers_only_for_python
    (w : TestRunner.world) (project_dir : string) :
  (forall w' project_dir' language,
      language <> Some "python" ->
      TestRunner.detect_test_framework w language project_dir =
      TestRunner.detect_test_framework w' language project_dir')
  /\ TestRunner.detect_test_framework w (Some "javascript") project_dir
     = Some "npm test"
  /\ TestRunner.detect_test_framework w (Some "python") project_dir =
     Some (if TestRunner.path_exists w
                (TestRunner.path_join project_dir "pytest.ini")
              || TestRunner.path_exists w
                   (TestRunner.path_join project_dir "pyproject.toml")
           then "pytest" else "python -m unittest")
  /\ (forall language,
        ~ In language [Some "python"; Some "javascript"; Some "go"; Some "rust"] ->
        TestRunner.detect_test_framework w language project_dir = None).
Proof.
  split; [|split; [|split]].
  - intros w' project_dir' language Hl. unfold TestRunner.detect_test_framework.
    rewrite (bool_decide_eq_false_2 _ Hl).
    repeat case_bool_decide; try reflexivity.
    repeat match goal with
    | |- context [if ?b then _ else _] => destruct b
    | |- context [match ?m with TestRunner.Manifest _ => _
                  | TestRunner.Unreadable => _ end] => destruct m
    end; reflexivity.
  - unfold TestRunner.detect_test_framework.
    rewrite bool_decide_eq_false_2 by discriminate.
    rewrite bool_decide_eq_true_2 by reflexivity.
    destruct (TestRunner.path_exists _ _); [|reflexivity].
    destruct (TestRunner.package_json w) as [|[|]]; reflexivity.
  - unfold TestRunner.detect_test_framework.
    rewrite bool_decide_eq_true_2 by reflexivity.
    destruct (_ || _); reflexivity.
  - intros language Hn. unfold TestRunner.detect_test_framework.
    repeat case_bool_decide; subst; try reflexivity;
      exfalso; apply Hn; simpl; auto.
Qed.

Lemma framework_depends_on_markers_only_for_python_witness :
  TestRunner.detect_test_framework (sample_world "") (Some "javascript") "/proj"
  = TestRunner.detect_test_framework (pytest_world "") (Some "javascript") "/x".
Proof.
  exact (proj1 (framework_depends_on_markers_only_for_python
                  (sample_world "") "/proj")
           (pytest_world "") "/x" (Some "javascript") ltac:(discriminate)).
Defined.

Module PatternFacts.
Import TestRunner Re.

Lemma endswith_app q x : endswith x (q +:+ x) = true.
Proof.
  induction q as [|c q IH].
  - rewrite app_nil_string.
    destruct x; cbn [endswith]; now rewrite String.eqb_refl.
  - rewrite app_cons_string. cbn [endswith]. rewrite IH. apply orb_true_r.
Qed.

Lemma endswith_split x s : endswith x s = true -> exists q, s = q +:+ x.
Proof.
  induction s as [|c s IH]; cbn [endswith]; intros H.
  - rewrite orb_false_r in H. apply String.eqb_eq in H as ->. now exists "".
  - apply orb_prop in H as [H|H].
    + apply String.eqb_eq in H as ->. now exists "".
    + destruct (IH H) as [q ->]. now exists (String c q).
Qed.

(** Two endings of one text: one of them ends the other. *)
Lemma app_endings p : forall p' a b,
  p +:+ a = p' +:+ b -> endswith a b = true \/ endswith b a = true.
Proof.
  induction p as [|c p IH]; intros p' a b H.
  - rewrite app_nil_string in H. subst a. right. apply endswith_app.
  - destruct p' as [|c' p'].
    + rewrite app_nil_string in H. subst b. left. apply endswith_app.
    + rewrite !app_cons_string in H. injection H as _ H. apply (IH _ _ _ H).
Qed.

Lemma endswith_total a b s :
  endswith a s = true -> endswith b s = true ->
  endswith a b = true \/ endswith b a = true.
Proof.
  intros Ha Hb. apply endswith_split in Ha as [p Ha], Hb as [p' Hb].
  apply (app_endings p p'). congruence.
Qed.

Lemma contains_behind a q t :
  PyStr.startswith a t = true -> PyStr.contains a (q +:+ t) = true.
Proof.
  intros H. induction q as [|c q IH].
  - rewrite app_nil_string. destruct t; cbn [PyStr.contains]; now rewrite H.
  - rewrite app_cons_string, GrepFacts.contains_cons, IH. apply orb_true_r.
Qed.

(** *** What a match says about the subject *)

Lemma stops_with_ends x s : stops_with x s -> ends_line x s = true.
Proof.
  intros (q & rest & -> & He). unfold ends_line.
  destruct rest as [|c [|]]; try discriminate.
  - rewrite NpmBlanks.app_nil_r_string, endswith_app. reflexivity.
  - apply Ascii.eqb_eq in He as ->. rewrite endswith_app. apply orb_true_r.
Qed.

Lemma stops_with_cons x c s : stops_with x s -> stops_with x (String c s).
Proof. intros (q & rest & -> & He). exists (String c q), rest. auto. Qed.

Lemma stops_with_app x a s : stops_with x s -> stops_with x (a +:+ s).
Proof.
  intros H. induction a as [|c a IH]; [exact H|].
  rewrite app_cons_string. apply stops_with_cons, IH.
Qed.

Lemma stops_with_longer y x s : stops_with (y +:+ x) s -> stops_with x s.
Proof.
  intros (q & rest & -> & He). exists (q +:+ y), rest.
  rewrite !NpmBlanks.app_assoc_string. auto.
Qed.

Lemma run_lit l : forall prev s next,
  run (lit l) prev s next =
  if PyStr.startswith l s
  then next (after prev l) (PyStr.drop (String.length l) s)
  else None.
Proof.
  induction l as [|a l IH]; intros prev s next; [reflexivity|].
  cbn [lit run]. destruct s as [|b s]; [reflexivity|].
  cbn [cls_ok PyStr.startswith String.length PyStr.drop after].
  destruct (Ascii.eqb_spec a b) as [->|]; [|reflexivity].
  cbn [andb]. apply IH.
Qed.

(** A literal, then [$], then nothing more. *)
Lemma run_lit_eol l prev s x :
  run (Seq (lit l) (Seq Eol Eps)) prev s (fun _ t => Some t) = Some x ->
  exists rest, s = l +:+ rest /\ at_eol rest = true.
Proof.
  cbn [run]. rewrite run_lit.
  destruct (PyStr.startswith l s) eqn:E; [|discriminate].
  destruct (at_eol _) eqn:He; [|discriminate]. intros _.
  exists (PyStr.drop (String.length l) s). split; [|exact He].
  apply startswith_split, E.
Qed.

(** Whatever [k*] takes, what follows matches at a tail of the subject. *)
Lemma many_tail (P : string -> Prop) k next x :
  (forall c s, P s -> P (String c s)) ->
  (forall prev s, next prev s = Some x -> P s) ->
  forall s prev, many k prev s next = Some x -> P s.
Proof.
  intros Hcons Hnext. induction s as [|c s IH]; intros prev; cbn [many].
  - apply Hnext.
  - destruct (cls_ok k c); [|apply Hnext].
    destruct (many k (Some c) s next) eqn:E; [|apply Hnext].
    intros [= ->]. apply Hcons, (IH _ E).
Qed.

(** [.*x$] *)
Lemma match_any_lit l prev s x :
  match_here (seq [Many Dot; lit l; Eol]) prev s = Some x -> stops_with l s.
Proof.
  unfold match_here. cbn [seq run].
  apply many_tail; [apply stops_with_cons|].
  intros p t H. apply run_lit_eol in H as (rest & -> & He).
  exists "", rest. auto.
Qed.

(** [a.*x$] *)
Lemma match_lit_any_lit a l prev s x :
  match_here (seq [lit a; Many Dot; lit l; Eol]) prev s = Some x ->
  PyStr.startswith a s = true /\ stops_with l s.
Proof.
  unfold match_here. cbn [seq run]. rewrite run_lit.
  destruct (PyStr.startswith a s) eqn:E; [|discriminate].
  intros H. split; [reflexivity|].
  rewrite (startswith_split _ _ E). apply stops_with_app. revert H.
  apply many_tail; [apply stops_with_cons|].
  intros p t H. apply run_lit_eol in H as (rest & -> & He).
  exists "", rest. auto.
Qed.

(** [.*a(js|ts|jsx|tsx)$] *)
Lemma match_any_js a prev s x :
  match_here (seq [Many Dot; lit a; js_ext; Eol]) prev s = Some x ->
  Exists (fun ext => stops_with (a +:+ ext) s) ["js"; "ts"; "jsx"; "tsx"].
Proof.
  unfold match_here. cbn [seq run].
  apply (many_tail (fun s => Exists (fun ext => stops_with (a +:+ ext) s)
                                    ["js"; "ts"; "jsx"; "tsx"])).
  - intros c t H. eapply Exists_impl; [exact H|].
    intros ext. apply stops_with_cons.
  - intros p t. rewrite run_lit.
    destruct (PyStr.startswith a t) eqn:E; [|discriminate].
    pose proof (startswith_split _ _ E) as Ht.
    remember (PyStr.drop (String.length a) t) as t' eqn:Heq. clear Heq E.
    subst t. generalize (after p a). clear. intros p.
    unfold js_ext. cbn [alt run].
    repeat match goal with
    | |- context [run (lit ?l) ?p ?t ?next] =>
        destruct (run (lit l) p t next) eqn:?
    end; intros [= ->];
      match goal with
      | H : run (lit ?l) _ _ _ = Some _ |- _ =>
          apply (run_lit_eol l) in H as (rest & -> & He);
          apply Exists_exists; exists l;
          split; [apply list_elem_of_In; simpl; auto|];
          exists "", rest; rewrite NpmBlanks.app_assoc_string; auto
      end.
Qed.

Lemma search_from_match r s :
  forall prev, search_from r prev s = true ->
  exists a t p x, s = a +:+ t /\ match_here r p t = Some x.
Proof.
  induction s as [|c s IH]; intros prev; cbn [search_from].
  - destruct (match_here r prev "") eqn:E; [|discriminate].
    intros _. exists "", "", prev. eauto.
  - destruct (match_here r prev (String c s)) eqn:E.
    + intros _. exists "", (String c s), prev. eauto.
    + intros H. destruct (IH _ H) as (a & t & p & x & -> & Hm).
      exists (String c a), t, p, x. auto.
Qed.

(** A match found by the search holds at a tail of the subject. *)
Lemma search_tail (P : string -> Prop) r s :
  (forall a t, P t -> P (a +:+ t)) ->
  (forall p t x, match_here r p t = Some x -> P t) ->
  Re.search r s = true -> P s.
Proof.
  intros Happ Hm H. apply search_from_match in H as (a & t & p & x & -> & H).
  apply Happ, (Hm _ _ _ H).
Qed.

(** The search finds a match that stands behind any text. *)
Lemma search_from_behind r a :
  forall prev t x,
    match_here r (after prev a) t = Some x ->
    search_from r prev (a +:+ t) = true.
Proof.
  induction a as [|c a IH]; intros prev t x H.
  - rewrite app_nil_string, NpmMappings.search_from_unfold.
    cbn [after] in H. now rewrite H.
  - rewrite app_cons_string. cbn [search_from].
    destruct (match_here r prev _); [reflexivity|]. apply (IH _ _ _ H).
Qed.

(** [.*] runs over a line and stops where what follows matches. *)
Lemma many_dot_reaches b next :
  forall prev t,
    one_line b = true ->
    (exists x, many Dot (after prev b) t next = Some x) ->
    exists x, many Dot prev (b +:+ t) next = Some x.
Proof.
  induction b as [|c b IH]; intros prev t Hb H; [exact H|].
  cbn [one_line] in Hb. apply andb_prop in Hb as [Hc Hb].
  rewrite app_cons_string. cbn [many cls_ok]. rewrite Hc.
  destruct (IH (Some c) t Hb H) as [x ->]. eauto.
Qed.

(** *** The patterns, language by language *)

Lemma contains_start a t :
  PyStr.startswith a t = true -> PyStr.contains a t = true.
Proof. intros H. destruct t; cbn [PyStr.contains]; now rewrite H. Qed.

Lemma contains_app_r a q t :
  PyStr.contains a t = true -> PyStr.contains a (q +:+ t) = true.
Proof.
  intros H. induction q as [|c q IH]; [exact H|].
  rewrite app_cons_string, GrepFacts.contains_cons, IH. apply orb_true_r.
Qed.

Lemma python_shape file_path :
  matches_language file_path python_entry = true ->
  (PyStr.contains "test_" file_path = true /\ stops_with ".py" file_path)
  \/ stops_with "_test.py" file_path.
Proof.
  unfold matches_language. cbn [python_entry nth TEST_PATTERNS snd existsb].
  rewrite orb_false_r. intros H. apply orb_prop in H as [H|H]; [left|right];
    revert H.
  - apply (search_tail (fun s => PyStr.contains "test_" s = true
                                 /\ stops_with ".py" s)).
    + intros a t [Hc He]. auto using contains_app_r, stops_with_app.
    + intros p t x Hm. apply match_lit_any_lit in Hm as [Hs He].
      auto using contains_start.
  - apply search_tail; [intros a t; apply stops_with_app|].
    intros p t x Hm. apply (match_any_lit "_test.py" _ _ _ Hm).
Qed.

Lemma javascript_shape file_path :
  matches_language file_path javascript_entry = true ->
  Exists (fun ending => stops_with ending file_path) javascript_endings.
Proof.
  unfold matches_language. cbn [javascript_entry nth TEST_PATTERNS snd existsb].
  rewrite orb_false_r. intros H.
  assert (Exists (fun ext => stops_with (".test." +:+ ext) file_path)
                 ["js"; "ts"; "jsx"; "tsx"]
          \/ Exists (fun ext => stops_with (".spec." +:+ ext) file_path)
                    ["js"; "ts"; "jsx"; "tsx"]) as Hs.
  { apply orb_prop in H as [H|H]; [left|right]; revert H;
      [apply (search_tail
                (fun s => Exists (fun ext => stops_with (".test." +:+ ext) s)
                                 ["js"; "ts"; "jsx"; "tsx"]))
      |apply (search_tail
                (fun s => Exists (fun ext => stops_with (".spec." +:+ ext) s)
                                 ["js"; "ts"; "jsx"; "tsx"]))];
      try (intros a t Ht; eapply Exists_impl; [exact Ht|];
           intros ext; apply stops_with_app);
      intros p t x Hm; apply (match_any_js _ _ _ _ Hm). }
  unfold javascript_endings. rewrite !Exists_cons, !Exists_nil in *.
  change (".test." +:+ "js") with ".test.js" in Hs.
  change (".test." +:+ "ts") with ".test.ts" in Hs.
  change (".test." +:+ "jsx") with ".test.jsx" in Hs.
  change (".test." +:+ "tsx") with ".test.tsx" in Hs.
  change (".spec." +:+ "js") with ".spec.js" in Hs.
  change (".spec." +:+ "ts") with ".spec.ts" in Hs.
  change (".spec." +:+ "jsx") with ".spec.jsx" in Hs.
  change (".spec." +:+ "tsx") with ".spec.tsx" in Hs.
  tauto.
Qed.

Lemma go_shape file_path :
  matches_language file_path go_entry = true ->
  stops_with "_test.go" file_path.
Proof.
  unfold matches_language. cbn [go_entry nth TEST_PATTERNS snd existsb].
  rewrite orb_false_r.
  apply search_tail; [intros a t; apply stops_with_app|].
  intros p t x Hm. apply (match_any_lit "_test.go" _ _ _ Hm).
Qed.

Lemma rust_shape file_path :
  matches_language file_path rust_entry = true ->
  PyStr.contains "tests/" file_path = true /\ stops_with ".rs" file_path.
Proof.
  unfold matches_language. cbn [rust_entry nth TEST_PATTERNS snd existsb].
  rewrite orb_false_r.
  apply (search_tail (fun s => PyStr.contains "tests/" s = true
                               /\ stops_with ".rs" s)).
  - intros a t [Hc He]. auto using contains_app_r, stops_with_app.
  - intros p t x Hm. apply match_lit_any_lit in Hm as [Hs He].
    auto using contains_start.
Qed.

(** Two written-out endings that do not end one another cannot both end a
    path. *)
Lemma ends_line_apart x y s :
  ends_line x s = true -> ends_line y s = true ->
  let x' := x +:+ String newline "" in
  let y' := y +:+ String newline "" in
  existsb (fun ab => endswith (fst ab) (snd ab) || endswith (snd ab) (fst ab))
          [(x, y); (x, y'); (x', y); (x', y')] = true.
Proof.
  intros Hx Hy x' y'. unfold ends_line in Hx, Hy. apply existsb_exists.
  apply orb_prop in Hx as [Hx|Hx], Hy as [Hy|Hy];
    pose proof (endswith_total _ _ _ Hx Hy) as H;
    apply orb_true_iff in H;
    eexists (_, _); (split; [|exact H]); simpl; auto.
Qed.

Lemma stops_apart x y s :
  stops_with x s -> stops_with y s ->
  let x' := x +:+ String newline "" in
  let y' := y +:+ String newline "" in
  existsb (fun ab => endswith (fst ab) (snd ab) || endswith (snd ab) (fst ab))
          [(x, y); (x, y'); (x', y); (x', y')] = true.
Proof. intros Hx Hy. apply (ends_line_apart x y s); now apply stops_with_ends. Qed.

Ltac apart :=
  match goal with
  | H1 : stops_with ?x ?s, H2 : stops_with ?y ?s |- _ =>
      let H := fresh in
      pose proof (stops_apart _ _ _ H1 H2) as H; vm_compute in H;
      discriminate H
  end.

Lemma python_stops file_path :
  matches_language file_path python_entry = true -> stops_with ".py" file_path.
Proof.
  intros H. apply python_shape in H as [[_ H]|H]; [exact H|].
  apply (stops_with_longer "_test"), H.
Qed.

(** The endings tell the languages apart: no path matches the patterns of
    two of them. *)
Lemma one_language file_path :
  (matches_language file_path python_entry = true ->
   matches_language file_path javascript_entry = false
   /\ matches_language file_path go_entry = false
   /\ matches_language file_path rust_entry = false)
  /\ (matches_language file_path javascript_entry = true ->
      matches_language file_path go_entry = false
      /\ matches_language file_path rust_entry = false)
  /\ (matches_language file_path go_entry = true ->
      matches_language file_path rust_entry = false).
Proof.
  split; [|split].
  - intros Hp. apply python_stops in Hp.
    split; [|split]; apply not_true_is_false; intros H.
    + apply javascript_shape in H. unfold javascript_endings in H.
      rewrite !Exists_cons, !Exists_nil in H.
      decompose [or] H; try contradiction; apart.
    + apply go_shape in H. apart.
    + apply rust_shape in H as [_ H]. apart.
  - intros Hj. apply javascript_shape in Hj. unfold javascript_endings in Hj.
    rewrite !Exists_cons, Exists_nil in Hj.
    split; apply not_true_is_false; intros H.
    + apply go_shape in H. decompose [or] Hj; try contradiction; apart.
    + apply rust_shape in H as [_ H].
      decompose [or] Hj; try contradiction; apart.
  - intros Hg. apply go_shape in Hg. apply not_true_is_false. intros H.
    apply rust_shape in H as [_ H]. apart.
Qed.

Lemma is_test_file_entries file_path :
  is_test_file file_path =
  if matches_language file_path python_entry then Some "python"
  else if matches_language file_path javascript_entry then Some "javascript"
  else if matches_language file_path go_entry then Some "go"
  else if matches_language file_path rust_entry then Some "rust"
  else None.
Proof.
  unfold is_test_file, TEST_PATTERNS. cbn [first_language].
  rewrite !RunnerFacts.any_pattern_existsb. reflexivity.
Qed.

(** The language of a test file is the one whose patterns match it,
    wherever that language stands in the table. *)
Lemma is_test_file_matches file_path entry :
  In entry TEST_PATTERNS ->
  matches_language file_path entry = true ->
  is_test_file file_path = Some (fst entry).
Proof.
  destruct (one_language file_path) as (Hp & Hj & Hg).
  rewrite is_test_file_entries.
  intros [<-|[<-|[<-|[<-|[]]]]] H.
  - change (matches_language file_path python_entry = true) in H.
    now rewrite H.
  - change (matches_language file_path javascript_entry = true) in H.
    destruct (matches_language file_path python_entry).
    + destruct (Hp eq_refl) as [E _]. congruence.
    + now rewrite H.
  - change (matches_language file_path go_entry = true) in H.
    destruct (matches_language file_path python_entry).
    { destruct (Hp eq_refl) as (_ & E & _). congruence. }
    destruct (matches_language file_path javascript_entry).
    { destruct (Hj eq_refl) as [E _]. congruence. }
    now rewrite H.
  - change (matches_language file_path rust_entry = true) in H.
    destruct (matches_language file_path python_entry).
    { destruct (Hp eq_refl) as (_ & _ & E). congruence. }
    destruct (matches_language file_path javascript_entry).
    { destruct (Hj eq_refl) as [_ E]. congruence. }
    destruct (matches_language file_path go_entry).
    { specialize (Hg eq_refl). congruence. }
    now rewrite H.
Qed.

(** *** Names the patterns recognise *)

Lemma drop_app a t : PyStr.drop (String.length a) (a +:+ t) = t.
Proof.
  induction a as [|c a IH]; [reflexivity|].
  rewrite app_cons_string. exact IH.
Qed.

(** A match of a written-out ending, found behind any text. *)
Ltac found_behind q t :=
  unfold Re.search; eapply (search_from_behind _ q None t);
  generalize (after None q); intro; vm_compute; reflexivity.

(** [a.*x$] matches a path in which [a] stands, then a line, then [x]. *)
Lemma lit_any_lit_matches a x q b :
  one_line b = true ->
  (forall prev, exists y,
     many Dot prev x (fun p t => run (seq [lit x; Eol]) p t (fun _ t => Some t))
     = Some y) ->
  Re.search (seq [lit a; Many Dot; lit x; Eol]) (q +:+ a +:+ b +:+ x) = true.
Proof.
  intros Hb Hx. unfold Re.search.
  assert (exists y, match_here (seq [lit a; Many Dot; lit x; Eol])
                      (after None q) (a +:+ b +:+ x) = Some y) as [y Hy].
  2:{ apply (search_from_behind _ q None _ y Hy). }
  unfold match_here. cbn [seq run].
  rewrite run_lit, GrepFacts.startswith_app, drop_app.
  apply many_dot_reaches; [exact Hb|]. apply Hx.
Qed.

Lemma matches_entry file_path entry pattern :
  In pattern (snd entry) -> Re.search pattern file_path = true ->
  matches_language file_path entry = true.
Proof.
  intros Hin Hs. unfold matches_language. apply existsb_exists. eauto.
Qed.

End PatternFacts.

(** X9.  The endings tell the languages apart.  A Python test file ends with
    [.py] and holds the text [test_], or ends with [_test.py]; a JavaScript
    one ends with [.test.] or [.spec.] and one of js, ts, jsx, tsx; a Go one
    ends with [_test.go]; a Rust one ends with [.rs] and holds the text
    [tests/] (each time up to a newline that ends the path).  So no path
    matches the patterns of two languages, and a file's language is the one
    whose patterns match it, wherever that language stands in the table. *)
Theorem test_language_by_ending (file_path : string) :
  (forall entry,
      In entry TestRunner.TEST_PATTERNS ->
      TestRunner.matches_language file_path entry = true ->
      TestRunner.is_test_file file_path = Some (fst entry))
  /\ length (List.filter (TestRunner.matches_language file_path)
                         TestRunner.TEST_PATTERNS) <= 1
  /\ (TestRunner.is_test_file file_path = Some "python" ->
      (PyStr.contains "test_" file_path = true
       /\ ends_line ".py" file_path = true)
      \/ ends_line "_test.py" file_path = true)
  /\ (TestRunner.is_test_file file_path = Some "javascript" ->
      existsb (fun ending => ends_line ending file_path) javascript_endings
      = true)
  /\ (TestRunner.is_test_file file_path = Some "go" ->
      ends_line "_test.go" file_path = true)
  /\ (TestRunner.is_test_file file_path = Some "rust" ->
      PyStr.contains "tests/" file_path = true
      /\ ends_line ".rs" file_path = true).
Proof.
  destruct (PatternFacts.one_language file_path) as (Hp & Hj & Hg).
  split; [apply PatternFacts.is_test_file_matches|].
  split.
  { unfold TestRunner.TEST_PATTERNS. cbn [List.filter].
    fold python_entry javascript_entry
         go_entry rust_entry.
    change (TestRunner.matches_language file_path ("python", _))
      with (TestRunner.matches_language file_path python_entry).
    change (TestRunner.matches_language file_path ("javascript", _))
      with (TestRunner.matches_language file_path javascript_entry).
    change (TestRunner.matches_language file_path ("go", _))
      with (TestRunner.matches_language file_path go_entry).
    change (TestRunner.matches_language file_path ("rust", _))
      with (TestRunner.matches_language file_path rust_entry).
    destruct (TestRunner.matches_language file_path python_entry).
    { destruct (Hp eq_refl) as (-> & -> & ->). simpl. lia. }
    destruct (TestRunner.matches_language file_path
                javascript_entry).
    { destruct (Hj eq_refl) as (-> & ->). simpl. lia. }
    destruct (TestRunner.matches_language file_path go_entry).
    { rewrite (Hg eq_refl). simpl. lia. }
    destruct (TestRunner.matches_language file_path rust_entry);
      simpl; lia. }
  rewrite PatternFacts.is_test_file_entries.
  split; [|split; [|split]]; intros H.
  - destruct (TestRunner.matches_language file_path python_entry)
      eqn:E.
    2:{ repeat match type of H with
        | (if ?b then _ else _) = _ => destruct b
        end; discriminate H. }
    apply PatternFacts.python_shape in E as [[Hc He]|He]; [left|right];
      auto using PatternFacts.stops_with_ends.
  - destruct (TestRunner.matches_language file_path python_entry);
      [discriminate H|].
    destruct (TestRunner.matches_language file_path
                javascript_entry) eqn:E.
    2:{ repeat match type of H with
        | (if ?b then _ else _) = _ => destruct b
        end; discriminate H. }
    apply PatternFacts.javascript_shape, Exists_exists in E
      as (ending & Hin & He).
    apply existsb_exists. exists ending.
    split; [apply list_elem_of_In, Hin|apply PatternFacts.stops_with_ends, He].
  - destruct (TestRunner.matches_language file_path python_entry);
      [discriminate H|].
    destruct (TestRunner.matches_language file_path
                javascript_entry); [discriminate H|].
    destruct (TestRunner.matches_language file_path go_entry)
      eqn:E.
    2:{ destruct (TestRunner.matches_language file_path
                    rust_entry); discriminate H. }
    apply PatternFacts.stops_with_ends, PatternFacts.go_shape, E.
  - destruct (TestRunner.matches_language file_path python_entry);
      [discriminate H|].
    destruct (TestRunner.matches_language file_path
                javascript_entry); [discriminate H|].
    destruct (TestRunner.matches_language file_path go_entry);
      [discriminate H|].
    destruct (TestRunner.matches_language file_path rust_entry)
      eqn:E; [|discriminate H].
    apply PatternFacts.rust_shape in E as [Hc He].
    auto using PatternFacts.stops_with_ends.
Qed.

Lemma test_language_by_ending_witness :
  ends_line "_test.go" "pkg/store_test.go" = true.
Proof.
  exact (proj1 (proj2 (proj2 (proj2 (proj2
           (test_language_by_ending "pkg/store_test.go"))))) eq_refl).
Defined.

(** X10.  Names the patterns recognise, whatever stands before them: a path that
    ends with [_test.py], or that holds [test_] anywhere and then ends its
    line with [.py], is a Python test file, so [src/contest_utils.py] is
    one; a path that ends with [.test.] or [.spec.] and js, ts, jsx or tsx
    is a JavaScript one; a path that ends with [_test.go] is a Go one; a
    path that holds [tests/] anywhere and then ends its line with [.rs] is
    a Rust one. *)
Theorem test_file_names_recognised (before : string) :
  TestRunner.is_test_file (before +:+ "_test.py") = Some "python"
  /\ (forall middle,
        one_line middle = true ->
        TestRunner.is_test_file (before +:+ "test_" +:+ middle +:+ ".py")
        = Some "python")
  /\ Forall (fun ending =>
               TestRunner.is_test_file (before +:+ ending) = Some "javascript")
            javascript_endings
  /\ TestRunner.is_test_file (before +:+ "_test.go") = Some "go"
  /\ (forall middle,
        one_line middle = true ->
        TestRunner.is_test_file (before +:+ "tests/" +:+ middle +:+ ".rs")
        = Some "rust").
Proof.
  split; [|split; [|split; [|split]]].
  - apply (PatternFacts.is_test_file_matches _ python_entry);
      [now left|].
    eapply PatternFacts.matches_entry; [right; now left|].
    PatternFacts.found_behind before "_test.py".
  - intros middle Hm.
    apply (PatternFacts.is_test_file_matches _ python_entry);
      [now left|].
    eapply PatternFacts.matches_entry; [now left|].
    apply PatternFacts.lit_any_lit_matches; [exact Hm|].
    intros prev. eexists. vm_compute. reflexivity.
  - unfold javascript_endings.
    repeat apply List.Forall_cons; [..|apply List.Forall_nil];
      (apply (PatternFacts.is_test_file_matches
                _ javascript_entry);
       [right; now left|]).
    1-4: eapply PatternFacts.matches_entry; [now left|].
    5-8: eapply PatternFacts.matches_entry; [right; now left|].
    + PatternFacts.found_behind before ".test.js".
    + PatternFacts.found_behind before ".test.ts".
    + PatternFacts.found_behind before ".test.jsx".
    + PatternFacts.found_behind before ".test.tsx".
    + PatternFacts.found_behind before ".spec.js".
    + PatternFacts.found_behind before ".spec.ts".
    + PatternFacts.found_behind before ".spec.jsx".
    + PatternFacts.found_behind before ".spec.tsx".
  - apply (PatternFacts.is_test_file_matches _ go_entry);
      [right; right; now left|].
    eapply PatternFacts.matches_entry; [now left|].
    PatternFacts.found_behind before "_test.go".
  - intros middle Hm.
    apply (PatternFacts.is_test_file_matches _ rust_entry);
      [right; right; right; now left|].
    eapply PatternFacts.matches_entry; [now left|].
    apply PatternFacts.lit_any_lit_matches; [exact Hm|].
    intros prev. eexists. vm_compute. reflexivity.
Qed.

Lemma test_file_names_recognised_witness :
  TestRunner.is_test_file "src/contest_utils.py" = Some "python"
  /\ TestRunner.is_test_file "contests/round1.rs" = Some "rust".
Proof.
  split.
  - exact (proj1 (proj2 (test_file_names_recognised "src/con"))
             "utils" eq_refl).
  - exact (proj2 (proj2 (proj2 (proj2 (test_file_names_recognised "con"))))
             "round1" eq_refl).
Defined.

Module SplitFacts.

Lemma rev_app_app a : forall b c,
  String.rev_app (String.rev_app a b) c = String.rev_app b (a +:+ c).
Proof.
  induction a as [|x a IH]; intros b c; [reflexivity|].
  cbn [String.rev_app]. rewrite IH. reflexivity.
Qed.

Lemma rev_involutive a : String.rev (String.rev a) = a.
Proof.
  unfold String.rev. rewrite rev_app_app. cbn [String.rev_app].
  apply NpmBlanks.app_nil_r_string.
Qed.

Lemma rev_app_append a : forall b c,
  String.rev_app (a +:+ b) c = String.rev_app b (String.rev_app a c).
Proof.
  induction a as [|x a IH]; intros b c; [reflexivity|].
  rewrite app_cons_string. cbn [String.rev_app]. apply IH.
Qed.

Lemma has_char_rev_app c a : forall b,
  has_char c (String.rev_app a b) = has_char c a || has_char c b.
Proof.
  induction a as [|x a IH]; intros b; [reflexivity|].
  cbn [String.rev_app has_char]. rewrite IH. cbn [has_char].
  destruct (Ascii.eqb x c), (has_char c a), (has_char c b); reflexivity.
Qed.

Lemma has_char_rev c a : has_char c (String.rev a) = has_char c a.
Proof. unfold String.rev. rewrite has_char_rev_app. apply orb_false_r. Qed.

Lemma contains_char c s :
  PyStr.contains (String c "") s = has_char c s.
Proof.
  induction s as [|a s IH]; [reflexivity|].
  rewrite GrepFacts.contains_cons, IH. cbn [PyStr.startswith has_char].
  rewrite andb_true_r, Ascii.eqb_sym. reflexivity.
Qed.

Lemma has_char_lstrip c s :
  has_char c s = false -> has_char c (PyStr.lstrip s) = false.
Proof.
  induction s as [|a s IH]; [reflexivity|]. cbn [PyStr.lstrip].
  destruct (PyStr.is_space a); [|auto].
  cbn [has_char]. intros H. apply orb_false_elim in H as [_ H]. auto.
Qed.

Lemma has_char_strip c s :
  has_char c s = false -> has_char c (PyStr.strip s) = false.
Proof.
  intros H. unfold PyStr.strip, PyStr.rstrip.
  rewrite has_char_rev. apply has_char_lstrip.
  rewrite has_char_rev. apply has_char_lstrip, H.
Qed.

(** *** [strip] *)

Lemma lstrip_idem s : PyStr.lstrip (PyStr.lstrip s) = PyStr.lstrip s.
Proof.
  induction s as [|a s IH]; [reflexivity|]. cbn [PyStr.lstrip].
  destruct (PyStr.is_space a) eqn:E; [exact IH|].
  cbn [PyStr.lstrip]. now rewrite E.
Qed.

Lemma rstrip_idem s : PyStr.rstrip (PyStr.rstrip s) = PyStr.rstrip s.
Proof. unfold PyStr.rstrip. now rewrite rev_involutive, lstrip_idem. Qed.

(** Whitespace at the left end goes; what ends the text stays. *)
Lemma lstrip_keeps_last x c :
  PyStr.is_space c = false ->
  exists y, PyStr.lstrip (x +:+ String c "") = y +:+ String c "".
Proof.
  intros Hc. induction x as [|d x IH].
  - exists "". rewrite !app_nil_string. cbn [PyStr.lstrip]. now rewrite Hc.
  - rewrite app_cons_string. cbn [PyStr.lstrip].
    destruct (PyStr.is_space d); [exact IH|].
    exists (String d x). reflexivity.
Qed.

Lemma rev_app_rev s : forall b,
  String.rev_app s b = String.rev s +:+ b.
Proof.
  unfold String.rev. induction s as [|d s IH]; intros b; [reflexivity|].
  cbn [String.rev_app]. rewrite (IH (String d b)), (IH (String d "")).
  rewrite NpmBlanks.app_assoc_string. reflexivity.
Qed.

Lemma rev_cons c s : String.rev (String c s) = String.rev s +:+ String c "".
Proof. unfold String.rev at 1. cbn [String.rev_app]. apply rev_app_rev. Qed.

Lemma rev_snoc s c : String.rev (s +:+ String c "") = String c (String.rev s).
Proof. unfold String.rev. rewrite rev_app_append. reflexivity. Qed.

(** A text that starts with a character which is not whitespace still
    starts with it after [rstrip]. *)
Lemma rstrip_keeps_first c s :
  PyStr.is_space c = false ->
  exists y, PyStr.rstrip (String c s) = String c y.
Proof.
  intros Hc. unfold PyStr.rstrip. rewrite rev_cons.
  destruct (lstrip_keeps_last (String.rev s) c Hc) as [y ->].
  rewrite rev_snoc. eauto.
Qed.

Lemma lstrip_head s :
  PyStr.lstrip s = ""
  \/ exists c y, PyStr.lstrip s = String c y /\ PyStr.is_space c = false.
Proof.
  induction s as [|a s IH]; [now left|]. cbn [PyStr.lstrip].
  destruct (PyStr.is_space a) eqn:E; [exact IH|]. right. eauto.
Qed.

Lemma strip_idem s : PyStr.strip (PyStr.strip s) = PyStr.strip s.
Proof.
  unfold PyStr.strip.
  destruct (lstrip_head s) as [->|(c & y & -> & Hc)]; [reflexivity|].
  destruct (rstrip_keeps_first c y Hc) as [z Hz].
  rewrite Hz at 1. cbn [PyStr.lstrip]. rewrite Hc, <- Hz. apply rstrip_idem.
Qed.

(** *** [split] *)

Lemma split_from_pieces sep s :
  forall cur, has_char sep cur = false ->
  Forall (fun p => has_char sep p = false) (PyStr.split_from sep s cur).
Proof.
  induction s as [|c s IH]; intros cur Hcur; cbn [PyStr.split_from].
  - constructor; [now rewrite has_char_rev|constructor].
  - destruct (Ascii.eqb c sep) eqn:E.
    + constructor; [now rewrite has_char_rev|]. now apply IH.
    + apply IH. cbn [has_char]. now rewrite E.
Qed.

(** A piece without the separator, read up to the separator or the end. *)
Lemma split_from_piece sep a :
  forall t cur, has_char sep a = false ->
  PyStr.split_from sep (a +:+ t) cur =
  PyStr.split_from sep t (String.rev_app a cur).
Proof.
  induction a as [|c a IH]; intros t cur Ha; [reflexivity|].
  cbn [has_char] in Ha. apply orb_false_elim in Ha as [Hc Ha].
  rewrite app_cons_string. cbn [PyStr.split_from String.rev_app].
  rewrite Hc. now apply IH.
Qed.

Lemma split_piece_end sep a :
  has_char sep a = false -> PyStr.split sep a = [a].
Proof.
  intros Ha. unfold PyStr.split.
  rewrite <- (NpmBlanks.app_nil_r_string a) at 1.
  rewrite (split_from_piece _ _ _ _ Ha). cbn [PyStr.split_from].
  fold (String.rev a). now rewrite rev_involutive.
Qed.

Lemma split_piece_sep sep a t :
  has_char sep a = false ->
  PyStr.split sep (a +:+ String sep t) = a :: PyStr.split sep t.
Proof.
  intros Ha. unfold PyStr.split.
  rewrite (split_from_piece _ _ _ _ Ha). cbn [PyStr.split_from].
  rewrite Ascii.eqb_refl. fold (String.rev a). now rewrite rev_involutive.
Qed.

(** The text behind a separator is split on its own. *)
Lemma split_from_sep sep o t :
  forall cur,
    PyStr.split_from sep (o +:+ String sep t) cur =
    PyStr.split_from sep o cur ++ PyStr.split sep t.
Proof.
  induction o as [|c o IH]; intros cur.
  - rewrite app_nil_string. cbn [PyStr.split_from].
    now rewrite Ascii.eqb_refl.
  - rewrite app_cons_string. cbn [PyStr.split_from].
    destruct (Ascii.eqb c sep); [|apply IH].
    rewrite IH. reflexivity.
Qed.

Lemma in_skipn {A} n : forall (l : list A) x, In x (skipn n l) -> In x l.
Proof.
  induction n as [|n IH]; intros [|a l] x H; try exact H.
  right. apply IH, H.
Qed.

Lemma parse_paths_piece p rest :
  clean_path p ->
  TestRunner.parse_paths (p +:+ String "," rest) =
  p :: TestRunner.parse_paths rest.
Proof.
  intros (Hne & Hc & Hs). unfold TestRunner.parse_paths.
  rewrite split_piece_sep by (now rewrite <- contains_char).
  cbn [map List.filter]. rewrite Hs.
  destruct p; [congruence|reflexivity].
Qed.

Lemma parse_paths_last p :
  clean_path p -> TestRunner.parse_paths p = [p].
Proof.
  intros (Hne & Hc & Hs). unfold TestRunner.parse_paths.
  rewrite split_piece_end by (now rewrite <- contains_char).
  cbn [map List.filter]. rewrite Hs.
  destruct p; [congruence|reflexivity].
Qed.

End SplitFacts.

(** X11.  The paths the hook reads from CLAUDE_FILE_PATHS are clean: none is
    empty, none holds a comma, and none has whitespace at either end.
    Clean paths joined by commas are read back as they were, in their
    order. *)
Theorem parse_paths_gives_clean_paths :
  (forall file_paths_str p,
      In p (TestRunner.parse_paths file_paths_str) -> clean_path p)
  /\ (forall paths,
        Forall clean_path paths ->
        TestRunner.parse_paths (PyStr.join "," paths) = paths).
Proof.
  split.
  - intros s p Hin. unfold TestRunner.parse_paths in Hin.
    apply filter_In in Hin as [Hin Ht].
    apply in_map_iff in Hin as (piece & <- & Hin).
    split; [intros E; rewrite E in Ht; discriminate|]. split.
    + rewrite SplitFacts.contains_char. apply SplitFacts.has_char_strip.
      pose proof (SplitFacts.split_from_pieces "," s "" eq_refl) as Hall.
      rewrite List.Forall_forall in Hall. apply (Hall _ Hin).
    + apply SplitFacts.strip_idem.
  - induction 1 as [|p [|q paths] Hp _ IH]; [reflexivity| |].
    + apply SplitFacts.parse_paths_last, Hp.
    + change (PyStr.join "," (p :: q :: paths))
        with (p +:+ String "," (PyStr.join "," (q :: paths))).
      rewrite (SplitFacts.parse_paths_piece _ _ Hp), IH. reflexivity.
Qed.

Lemma parse_paths_gives_clean_paths_witness :
  clean_path "src/test_a.py"
  /\ TestRunner.parse_paths "src/test_a.py,tests/api.rs"
     = ["src/test_a.py"; "tests/api.rs"].
Proof.
  split.
  - apply (proj1 parse_paths_gives_clean_paths " src/test_a.py , ,x").
    vm_compute. now left.
  - apply (proj2 parse_paths_gives_clean_paths
             ["src/test_a.py"; "tests/api.rs"]).
    repeat constructor; try discriminate.
Defined.

(** X12.  The tail of a failed run.  At most twenty lines are printed under
    "Failed test output"; each is a line of the child's output that is not
    blank, behind two spaces; when the output has at most twenty lines,
    all its lines that are not blank are printed.  Blank lines count among
    the last twenty: when the output ends with twenty newlines nothing is
    printed, whatever stands before them.  A run with return code 0, a
    timeout and an exception print no tail. *)
Theorem failed_output_is_tail_of_last_twenty (output : string) :
  length (failed_output output) <= 20
  /\ (forall printed,
        In printed (failed_output output) ->
        exists line,
          printed = "  " +:+ line
          /\ In line (PyStr.split Re.newline output)
          /\ PyStr.strip line <> "")
  /\ (length (PyStr.split Re.newline output) <= 20 ->
      failed_output output =
      map (fun line => "  " +:+ line)
          (List.filter (fun line => PyStr.truthy (PyStr.strip line))
                       (PyStr.split Re.newline output)))
  /\ failed_output
       (output +:+ String.concat "" (repeat (String Re.newline "") 20)) = []
  /\ (forall returncode,
        failure_report (TestRunner.Completed returncode output) =
        if (returncode =? 0)%Z then [] else failed_output output)
  /\ failure_report TestRunner.TimeoutExpired = []
  /\ (forall e, failure_report (TestRunner.Raised e) = []).
Proof.
  unfold failed_output, last_lines.
  set (lines := PyStr.split Re.newline output).
  set (nonblank := fun line => PyStr.truthy (PyStr.strip line)).
  split; [|split; [|split; [|split; [|repeat split]]]].
  - rewrite length_map.
    etransitivity; [apply filter_length_le|].
    rewrite length_skipn. lia.
  - intros printed Hin. apply in_map_iff in Hin as (line & <- & Hin).
    apply filter_In in Hin as [Hin Hnb]. exists line.
    split; [reflexivity|]. split.
    + apply (SplitFacts.in_skipn _ _ _ Hin).
    + unfold nonblank in Hnb. intros E. rewrite E in Hnb. discriminate.
  - intros Hle. replace (length lines - 20) with 0 by lia. reflexivity.
  - subst lines. unfold PyStr.split.
    change (String.concat "" (repeat (String Re.newline "") 20))
      with (String Re.newline
              (String.concat "" (repeat (String Re.newline "") 19))).
    rewrite SplitFacts.split_from_sep.
    set (before := PyStr.split_from Re.newline output "").
    change (PyStr.split Re.newline
              (String.concat "" (repeat (String Re.newline "") 19)))
      with (repeat "" 20).
    rewrite length_app.
    replace (length before + length (repeat "" 20) - 20) with
      (length before) by (simpl; lia).
    rewrite drop_app_length. reflexivity.
Qed.

Lemma failed_output_is_tail_of_last_twenty_witness :
  failed_output failing_output =
  ["  FAILED test_a"; "    assert 1 == 2"].
Proof.
  exact (proj1 (proj2 (proj2 (failed_output_is_tail_of_last_twenty
           failing_output))) ltac:(vm_compute; lia)).
Defined.

(** ** Further properties of the loggers *)

Module LoggerFacts.
Import Sqlite CommandTracker.

(** What one invocation does to the rows, whatever the store. *)
Lemma hook_rows w db input_data :
  (ready db = true
   /\ ending_of (hook w db input_data) = SysExit 0
   /\ all_rows (store_after (hook w db input_data)) =
      all_rows db ++ [logged w db input_data]
   /\ last_id (store_after (hook w db input_data)) = (last_id db + 1)%Z)
  \/ (ready db = false
      /\ ending_of (hook w db input_data) = Uncaught "sqlite3.OperationalError"
      /\ all_rows (store_after (hook w db input_data)) = all_rows db
      /\ last_id (store_after (hook w db input_data)) = last_id db).
Proof.
  destruct db as [|[t|]]; [right; auto 10| |left; auto 10].
  unfold hook, ready. cbn [create_table].
  destruct (has_columns indexed_columns (columns t)); cbn [negb andb];
    [|right; auto 10].
  destruct (has_columns inserted_columns (columns t)); cbn [negb];
    [left|right]; auto 10.
Qed.

Lemma hook_ids w db input_data :
  ids_in_order db -> ids_in_order (store_after (hook w db input_data)).
Proof.
  intros [Hnd Hle]. unfold ids_in_order.
  destruct (hook_rows w db input_data)
    as [(_ & _ & -> & ->)|(_ & _ & -> & ->)]; [|auto].
  rewrite map_app, Forall_app. cbn [map logged id]. split.
  - apply NoDup_app. split; [exact Hnd|]. split; [|apply NoDup_singleton].
    intros x Hx Hin. apply list_elem_of_singleton in Hin as ->.
    apply list_elem_of_In, in_map_iff in Hx as (r & Hr & Hin).
    rewrite List.Forall_forall in Hle. specialize (Hle _ Hin). lia.
  - split.
    + eapply Forall_impl; [exact Hle|]. intros r Hr. cbn beta in *. lia.
    + repeat constructor. cbn. lia.
Qed.







End LoggerFacts.

Module SessionMore.
Import Sqlite SessionTracker.

Lemma remove_dups_length `{EqDecision A} (l : list A) :
  length (remove_dups l) <= length l.
Proof.
  induction l as [|a l IH]; [reflexivity|]. cbn [remove_dups].
  destruct (decide_rel elem_of a l); cbn [length]; lia.
Qed.

Lemma omap_length {A B} (f : A -> option B) (l : list A) :
  length (omap f l) <= length l.
Proof.
  induction l as [|a l IH]; [reflexivity|].
  change (omap f (a :: l)) with
    (match f a with Some b => b :: omap f l | None => omap f l end).
  destruct (f a); cbn [length]; lia.
Qed.

(** On a table with the logger's columns all four queries answer. *)
Lemma read_stats_schema t sid :
  CommandTracker.columns t = CommandTracker.schema ->
  read_stats (Usable (Some t)) sid =
  ({| st_tool_count := Z.of_nat (length (of_session sid t));
      st_file_count :=
        Z.of_nat (length (remove_dups
          (omap CommandTracker.row_file_path (of_session sid t))));
      st_command_count :=
        Z.of_nat (length (List.filter
          (fun r => String.eqb (CommandTracker.tool_type r) "Bash")
          (of_session sid t)));
      st_duration_seconds :=
        or_zero
          (match sql_min (map CommandTracker.timestamp (of_session sid t)),
                 sql_max (map CommandTracker.timestamp (of_session sid t)) with
           | Some lo, Some hi => Some (seconds_between lo hi)
           | _, _ => None
           end) |}, false).
Proof.
  intros Hc. unfold read_stats, count_tools, count_files, count_commands,
    query_duration. rewrite Hc. reflexivity.
Qed.

Lemma stats_bounded db sid :
  let s := fst (read_stats db sid) in
  (0 <= st_file_count s <= st_tool_count s)%Z
  /\ (0 <= st_command_count s <= st_tool_count s)%Z.
Proof.
  destruct db as [|[t|]]; cbn; try lia.
  unfold count_tools, count_files, count_commands, query_duration.
  pose proof (omap_length CommandTracker.row_file_path (of_session sid t)).
  pose proof (remove_dups_length
                (omap CommandTracker.row_file_path (of_session sid t))).
  pose proof (filter_length_le
                (fun r => String.eqb (CommandTracker.tool_type r) "Bash")
                (of_session sid t)).
  repeat match goal with
  | |- context [if ?b then _ else _] => destruct b; cbn
  end; lia.
Qed.

End SessionMore.



(** X14.  The identifiers stay in order: when the identifiers of a store are
    pairwise different and none is above the last one given out, the same
    holds after any number of invocations; so it holds for every store the
    logger has built from nothing. *)
Theorem tool_call_ids_stay_distinct
    (calls : list (CommandTracker.world * CommandTracker.request)) :
  (forall db, ids_in_order db ->
              ids_in_order (CommandTracker.invocations db calls))
  /\ NoDup (map CommandTracker.id
              (CommandTracker.all_rows
                 (CommandTracker.invocations (Sqlite.Usable None) calls))).
Proof.
  assert (forall db, ids_in_order db ->
                     ids_in_order (CommandTracker.invocations db calls)) as H.
  { induction calls as [|[w input_data] calls IH]; intros db Hdb; [exact Hdb|].
    cbn [CommandTracker.invocations]. apply IH, LoggerFacts.hook_ids, Hdb. }
  split; [exact H|].
  apply (H (Sqlite.Usable None)). split; constructor.
Qed.

Lemma tool_call_ids_stay_distinct_witness :
  ids_in_order
    (CommandTracker.invocations (Sqlite.Usable (Some (five_calls 0)))
       [read_call; read_call]).
Proof.
  apply (proj1 (tool_call_ids_stay_distinct [read_call; read_call])).
  split; apply (bool_decide_unpack _); vm_compute; exact I.
Defined.


(** X18.  The session logger writes one row and leaves the others alone.  The
    row of every other session is as it was; the row of its own session
    carries the clock, the model of the environment or "unknown", counts
    that never exceed the number of tool calls, and a summary text that
    names the very counts stored beside it. *)
Theorem session_logger_touches_one_row
    (w : SessionTracker.world)
    (tool_calls : Sqlite.store CommandTracker.table)
    (sessions : option SessionTracker.table) :
  let after :=
    SessionTracker.sessions_after
      (SessionTracker.main w tool_calls (Sqlite.Usable sessions) (Json tt)) in
  (forall other,
      other <> SessionTracker.session_of w ->
      session_row after other = session_row (Sqlite.Usable sessions) other)
  /\ exists row,
       session_row after (SessionTracker.session_of w) = Some row
       /\ SessionTracker.timestamp row = SessionTracker.now w
       /\ SessionTracker.model row =
          default "unknown" (SessionTracker.CLAUDE_MODEL w)
       /\ (0 <= SessionTracker.file_count row <= SessionTracker.tool_count row)%Z
       /\ (0 <= SessionTracker.command_count row
           <= SessionTracker.tool_count row)%Z
       /\ SessionTracker.summary row =
          "Session completed: " +:+ pretty (SessionTracker.tool_count row)
          +:+ " tools, " +:+ pretty (SessionTracker.file_count row)
          +:+ " files, " +:+ pretty (SessionTracker.command_count row)
          +:+ " commands".
Proof.
  intros after. subst after. cbn [SessionTracker.main].
  rewrite SessionFacts.hook_upserts.
  cbn [SessionTracker.sessions_after session_row]. split.
  - intros other Hne. rewrite lookup_insert_ne by congruence.
    destruct sessions; reflexivity.
  - eexists. rewrite lookup_insert_eq. split; [reflexivity|].
    destruct (SessionMore.stats_bounded tool_calls (SessionTracker.session_of w))
      as [Hf Hc].
    cbn [SessionTracker.row_of SessionTracker.timestamp SessionTracker.model
         SessionTracker.file_count SessionTracker.tool_count
         SessionTracker.command_count SessionTracker.summary].
    auto.
Qed.

Lemma session_logger_touches_one_row_witness :
  session_row
    (SessionTracker.sessions_after
       (SessionTracker.main session_S (Sqlite.Usable (Some (five_calls 4)))
          (Sqlite.Usable None) (Json tt))) "T"
  = None.
Proof.
  exact (proj1 (session_logger_touches_one_row session_S
                  (Sqlite.Usable (Some (five_calls 4))) None)
           "T" ltac:(discriminate)).
Defined.

(** X19.  A session without logged calls.  When the tool-call store has the
    logger's table but no row of the session, every query answers: the row
    holds zeros and no warning is printed.  When the store has no table
    yet, the row holds zeros as well, but the warning is printed. *)
Theorem session_without_calls_is_all_zero
    (w : SessionTracker.world) (sessions : option SessionTracker.table) :
  (forall t,
      CommandTracker.columns t = CommandTracker.schema ->
      SessionTracker.of_session (SessionTracker.session_of w) t = [] ->
      let after :=
        SessionTracker.main w (Sqlite.Usable (Some t)) (Sqlite.Usable sessions)
          (Json tt) in
      SessionTracker.stored (SessionTracker.sessions_after after)
                            (SessionTracker.session_of w)
      = Some (0, 0, 0, 0)%Z
      /\ SessionTracker.warned after = false)
  /\ (let after :=
        SessionTracker.main w (Sqlite.Usable None) (Sqlite.Usable sessions)
          (Json tt) in
      SessionTracker.stored (SessionTracker.sessions_after after)
                            (SessionTracker.session_of w)
      = Some (0, 0, 0, 0)%Z
      /\ SessionTracker.warned after = true).
Proof.
  split.
  - intros t Hc Hrows after. subst after. cbn [SessionTracker.main].
    rewrite SessionFacts.hook_upserts.
    cbn [SessionTracker.sessions_after SessionTracker.warned
         SessionTracker.stored].
    rewrite lookup_insert_eq, (SessionMore.read_stats_schema _ _ Hc), Hrows.
    split; reflexivity.
  - cbn [SessionTracker.main]. rewrite SessionFacts.hook_upserts.
    cbn [SessionTracker.sessions_after SessionTracker.warned
         SessionTracker.stored].
    rewrite lookup_insert_eq. split; reflexivity.
Qed.

Lemma session_without_calls_is_all_zero_witness :
  SessionTracker.stored
    (SessionTracker.sessions_after
       (SessionTracker.main
          {| SessionTracker.CLAUDE_SESSION_ID := Some "T";
             SessionTracker.CLAUDE_MODEL := None;
             SessionTracker.now := noon |}
          (Sqlite.Usable (Some (five_calls 4))) (Sqlite.Usable None) (Json tt)))
    "T"
  = Some (0, 0, 0, 0)%Z.
Proof.
  exact (proj1 (proj1 (session_without_calls_is_all_zero
                         {| SessionTracker.CLAUDE_SESSION_ID := Some "T";
                            SessionTracker.CLAUDE_MODEL := None;
                            SessionTracker.now := noon |} None)
                  (five_calls 4) eq_refl eq_refl)).
Defined.

Lemma session_logger_counts_witness :
  exists row,
    SessionTracker.sessions_after
      (SessionTracker.hook session_S (Sqlite.Usable (Some (five_calls 4)))
         (Sqlite.Usable None))
    = Sqlite.Usable (Some (<["S" := row]> ∅))
    /\ SessionTracker.tool_count row = 5%Z
    /\ SessionTracker.command_count row = 3%Z
    /\ SessionTracker.file_count row = 2%Z.
Proof.
  exact (session_logger_counts session_S (five_calls 4) None eq_refl).
Defined.

Lemma session_logger_twice_witness :
  SessionTracker.sessions_after
    (SessionTracker.hook session_S (Sqlite.Usable (Some (five_calls 4)))
       (SessionTracker.sessions_after
          (SessionTracker.hook session_S (Sqlite.Usable (Some old_table))
             (Sqlite.Usable None))))
  = SessionTracker.sessions_after
      (SessionTracker.hook session_S (Sqlite.Usable (Some (five_calls 4)))
         (Sqlite.Usable None)).
Proof.
  exact (session_logger_twice session_S session_S
           (Sqlite.Usable (Some old_table))
           (Sqlite.Usable (Some (five_calls 4))) None eq_refl).
Defined.

Module SubagentFacts.
Import Sqlite SubagentTracker.


End SubagentFacts.




(** ** Further properties of the deployer *)

Module DeployMore.
Import Deploy.

Lemma lower_char_idem c : PyStr.lower_char (PyStr.lower_char c) = PyStr.lower_char c.
Proof.
  destruct c as [b0 b1 b2 b3 b4 b5 b6 b7].
  destruct b0, b1, b2, b3, b4, b5, b6, b7; vm_compute; reflexivity.
Qed.

Lemma lower_idem s : PyStr.lower (PyStr.lower s) = PyStr.lower s.
Proof.
  induction s as [|c s IH]; [reflexivity|].
  cbn [PyStr.lower]. now rewrite lower_char_idem, IH.
Qed.

Lemma merge_event_lookup_same all event_type new_hooks :
  merge_event all (event_type, new_hooks) !! event_type =
  Some (merged (all !! event_type) new_hooks).
Proof.
  unfold merge_event, merged, commands_of.
  destruct (all !! event_type) as [[|first others]|] eqn:E;
    rewrite ?E, ?lookup_insert_eq; reflexivity.
Qed.

Lemma fold_merge_lookup hook_configs :
  NoDup (map fst hook_configs) ->
  forall all event_type,
    fold_left merge_event hook_configs all !! event_type =
    match assoc event_type hook_configs with
    | Some new_hooks => Some (merged (all !! event_type) new_hooks)
    | None => all !! event_type
    end.
Proof.
  induction hook_configs as [|[e rs] rest IH]; intros Hnd all event_type;
    [reflexivity|].
  simpl in Hnd. apply NoDup_cons in Hnd as [Hfresh Hnd].
  cbn [fold_left assoc]. rewrite (IH Hnd).
  destruct (String.eqb_spec e event_type) as [->|Hne].
  - rewrite (DeployFacts.assoc_none_not_key _ _ Hfresh).
    apply merge_event_lookup_same.
  - rewrite (DeployFacts.merge_event_lookup_other _ _ _ _ Hne). reflexivity.
Qed.

(** The list of an event type after the update. *)
Lemma groups_update s deployed_hooks event_type :
  groups_of (update_settings s deployed_hooks) event_type =
  match regs_for event_type deployed_hooks with
  | [] => groups_of s event_type
  | _ :: _ =>
      Some (merged (groups_of s event_type) (regs_for event_type deployed_hooks))
  end.
Proof.
  destruct (DeployFacts.build_configs_assoc deployed_hooks) as [Hnd Hassoc].
  unfold groups_of. cbn [update_settings hooks default from_option].
  unfold Datatypes.id. rewrite (fold_merge_lookup _ Hnd), Hassoc.
  destruct (regs_for event_type deployed_hooks); reflexivity.
Qed.

Lemma in_get_hook_files w entries n :
  HOOKS_SOURCE w = Some entries ->
  In n (get_hook_files w) <->
  exists f, In f entries /\ is_file f = true
            /\ entry_name f <> "__init__.py" /\ entry_name f = n.
Proof.
  intros Hs. unfold get_hook_files. rewrite Hs, in_map_iff. split.
  - intros (f & Hn & Hin). apply filter_In in Hin as [Hin Hok].
    apply andb_prop in Hok as [Hf Hi]. exists f.
    repeat split; try assumption.
    intros E. rewrite E in Hi. discriminate.
  - intros (f & Hin & Hf & Hi & Hn). exists f. split; [exact Hn|].
    apply filter_In. split; [exact Hin|]. rewrite Hf.
    destruct (String.eqb_spec (entry_name f) "__init__.py"); [contradiction|].
    reflexivity.
Qed.

End DeployMore.

(** X21.  The event type of a hook is read off its name, whatever the case of
    its letters: PreToolUse when the name holds [pre-tool] or [grep-to-rg],
    else PostToolUse when it holds [post-tool], else UserPromptSubmit when
    it holds [prompt], and PreToolUse for every other name.  So a name
    with [pre-tool] in it is never taken for a PostToolUse or prompt hook,
    whatever else it holds. *)
Theorem event_type_read_off_name (hook_name : string) :
  let lowered := PyStr.lower hook_name in
  In (Deploy.event_type_of hook_name)
     ["PreToolUse"; "PostToolUse"; "UserPromptSubmit"]
  /\ Deploy.event_type_of (PyStr.lower hook_name)
     = Deploy.event_type_of hook_name
  /\ (Deploy.event_type_of hook_name = "PostToolUse"
      <-> PyStr.contains "post-tool" lowered = true
          /\ PyStr.contains "pre-tool" lowered = false
          /\ PyStr.contains "grep-to-rg" lowered = false)
  /\ (Deploy.event_type_of hook_name = "UserPromptSubmit"
      <-> PyStr.contains "prompt" lowered = true
          /\ PyStr.contains "post-tool" lowered = false
          /\ PyStr.contains "pre-tool" lowered = false
          /\ PyStr.contains "grep-to-rg" lowered = false).
Proof.
  intros lowered. unfold Deploy.event_type_of.
  rewrite DeployMore.lower_idem. fold lowered.
  destruct (PyStr.contains "pre-tool" lowered),
           (PyStr.contains "grep-to-rg" lowered),
           (PyStr.contains "post-tool" lowered),
           (PyStr.contains "prompt" lowered); cbn [orb];
    (split; [simpl; auto|]); (split; [reflexivity|]);
    split; split; try discriminate; try tauto;
    intros (? & ? & ?); try discriminate; intuition discriminate.
Qed.

(** X22.  The deployer from end to end.  It picks the regular files of the
    source directory other than [__init__.py]; with none, or without the
    directory, it ends with status 1, copies nothing and leaves the
    settings file as it is.  Otherwise every file picked is copied under
    its own name into the hooks directory, and the copies are pairwise
    different.  Then, when the settings file is missing or holds a JSON
    document of the shape the deployer updates, the run comes to its end
    and the settings saved hold, in the first group of the event type read
    off the file's stem, exactly one registration of each copy: its name is
    the stem, its type is [command] and its command is the path of the
    copy; the other keys of the settings stay.  When the settings file
    holds text that is not JSON, the copies have been made, but the
    settings file stays as it is and the run ends by the exception of
    [json.load]. *)
Theorem deployer_registers_every_hook_file
    (w : Deploy.world) (entries : list Deploy.dir_entry) :
  Deploy.HOOKS_SOURCE w = Some entries ->
  NoDup (map Deploy.entry_name entries) ->
  let after := Deploy.main w in
  (forall n,
      In n (Deploy.get_hook_files w) <->
      exists f, In f entries /\ Deploy.is_file f = true
                /\ Deploy.entry_name f <> "__init__.py"
                /\ Deploy.entry_name f = n)
  /\ (Deploy.get_hook_files w = [] ->
      Deploy.settings_after after = Deploy.CLAUDE_SETTINGS w
      /\ Deploy.deployed after = []
      /\ Deploy.ending_of after = SysExit 1)
  /\ (Deploy.get_hook_files w <> [] ->
      NoDup (map Deploy.str (Deploy.deployed after))
      /\ (forall n,
            In n (Deploy.get_hook_files w) ->
            In {| Deploy.parent := Deploy.CLAUDE_HOOKS_DIR w; Deploy.name := n |}
               (Deploy.deployed after))
      /\ (forall loaded,
            Deploy.load_settings w = Some loaded ->
            exists s',
              Deploy.settings_after after = Deploy.Document s'
              /\ Deploy.ending_of after = Finished
              /\ Deploy.other_settings s' = Deploy.other_settings loaded
              /\ forall n,
                   In n (Deploy.get_hook_files w) ->
                   let p := {| Deploy.parent := Deploy.CLAUDE_HOOKS_DIR w;
                               Deploy.name := n |} in
                   let event_type := Deploy.event_type_of (Deploy.stem p) in
                   In {| Deploy.reg_name := Some (Deploy.stem p);
                         Deploy.reg_type := Some "command";
                         Deploy.reg_command := Some (Deploy.str p) |}
                      (Deploy.first_group s' event_type)
                   /\ Deploy.count_command (Deploy.str p)
                        (Deploy.first_group s' event_type) = 1)
      /\ (Deploy.CLAUDE_SETTINGS w = Deploy.Unparsable ->
          Deploy.settings_after after = Deploy.Unparsable
          /\ Deploy.ending_of after = Uncaught "JSONDecodeError")).
Proof.
  intros Hsrc Hnd after. subst after.
  pose proof (deployed_paths_distinct w entries Hsrc Hnd) as Hpaths.
  split; [intros n; apply (DeployMore.in_get_hook_files _ _ _ Hsrc)|].
  unfold Deploy.main.
  destruct (Deploy.get_hook_files w) as [|n0 names] eqn:Hfiles;
    (split; [intros E|intros E]); try congruence; [auto|].
  set (deployed := Deploy.copy_hooks w (n0 :: names)) in *.
  assert (forall n, In n (n0 :: names) ->
            In {| Deploy.parent := Deploy.CLAUDE_HOOKS_DIR w; Deploy.name := n |}
               deployed) as Hcopied.
  { intros n Hn. apply in_map_iff. exists n. auto. }
  split; [destruct (Deploy.load_settings w); exact Hpaths|].
  split; [destruct (Deploy.load_settings w); exact Hcopied|].
  split.
  - intros loaded ->. eexists. split; [reflexivity|]. split; [reflexivity|].
    split; [reflexivity|]. intros n Hn.
    set (p := {| Deploy.parent := Deploy.CLAUDE_HOOKS_DIR w; Deploy.name := n |}).
    set (event_type := Deploy.event_type_of (Deploy.stem p)).
    assert (In p deployed) as Hp by exact (Hcopied n Hn).
    assert (In p (Deploy.hooks_for event_type deployed)) as Hmine
      by (apply DeployFacts.in_hooks_for; auto).
    rewrite DeployFacts.first_group_update. split.
    + apply in_or_app. right. apply in_map_iff. exists p. auto.
    + rewrite DeployFacts.count_command_app.
      rewrite DeployFacts.count_command_filtered.
      * apply DeployFacts.count_command_once; [|exact Hmine].
        apply DeployFacts.NoDup_map_filter, Hpaths.
      * unfold Deploy.commands_of, Deploy.regs_for.
        rewrite DeployFacts.commands_regs.
        apply elem_of_list_to_set, list_elem_of_In, in_map, Hmine.
  - unfold Deploy.load_settings. intros ->. split; reflexivity.
Qed.

Lemma deployer_registers_every_hook_file_witness :
  Deploy.count_command "/home/u/.claude/hooks/grep-to-rg.py"
    (Deploy.first_group
       (Deploy.update_settings Deploy.no_settings [dest "grep-to-rg.py"])
       "PreToolUse") = 1.
Proof.
  destruct (deployer_registers_every_hook_file
    {| Deploy.HOOKS_SOURCE :=
         Some [ {| Deploy.entry_name := "__init__.py"; Deploy.is_file := true |};
                {| Deploy.entry_name := "grep-to-rg.py"; Deploy.is_file := true |};
                {| Deploy.entry_name := "__pycache__"; Deploy.is_file := false |} ];
       Deploy.CLAUDE_HOOKS_DIR := "/home/u/.claude/hooks";
       Deploy.CLAUDE_SETTINGS := Deploy.NoFile |}
    _ eq_refl ltac:(apply (bool_decide_unpack _); vm_compute; exact I))
    as (_ & _ & Hfiles).
  destruct (Hfiles ltac:(discriminate)) as (_ & _ & Hloaded & _).
  destruct (Hloaded Deploy.no_settings eq_refl) as (s' & Hs & _ & _ & Hreg).
  injection Hs as <-.
  exact (proj2 (Hreg "grep-to-rg.py" ltac:(now left))).
Defined.

(** X23.  What the update does to the lists of groups.  The list of an event
    type that no deployed hook belongs to is left as it is, and is not
    created when it was missing.  For an event type with deployed hooks
    the list keeps its later groups and, in its first group, the other
    keys such as a matcher, so the new registrations come under that
    matcher; only the hooks of the first group change.  When the list was
    missing or empty it becomes one group without other keys that holds
    the new registrations. *)
Theorem deployer_changes_first_group_only
    (s : Deploy.settings) (deployed_hooks : list Deploy.path)
    (event_type : string) :
  let s' := Deploy.update_settings s deployed_hooks in
  (Deploy.hooks_for event_type deployed_hooks = [] ->
   groups_of s' event_type = groups_of s event_type)
  /\ (Deploy.hooks_for event_type deployed_hooks <> [] ->
      groups_of s' event_type =
      Some ({| Deploy.group_hooks := Some (Deploy.first_group s' event_type);
               Deploy.group_other := first_other s event_type |}
            :: Deploy.later_groups s event_type))
  /\ (Deploy.hooks_for event_type deployed_hooks <> [] ->
      (groups_of s event_type = None \/ groups_of s event_type = Some []) ->
      groups_of s' event_type =
      Some [ {| Deploy.group_hooks :=
                  Some (map Deploy.register
                            (Deploy.hooks_for event_type deployed_hooks));
                Deploy.group_other := [] |} ]).
Proof.
  intros s'. subst s'.
  pose proof (DeployFacts.first_group_update s deployed_hooks event_type)
    as Hfirst.
  rewrite DeployMore.groups_update. unfold Deploy.regs_for in *.
  split; [intros ->; reflexivity|].
  destruct (Deploy.hooks_for event_type deployed_hooks) as [|p mine] eqn:E;
    (split; [intros Hne|intros Hne Hold]); try congruence.
  - rewrite Hfirst. cbn [map]. unfold merged, groups_of,
      Deploy.first_group, first_other, Deploy.later_groups.
    destruct (default ∅ (Deploy.hooks s) !! event_type) as [[|first others]|];
      reflexivity.
  - cbn [map]. unfold merged.
    destruct Hold as [-> | ->]; reflexivity.
Qed.

Lemma deployer_changes_first_group_only_witness :
  groups_of
    (Deploy.update_settings registered_in_second_group [dest "grep-to-rg.py"])
    "PostToolUse" = None
  /\ first_other
       (Deploy.update_settings registered_in_second_group
          [dest "grep-to-rg.py"]) "PreToolUse" = [("matcher", "Edit")].
Proof.
  split.
  - exact (proj1 (deployer_changes_first_group_only registered_in_second_group
                    [dest "grep-to-rg.py"] "PostToolUse") eq_refl).
  - pose proof (proj1 (proj2 (deployer_changes_first_group_only
                  registered_in_second_group [dest "grep-to-rg.py"]
                  "PreToolUse")) ltac:(discriminate)) as H.
    unfold first_other. unfold groups_of in H. rewrite H. reflexivity.
Defined.

(** ** More on the rewriters, the report and the deployer *)

Module NpmShort.
Import Re NpmToPnpm NpmFacts NpmMappings.

#[local] Arguments Ascii.eqb : simpl never.
#[local] Arguments PyStr.is_word : simpl never.
#[local] Arguments PyStr.is_space : simpl never.

Lemma i_with_argument c0 pkg :
  PyStr.is_space c0 = false -> c0 <> "-"%char ->
  search_from re_npm (Some " "%char) (String c0 pkg) = false ->
  convert ("npm i " +:+ String c0 pkg) = "pnpm add " +:+ String c0 pkg.
Proof.
  intros Hsp Hdash Hpkg.
  apply (special_fires (firstn 1 special_rules) (re_install_arg "i") "pnpm add "
           (skipn 2 special_rules) "n" "pm i " (String c0 pkg)).
  - reflexivity.
  - intros rule [<-|[]]. run_known. reflexivity.
  - run_known. rewrite Hsp.
    replace (Ascii.eqb "-" c0) with false
      by (symmetry; apply Ascii.eqb_neq; congruence).
    replace (Ascii.eqb c0 "010") with false.
    + destruct pkg; reflexivity.
    + symmetry. apply Ascii.eqb_neq. intros ->. discriminate Hsp.
  - skip_known. exact Hpkg.
  - unfold Re.search. skip_known. exact Hpkg.
Qed.

Lemma i_global rest :
  word_after rest = false ->
  search_from re_npm (Some "g"%char) rest = false ->
  convert ("npm i -g" +:+ rest) = "pnpm add -g" +:+ rest.
Proof.
  intros Hw Hrest.
  rewrite search_npm_unfold, npm_here_word in Hrest by reflexivity.
  apply (special_fires (firstn 3 special_rules) (re_install_global "i")
           "pnpm add -g" (skipn 4 special_rules) "n" "pm i -g" rest).
  - reflexivity.
  - intros rule [<-|[<-|[<-|[]]]]; run_known; reflexivity.
  - run_known. rewrite Hw. reflexivity.
  - skip_known. exact Hrest.
  - unfold Re.search. skip_known. exact Hrest.
Qed.

Lemma not_word_not c x : PyStr.is_word c = false -> PyStr.is_word x = true ->
  Ascii.eqb x c = false.
Proof. intros Hc Hx. apply Ascii.eqb_neq. intros ->. congruence. Qed.

Lemma un rest :
  word_after rest = false ->
  search_from re_npm (Some "n"%char) rest = false ->
  convert ("npm un" +:+ rest) = "pnpm remove" +:+ rest.
Proof.
  intros Hw Hrest.
  rewrite search_npm_unfold, npm_here_word in Hrest by reflexivity.
  apply (special_fires (firstn 5 special_rules) (re_uninstall "un")
           "pnpm remove" (skipn 6 special_rules) "n" "pm un" rest).
  - reflexivity.
  - intros rule [<-|[<-|[<-|[<-|[<-|[]]]]]]; run_known; try reflexivity.
    destruct rest as [|c rest]; [reflexivity|]. cbn in Hw |- *.
    now rewrite (not_word_not c "i" Hw eq_refl).
  - run_known. rewrite Hw. reflexivity.
  - skip_known. exact Hrest.
  - unfold Re.search. skip_known. exact Hrest.
Qed.

End NpmShort.

(** X24.  The short forms of the subcommands are converted like the long
    ones: [npm i] with an argument becomes [pnpm add] with it, [npm i -g]
    becomes [pnpm add -g], [npm un] becomes [pnpm remove] and the bare
    [npm i] becomes [pnpm install], for every command of that shape in
    which no other whole word npm stands. *)
Theorem npm_short_forms :
  (forall c pkg,
      PyStr.is_space c = false -> c <> "-"%char ->
      Re.search_from NpmToPnpm.re_npm (Some " "%char) (String c pkg) = false ->
      NpmToPnpm.convert ("npm i " +:+ String c pkg) = "pnpm add " +:+ String c pkg)
  /\ (forall rest,
        Re.word_after rest = false ->
        Re.search_from NpmToPnpm.re_npm (Some "g"%char) rest = false ->
        NpmToPnpm.convert ("npm i -g" +:+ rest) = "pnpm add -g" +:+ rest)
  /\ (forall rest,
        Re.word_after rest = false ->
        Re.search_from NpmToPnpm.re_npm (Some "n"%char) rest = false ->
        NpmToPnpm.convert ("npm un" +:+ rest) = "pnpm remove" +:+ rest)
  /\ NpmToPnpm.convert "npm i" = "pnpm install".
Proof.
  split; [apply NpmShort.i_with_argument|].
  split; [apply NpmShort.i_global|].
  split; [apply NpmShort.un|]. vm_compute. reflexivity.
Qed.

Lemma npm_short_forms_witness :
  NpmToPnpm.convert "npm i left-pad" = "pnpm add left-pad"
  /\ NpmToPnpm.convert "npm i -g yarn" = "pnpm add -g yarn"
  /\ NpmToPnpm.convert "npm un left-pad && ls" = "pnpm remove left-pad && ls".
Proof.
  split; [|split].
  - exact (proj1 npm_short_forms "l"%char "eft-pad" eq_refl
             ltac:(discriminate) eq_refl).
  - exact (proj1 (proj2 npm_short_forms) " yarn" eq_refl eq_refl).
  - exact (proj1 (proj2 (proj2 npm_short_forms)) " left-pad && ls"
             eq_refl eq_refl).
Defined.

(** X25.  Which branch gives the summary line.  For the five commands
    [detect_test_framework] can return, pytest takes the pytest branch,
    npm test the Jest branch, python -m unittest none, and both go test and
    cargo test the Go branch, since the text [go test] is part of
    [cargo test]: the branch that looks for [test result:] is never taken.
    The Go branch looks for PASS first, so output that holds both PASS and
    FAIL is summed up as passed. *)
Theorem summary_branch_by_framework
    (w : TestRunner.world) (language : option string)
    (project_dir test_command : string) :
  TestRunner.detect_test_framework w language project_dir = Some test_command ->
  summary_rule_of test_command <> CargoSummary
  /\ (test_command = "pytest" -> summary_rule_of test_command = PytestSummary)
  /\ (test_command = "python -m unittest" ->
      summary_rule_of test_command = NoSummary)
  /\ (test_command = "npm test" -> summary_rule_of test_command = JestSummary)
  /\ (test_command = "go test" \/ test_command = "cargo test" ->
      summary_rule_of test_command = GoSummary)
  /\ (forall before between after,
        go_summary (before +:+ "PASS" +:+ between +:+ "FAIL" +:+ after)
        = Some "Summary: All tests passed"
        /\ go_summary (before +:+ "FAIL" +:+ between +:+ "PASS" +:+ after)
           = Some "Summary: All tests passed").
Proof.
  intros Hd. split; [|split; [|split; [|split; [|split]]]].
  - destruct (RunnerFacts.detect_cases _ _ _ _ Hd) as [->|[->|[->|[->| ->]]]];
      vm_compute; discriminate.
  - intros ->. reflexivity.
  - intros ->. reflexivity.
  - intros ->. reflexivity.
  - intros [-> | ->]; reflexivity.
  - intros before between after. unfold go_summary.
    rewrite (PatternFacts.contains_behind "PASS" before)
      by apply GrepFacts.startswith_app.
    split; [reflexivity|].
    replace (before +:+ "FAIL" +:+ between +:+ "PASS" +:+ after)
      with ((before +:+ "FAIL" +:+ between) +:+ "PASS" +:+ after)
      by (now rewrite !NpmBlanks.app_assoc_string).
    rewrite (PatternFacts.contains_behind "PASS")
      by apply GrepFacts.startswith_app.
    reflexivity.
Qed.

Lemma summary_branch_by_framework_witness :
  summary_rule_of "cargo test" = GoSummary.
Proof.
  exact (proj1 (proj2 (proj2 (proj2 (proj2
           (summary_branch_by_framework (sample_world "") (Some "rust") "/proj"
              "cargo test" eq_refl)))))
           (or_intror eq_refl)).
Defined.

Module PathFacts.
Import Deploy.

Lemma has_char_app c a b :
  has_char c (a +:+ b) = has_char c a || has_char c b.
Proof.
  induction a as [|x a IH]; [reflexivity|].
  rewrite app_cons_string. cbn [has_char]. rewrite IH. apply orb_assoc.
Qed.

(** The scan finds the last dot: the name is cut there into what stands
    before it and a rest without a dot. *)
Lemma rfind_dot_last s :
  forall i found,
    match rfind_dot s i found with
    | Some j =>
        (found = Some j /\ has_char "." s = false)
        \/ exists a b, s = a +:+ "." +:+ b /\ has_char "." b = false
                       /\ j = i + String.length a
    | None => found = None /\ has_char "." s = false
    end.
Proof.
  induction s as [|c s IH]; intros i found; cbn [rfind_dot has_char].
  - destruct found; auto.
  - specialize (IH (S i) (if Ascii.eqb c "." then Some i else found)).
    destruct (rfind_dot s (S i) _) as [j|].
    + destruct IH as [[Hf Hs]|(a & b & -> & Hb & ->)].
      * destruct (Ascii.eqb_spec c ".") as [->|Hc].
        -- right. exists "", s. injection Hf as <-.
           repeat split; [exact Hs|cbn; lia].
        -- left. rewrite Hs. auto.
      * right. exists (String c a), b. rewrite app_cons_string.
        repeat split; [exact Hb|cbn; lia].
    + destruct IH as [Hf Hs]. destruct (Ascii.eqb c "."); [discriminate|].
      rewrite Hs. auto.
Qed.

Lemma substring_app a t : String.substring 0 (String.length a) (a +:+ t) = a.
Proof.
  induction a as [|c a IH]; [destruct t; reflexivity|].
  rewrite app_cons_string. cbn [String.length String.substring]. now rewrite IH.
Qed.

Lemma length_zero (a : string) : String.length a = 0 -> a = "".
Proof. destruct a; [reflexivity|discriminate]. Qed.

(** Stem and suffix of a name, by the place of its last dot. *)
Lemma stem_suffix_cases p :
  (stem p = name p /\ path_suffix p = "")
  \/ exists a b,
       name p = a +:+ "." +:+ b /\ has_char "." b = false
       /\ a <> "" /\ b <> "" /\ stem p = a /\ path_suffix p = "." +:+ b.
Proof.
  unfold stem, path_suffix.
  pose proof (rfind_dot_last (name p) 0 None) as H.
  destruct (rfind_dot (name p) 0 None) as [j|]; [|now left].
  destruct H as [[H _]|(a & b & Hn & Hb & ->)]; [discriminate|].
  rewrite Hn, !length_app_string. cbn [String.length Nat.add].
  destruct ((0 <? String.length a)%nat
            && (String.length a <? String.length a + S (String.length b) - 1)%nat)
    eqn:E; [right|now left].
  apply andb_prop in E as [Ha Hlen]. apply Nat.ltb_lt in Ha, Hlen.
  exists a, b. rewrite substring_app, PatternFacts.drop_app.
  repeat split; try assumption.
  - intros ->. cbn in Ha. lia.
  - intros ->. cbn in Hlen. lia.
Qed.

(** A name is cut at its last dot in one way only. *)
Lemma last_dot_unique a : forall a' b b',
  a +:+ "." +:+ b = a' +:+ "." +:+ b' ->
  has_char "." b = false -> has_char "." b' = false ->
  a = a' /\ b = b'.
Proof.
  induction a as [|x a IH]; intros [|x' a'] b b' H Hb Hb';
    rewrite ?app_cons_string, ?app_nil_string in H.
  - injection H as H. auto.
  - injection H as Hx H. subst b. rewrite has_char_app in Hb. cbn in Hb.
    rewrite orb_true_r in Hb. discriminate.
  - injection H as Hx H. subst b'. rewrite has_char_app in Hb'. cbn in Hb'.
    rewrite orb_true_r in Hb'. discriminate.
  - injection H as Hx H. subst x'.
    destruct (IH a' b b' H Hb Hb') as [-> ->]. auto.
Qed.

Lemma suffix_of_name base ext p :
  base <> "" -> ext <> "" -> has_char "." ext = false ->
  name p = base +:+ "." +:+ ext -> path_suffix p = "." +:+ ext.
Proof.
  intros Hbase Hext Hdot Hn.
  destruct (stem_suffix_cases p) as [[Hs _]|(a & b & Hn' & Hb & _ & _ & _ & ->)].
  - exfalso. unfold stem in Hs.
    pose proof (rfind_dot_last (name p) 0 None) as H.
    destruct (rfind_dot (name p) 0 None) as [j|].
    + destruct H as [[H _]|(a & b & Hn' & Hb & ->)]; [discriminate|].
      rewrite Hn in Hn'.
      destruct (last_dot_unique _ _ _ _ Hn' Hdot Hb) as [<- <-].
      rewrite Hn, !length_app_string in Hs. cbn [String.length Nat.add] in Hs.
      replace (0 <? String.length base)%nat with true in Hs
        by (symmetry; apply Nat.ltb_lt; destruct base; [congruence|cbn; lia]).
      replace (String.length base
               <? String.length base + S (String.length ext) - 1)%nat
        with true in Hs
        by (symmetry; apply Nat.ltb_lt; destruct ext; [congruence|cbn; lia]).
      cbn [andb] in Hs. rewrite substring_app in Hs.
      apply (f_equal String.length) in Hs.
      rewrite !length_app_string in Hs. cbn in Hs. lia.
    + destruct H as [_ H]. rewrite Hn, has_char_app in H. cbn in H.
      rewrite orb_true_r in H. discriminate.
  - rewrite Hn in Hn'.
    destruct (last_dot_unique _ _ _ _ Hn' Hdot Hb) as [_ <-]. reflexivity.
Qed.

Lemma in_first_group_registrations s event_type h :
  In h (first_group s event_type) -> In h (registrations s event_type).
Proof.
  unfold first_group, registrations.
  destruct (default ∅ (hooks s) !! event_type) as [[|first others]|];
    try contradiction.
  cbn [map concat]. intros H. apply in_or_app. now left.
Qed.

End PathFacts.

(** X26.  File names and modes.  The stem the hook is registered under and
    the suffix of the file make up the name again.  [copy_hooks] makes the
    copy executable exactly when the name is a text that is not empty
    followed by [.py] or [.sh]; so a file named just [.py], or one without
    extension, keeps the mode it was copied with. *)
Theorem executable_exactly_for_py_and_sh (hook_file : Deploy.path) :
  Deploy.stem hook_file +:+ path_suffix hook_file = Deploy.name hook_file
  /\ (made_executable hook_file = true
      <-> exists base,
            base <> ""
            /\ (Deploy.name hook_file = base +:+ ".py"
                \/ Deploy.name hook_file = base +:+ ".sh")).
Proof.
  split.
  - destruct (PathFacts.stem_suffix_cases hook_file)
      as [[-> ->]|(a & b & -> & _ & _ & _ & -> & ->)];
      [apply NpmBlanks.app_nil_r_string|reflexivity].
  - unfold made_executable. split.
    + intros H.
      destruct (PathFacts.stem_suffix_cases hook_file)
        as [[_ Hs]|(a & b & Hn & _ & Ha & _ & _ & Hs)];
        rewrite Hs in H; [discriminate H|].
      exists a. split; [exact Ha|]. rewrite Hn.
      rewrite app_cons_string, app_nil_string in H.
      apply orb_prop in H as [H|H]; apply String.eqb_eq in H;
        injection H as ->; auto.
    + intros (base & Hbase & [Hn|Hn]).
      * rewrite (PathFacts.suffix_of_name base "py" _ Hbase) by
          (first [discriminate|reflexivity|exact Hn]).
        reflexivity.
      * rewrite (PathFacts.suffix_of_name base "sh" _ Hbase) by
          (first [discriminate|reflexivity|exact Hn]).
        reflexivity.
Qed.

Lemma executable_exactly_for_py_and_sh_witness :
  made_executable (dest "grep-to-rg.py") = true.
Proof.
  apply (proj2 (proj2 (executable_exactly_for_py_and_sh (dest "grep-to-rg.py")))).
  exists "grep-to-rg". split; [discriminate|now left].
Defined.

(** X27.  The summary after a deployment.  [display_summary] shows a
    registration, of any group, exactly when its command holds
    [/.claude/hooks/], under the name [unnamed] when it has none.  After an
    update every hook deployed into a directory [.claude/hooks] is shown
    under its event type, with its stem and the path of its copy. *)
Theorem summary_shows_deployed_hooks
    (s : Deploy.settings) (event_type : string) :
  (forall name command,
      In (name, command) (shown s event_type) <->
      exists hook,
        In hook (Deploy.registrations s event_type)
        /\ name = default "unnamed" (Deploy.reg_name hook)
        /\ command = default "" (Deploy.reg_command hook)
        /\ PyStr.contains "/.claude/hooks/" command = true)
  /\ (forall deployed_hooks p,
        In p deployed_hooks ->
        endswith "/.claude/hooks" (Deploy.parent p) = true ->
        In (Deploy.stem p, Deploy.str p)
           (shown (Deploy.update_settings s deployed_hooks)
                  (Deploy.event_type_of (Deploy.stem p)))).
Proof.
  assert (forall s event_type name command,
             In (name, command) (shown s event_type) <->
             exists hook,
               In hook (Deploy.registrations s event_type)
               /\ name = default "unnamed" (Deploy.reg_name hook)
               /\ command = default "" (Deploy.reg_command hook)
               /\ PyStr.contains "/.claude/hooks/" command = true) as Hshown.
  { clear. intros s event_type name command. unfold shown.
    rewrite <- list_elem_of_In, list_elem_of_omap. split.
    - intros (hook & Hin & H). exists hook.
      destruct (PyStr.contains _ _) eqn:E; [|discriminate].
      injection H as <- <-. rewrite <- list_elem_of_In. auto.
    - intros (hook & Hin & -> & -> & Hc). exists hook.
      rewrite list_elem_of_In. split; [exact Hin|]. now rewrite Hc. }
  split; [apply Hshown|].
  intros deployed_hooks p Hp Hdir. apply Hshown.
  exists (Deploy.register p). split; [|split; [reflexivity|split; [reflexivity|]]].
  - apply PathFacts.in_first_group_registrations.
    rewrite DeployFacts.first_group_update. apply in_or_app. right.
    apply in_map, DeployFacts.in_hooks_for. auto.
  - cbn [Deploy.register Deploy.reg_command default from_option].
    unfold Datatypes.id, Deploy.str.
    apply PatternFacts.endswith_split in Hdir as [q ->].
    change (PyStr.contains "/.claude/hooks/"
              ((q +:+ "/.claude/hooks") +:+ "/" +:+ Deploy.name p) = true).
    rewrite NpmBlanks.app_assoc_string.
    apply PatternFacts.contains_behind.
    exact (GrepFacts.startswith_app "/.claude/hooks/" (Deploy.name p)).
Qed.

Lemma summary_shows_deployed_hooks_witness :
  In ("grep-to-rg", "/home/u/.claude/hooks/grep-to-rg.py")
     (shown (Deploy.update_settings Deploy.no_settings [dest "grep-to-rg.py"])
            "PreToolUse").
Proof.
  exact (proj2 (summary_shows_deployed_hooks Deploy.no_settings "PreToolUse")
           [dest "grep-to-rg.py"] (dest "grep-to-rg.py")
           (or_introl eq_refl) eq_refl).
Defined.

(** ** Idempotence of the deployer and isolation of sessions *)

Module IdempotenceFacts.
Import Deploy.

Lemma merged_twice old new_hooks :
  (exists l, new_hooks = map register l) ->
  merged (Some (merged old new_hooks)) new_hooks = merged old new_hooks.
Proof.
  intros [l ->].
  assert (forall kept,
            List.filter (not_redeployed (commands_of (map register l)))
              (List.filter (not_redeployed (commands_of (map register l))) kept
               ++ map register l) ++ map register l
            = List.filter (not_redeployed (commands_of (map register l))) kept
              ++ map register l) as Hkeep.
  { intros kept.
    rewrite List.filter_app, DeployFacts.filter_idem,
      DeployFacts.filter_regs_redeployed, app_nil_r. reflexivity. }
  unfold merged. destruct old as [[|first others]|];
    cbn [group_hooks group_other default from_option]; unfold Datatypes.id.
  - rewrite DeployFacts.filter_regs_redeployed. reflexivity.
  - rewrite Hkeep. reflexivity.
  - rewrite DeployFacts.filter_regs_redeployed. reflexivity.
Qed.

End IdempotenceFacts.

(** X28.  Deploying the same hooks a second time changes nothing: the
    settings document after the second update is the document after the
    first, in every event type, every group and every other key. *)
Theorem deployer_is_idempotent
    (s : Deploy.settings) (deployed_hooks : list Deploy.path) :
  Deploy.update_settings (Deploy.update_settings s deployed_hooks)
                         deployed_hooks
  = Deploy.update_settings s deployed_hooks.
Proof.
  assert (forall event_type,
            groups_of (Deploy.update_settings
                         (Deploy.update_settings s deployed_hooks)
                         deployed_hooks) event_type
            = groups_of (Deploy.update_settings s deployed_hooks) event_type)
    as Hgroups.
  { intros event_type. rewrite !DeployMore.groups_update.
    destruct (Deploy.regs_for event_type deployed_hooks) as [|r rs] eqn:E;
      [reflexivity|].
    f_equal. apply IdempotenceFacts.merged_twice.
    exists (Deploy.hooks_for event_type deployed_hooks). now rewrite <- E. }
  unfold groups_of in Hgroups.
  unfold Deploy.update_settings in *.
  cbn [Deploy.hooks Deploy.other_settings default from_option] in *.
  unfold Datatypes.id in *. f_equal. f_equal.
  apply map_eq. exact Hgroups.
Qed.

(** X29.  Sessions do not touch one another.  An invocation of the
    tool-call logger under one session identifier leaves the rows of every
    other session as they were, and with them the counts and the duration
    the session logger reads for that session. *)
Theorem sessions_are_isolated
    (w : CommandTracker.world) (db : Sqlite.store CommandTracker.table)
    (input : stdin CommandTracker.request) (sid : string) :
  CommandTracker.session_of w <> sid ->
  let after := CommandTracker.store_after (CommandTracker.main w db input) in
  CommandTracker.rows_of after sid = CommandTracker.rows_of db sid
  /\ fst (SessionTracker.read_stats after sid)
     = fst (SessionTracker.read_stats db sid).
Proof.
  intros Hsid after. subst after.
  destruct input as [input_data|]; [|split; reflexivity].
  cbn [CommandTracker.main].
  destruct db as [|[t|]]; [split; reflexivity| |].
  - unfold CommandTracker.hook. cbn [CommandTracker.create_table].
    destruct (negb _); [split; reflexivity|].
    destruct (negb _); [split; reflexivity|].
    cbn [CommandTracker.store_after].
    assert (forall r rows,
              CommandTracker.session_id r = CommandTracker.session_of w ->
              List.filter
                (fun r => String.eqb (CommandTracker.session_id r) sid)
                (rows ++ [r])
              = List.filter
                  (fun r => String.eqb (CommandTracker.session_id r) sid) rows)
      as Hfilter.
    { intros r rows Hr. rewrite List.filter_app. cbn [List.filter].
      rewrite Hr. destruct (String.eqb_spec (CommandTracker.session_of w) sid);
        [contradiction|apply app_nil_r]. }
    split.
    + cbn [CommandTracker.rows_of CommandTracker.rows]. now apply Hfilter.
    + unfold SessionTracker.read_stats, SessionTracker.count_tools,
        SessionTracker.count_files, SessionTracker.count_commands,
        SessionTracker.query_duration, SessionTracker.of_session.
      cbn [CommandTracker.columns CommandTracker.rows].
      now rewrite Hfilter.
  - cbn. destruct (String.eqb_spec (default "unknown"
                     (CommandTracker.CLAUDE_SESSION_ID w)) sid) as [E|_];
      [contradiction|]. split; reflexivity.
Qed.

Lemma sessions_are_isolated_witness :
  CommandTracker.rows_of
    (CommandTracker.store_after
       (CommandTracker.main (fst read_call)
          (Sqlite.Usable (Some (five_calls 4))) (Json (snd read_call)))) "S"
  = CommandTracker.rows_of (Sqlite.Usable (Some (five_calls 4))) "S".
Proof.
  exact (proj1 (sessions_are_isolated (fst read_call)
                  (Sqlite.Usable (Some (five_calls 4))) (Json (snd read_call))
                  "S" ltac:(discriminate))).
Defined.
